(** * Caliptra ROM: image verifier and boot flows

    A shallow embedding of the parts of the Caliptra ROM that authenticate a
    firmware bundle ([image/verify/src/verifier.rs]), populate the data vault
    and key ladder on cold and update reset
    ([rom/dev/src/flow/cold_reset/fw_processor.rs],
    [rom/dev/src/flow/update_reset.rs]), run the pre-firmware-load mailbox
    loop, and derive ECC key pairs ([rom/dev/src/crypto.rs]).

    Machine integers ([u8], [u32]) are [Z] with their wrap-around written
    out. Digests are [Z] values (a 384-bit digest is one number); the
    all-zero digest is [0]. Hardware engines and fuse/data-vault reads are
    fields of an environment record: the verifier is generic over the
    [ImageVerificationEnv] trait exactly as in the source. *)

From Stdlib Require Import ZArith List Bool Lia.
Import ListNotations.
Open Scope Z_scope.

(** ** Errors and the result monad *)

Inductive CaliptraError :=
  (* structural *)
  | IMAGE_VERIFIER_ERR_MANIFEST_MARKER_MISMATCH
  | IMAGE_VERIFIER_ERR_MANIFEST_SIZE_MISMATCH
  | IMAGE_VERIFIER_ERR_PQC_KEY_TYPE_INVALID
  | IMAGE_VERIFIER_ERR_PQC_KEY_TYPE_MISMATCH
  | IMAGE_VERIFIER_ERR_PQC_KEY_TYPE_FUSE (* error of the fuse read itself *)
  (* vendor public key info *)
  | IMAGE_VERIFIER_ERR_VENDOR_PUB_KEY_DIGEST_INVALID
  | IMAGE_VERIFIER_ERR_ECC_KEY_DESCRIPTOR_VERSION_MISMATCH
  | IMAGE_VERIFIER_ERR_ECC_KEY_DESCRIPTOR_INVALID_HASH_COUNT
  | IMAGE_VERIFIER_ERR_ECC_KEY_DESCRIPTOR_HASH_COUNT_GT_MAX
  | IMAGE_VERIFIER_ERR_PQC_KEY_DESCRIPTOR_VERSION_MISMATCH
  | IMAGE_VERIFIER_ERR_PQC_KEY_DESCRIPTOR_TYPE_MISMATCH
  | IMAGE_VERIFIER_ERR_PQC_KEY_DESCRIPTOR_INVALID_HASH_COUNT
  | IMAGE_VERIFIER_ERR_PQC_KEY_DESCRIPTOR_HASH_COUNT_GT_MAX
  | IMAGE_VERIFIER_ERR_VENDOR_PUB_KEY_DIGEST_FAILURE
  | IMAGE_VERIFIER_ERR_VENDOR_PUB_KEY_DIGEST_MISMATCH
  | IMAGE_VERIFIER_ERR_VENDOR_ECC_PUB_KEY_DIGEST_MISMATCH
  | IMAGE_VERIFIER_ERR_VENDOR_PQC_PUB_KEY_DIGEST_MISMATCH
  (* owner public key *)
  | IMAGE_VERIFIER_ERR_OWNER_PUB_KEY_DIGEST_FAILURE
  | IMAGE_VERIFIER_ERR_OWNER_PUB_KEY_DIGEST_MISMATCH
  | IMAGE_VERIFIER_ERR_UPDATE_RESET_OWNER_DIGEST_FAILURE
  (* key indices *)
  | IMAGE_VERIFIER_ERR_VENDOR_ECC_PUB_KEY_INDEX_OUT_OF_BOUNDS
  | IMAGE_VERIFIER_ERR_VENDOR_ECC_PUB_KEY_REVOKED
  | IMAGE_VERIFIER_ERR_UPDATE_RESET_VENDOR_ECC_PUB_KEY_IDX_MISMATCH
  | IMAGE_VERIFIER_ERR_VENDOR_PQC_PUB_KEY_INDEX_OUT_OF_BOUNDS
  | IMAGE_VERIFIER_ERR_VENDOR_PQC_PUB_KEY_REVOKED
  | IMAGE_VERIFIER_ERR_UPDATE_RESET_VENDOR_PQC_PUB_KEY_IDX_MISMATCH
  (* header *)
  | IMAGE_VERIFIER_ERR_HEADER_DIGEST_FAILURE
  | IMAGE_VERIFIER_ERR_VENDOR_ECC_PUB_KEY_INVALID_ARG
  | IMAGE_VERIFIER_ERR_VENDOR_ECC_SIGNATURE_INVALID_ARG
  | IMAGE_VERIFIER_ERR_VENDOR_ECC_VERIFY_FAILURE
  | IMAGE_VERIFIER_ERR_VENDOR_ECC_SIGNATURE_INVALID
  | IMAGE_VERIFIER_ERR_VENDOR_LMS_VERIFY_FAILURE
  | IMAGE_VERIFIER_ERR_VENDOR_LMS_SIGNATURE_INVALID
  | IMAGE_VERIFIER_ERR_VENDOR_MLDSA_VERIFY_FAILURE
  | IMAGE_VERIFIER_ERR_VENDOR_MLDSA_SIGNATURE_INVALID
  | IMAGE_VERIFIER_ERR_VENDOR_MLDSA_DIGEST_MISSING
  | IMAGE_VERIFIER_ERR_VENDOR_ECC_PUB_KEY_INDEX_MISMATCH
  | IMAGE_VERIFIER_ERR_VENDOR_PQC_PUB_KEY_INDEX_MISMATCH
  | IMAGE_VERIFIER_ERR_OWNER_ECC_PUB_KEY_INVALID_ARG
  | IMAGE_VERIFIER_ERR_OWNER_ECC_SIGNATURE_INVALID_ARG
  | IMAGE_VERIFIER_ERR_OWNER_ECC_VERIFY_FAILURE
  | IMAGE_VERIFIER_ERR_OWNER_ECC_SIGNATURE_INVALID
  | IMAGE_VERIFIER_ERR_OWNER_LMS_VERIFY_FAILURE
  | IMAGE_VERIFIER_ERR_OWNER_LMS_SIGNATURE_INVALID
  | IMAGE_VERIFIER_ERR_OWNER_MLDSA_VERIFY_FAILURE
  | IMAGE_VERIFIER_ERR_OWNER_MLDSA_SIGNATURE_INVALID
  | IMAGE_VERIFIER_ERR_OWNER_MLDSA_DIGEST_MISSING
  (* TOC *)
  | IMAGE_VERIFIER_ERR_TOC_ENTRY_COUNT_INVALID
  | IMAGE_VERIFIER_ERR_TOC_DIGEST_FAILURE
  | IMAGE_VERIFIER_ERR_TOC_DIGEST_MISMATCH
  | IMAGE_VERIFIER_ERR_TOC_ENTRY_RANGE_ARITHMETIC_OVERFLOW
  | IMAGE_VERIFIER_ERR_FMC_SIZE_ZERO
  | IMAGE_VERIFIER_ERR_RUNTIME_SIZE_ZERO
  | IMAGE_VERIFIER_ERR_IMAGE_LEN_MORE_THAN_BUNDLE_SIZE
  | IMAGE_VERIFIER_ERR_FMC_RUNTIME_OVERLAP
  | IMAGE_VERIFIER_ERR_FMC_RUNTIME_INCORRECT_ORDER
  | IMAGE_VERIFIER_ERR_FMC_LOAD_ADDRESS_IMAGE_SIZE_ARITHMETIC_OVERFLOW
  | IMAGE_VERIFIER_ERR_RUNTIME_LOAD_ADDRESS_IMAGE_SIZE_ARITHMETIC_OVERFLOW
  | IMAGE_VERIFIER_ERR_FMC_RUNTIME_LOAD_ADDR_OVERLAP
  (* FMC and Runtime *)
  | IMAGE_VERIFIER_ERR_FMC_DIGEST_FAILURE
  | IMAGE_VERIFIER_ERR_FMC_DIGEST_MISMATCH
  | IMAGE_VERIFIER_ERR_FMC_LOAD_ADDR_INVALID
  | IMAGE_VERIFIER_ERR_FMC_LOAD_ADDR_UNALIGNED
  | IMAGE_VERIFIER_ERR_FMC_ENTRY_POINT_INVALID
  | IMAGE_VERIFIER_ERR_FMC_ENTRY_POINT_UNALIGNED
  | IMAGE_VERIFIER_ERR_UPDATE_RESET_FMC_DIGEST_MISMATCH
  | IMAGE_VERIFIER_ERR_RUNTIME_DIGEST_FAILURE
  | IMAGE_VERIFIER_ERR_RUNTIME_DIGEST_MISMATCH
  | IMAGE_VERIFIER_ERR_RUNTIME_LOAD_ADDR_INVALID
  | IMAGE_VERIFIER_ERR_RUNTIME_LOAD_ADDR_UNALIGNED
  | IMAGE_VERIFIER_ERR_RUNTIME_ENTRY_POINT_INVALID
  | IMAGE_VERIFIER_ERR_RUNTIME_ENTRY_POINT_UNALIGNED
  (* SVN *)
  | IMAGE_VERIFIER_ERR_FIRMWARE_SVN_GREATER_THAN_MAX_SUPPORTED
  | IMAGE_VERIFIER_ERR_FIRMWARE_SVN_LESS_THAN_FUSE
  (* ROM flows *)
  | FW_PROC_SVN_TOO_LARGE
  | FW_PROC_MAILBOX_RESERVED_PAUSER
  | FW_PROC_MAILBOX_INVALID_COMMAND
  | FW_PROC_MAILBOX_INVALID_REQUEST_LENGTH
  | FW_PROC_MAILBOX_INVALID_CHECKSUM
  | FW_PROC_MAILBOX_STASH_MEASUREMENT_MAX_LIMIT
  | FW_PROC_MAILBOX_FW_LOAD_CMD_IN_ACTIVE_MODE
  | FW_PROC_INVALID_IMAGE_SIZE
  | ROM_GLOBAL_MEASUREMENT_LOG_EXHAUSTED
  | ROM_UPDATE_RESET_FLOW_MAILBOX_ACCESS_FAILURE
  | ROM_UPDATE_RESET_FLOW_INVALID_FIRMWARE_COMMAND
  | DRIVER_ERROR (code : Z) (* an error reported by a hardware driver *).

(** [CaliptraResult<T>]. *)
Inductive result (A : Type) : Type :=
  | Ok (a : A)
  | Err (e : CaliptraError).
Arguments Ok {A} a.
Arguments Err {A} e.

Definition bind {A B : Type} (m : result A) (k : A -> result B) : result B :=
  match m with
  | Ok a => k a
  | Err e => Err e
  end.

(** [let? x := m in k] is Rust's [let x = m?; k]. *)
Notation "'let?' x ':=' m 'in' k" := (bind m (fun x => k))
  (at level 200, x name, m at level 100, k at level 200).

(** [if cond { Err(e)? }] *)
Definition fail_if (cond : bool) (e : CaliptraError) : result unit :=
  if cond then Err e else Ok tt.

(** [.map_err(|_| e)] on an engine call; [None] is the engine's failure. *)
Definition map_err {A : Type} (m : option A) (e : CaliptraError) : result A :=
  match m with
  | Some a => Ok a
  | None => Err e
  end.

Definition is_ok {A : Type} (r : result A) : bool :=
  match r with Ok _ => true | Err _ => false end.

(** ** Machine integers *)

Definition U32_MOD : Z := 2 ^ 32.

(** [a - b] on [u32] with wrap-around (release build, no overflow checks). *)
Definition u32_sub (a b : Z) : Z := (a - b) mod U32_MOD.

(** [a.overflowing_add(b)] on [u32]. *)
Definition u32_overflowing_add (a b : Z) : Z * bool :=
  ((a + b) mod U32_MOD, U32_MOD <=? a + b).

(** [0x01u32 << n] (release build: the shift amount is taken modulo 32). *)
Definition u32_shl1 (n : Z) : Z := Z.land (Z.shiftl 1 (n mod 32)) (U32_MOD - 1).

(** ** Image verifier ([image/verify/src/verifier.rs]) *)

Module ImageVerify.

Inductive Lifecycle := Unprovisioned | Manufacturing | Production.

Definition lifecycle_eqb (a b : Lifecycle) : bool :=
  match a, b with
  | Unprovisioned, Unprovisioned | Manufacturing, Manufacturing
  | Production, Production => true
  | _, _ => false
  end.

Inductive ResetReason := ColdReset | WarmReset | UpdateReset | Unknown.

Definition reset_reason_eqb (a b : ResetReason) : bool :=
  match a, b with
  | ColdReset, ColdReset | WarmReset, WarmReset
  | UpdateReset, UpdateReset | Unknown, Unknown => true
  | _, _ => false
  end.

Inductive FwVerificationPqcKeyType := LMS | MLDSA.

Definition pqc_key_type_eqb (a b : FwVerificationPqcKeyType) : bool :=
  match a, b with
  | LMS, LMS | MLDSA, MLDSA => true
  | _, _ => false
  end.

Record ImageEccPubKey := { ecc_x : Z; ecc_y : Z }.
Record ImageEccSignature := { sig_r : Z; sig_s : Z }.

(** A vendor key descriptor; [key_hash] is the fixed-size hash array. *)
Record KeyDescriptor := {
  version : Z;
  key_type : Z;
  key_hash_count : Z; (* u8 *)
  key_hash : list Z;
}.

(** [ImagePreamble]. The PQC keys and signatures are raw byte buffers that
    the code reinterprets as LMS or MLDSA values; they are kept raw here. *)
Record ImagePreamble := {
  ecc_key_descriptor : KeyDescriptor; (* vendor_pub_key_info.ecc_key_descriptor *)
  pqc_key_descriptor : KeyDescriptor; (* vendor_pub_key_info.pqc_key_descriptor *)
  vendor_ecc_pub_key_idx : Z;
  vendor_pqc_pub_key_idx : Z;
  vendor_ecc_active_pub_key : ImageEccPubKey;
  vendor_pqc_active_pub_key : Z;
  vendor_ecc_sig : ImageEccSignature; (* vendor_sigs.ecc_sig *)
  vendor_pqc_sig : Z;                 (* vendor_sigs.pqc_sig *)
  owner_ecc_pub_key : ImageEccPubKey; (* owner_pub_keys.ecc_pub_key *)
  owner_pqc_pub_key : Z;              (* owner_pub_keys.pqc_pub_key *)
  owner_ecc_sig : ImageEccSignature;  (* owner_sigs.ecc_sig *)
  owner_pqc_sig : Z;                  (* owner_sigs.pqc_sig *)
}.

Record ImageHeader := {
  hdr_vendor_ecc_pub_key_idx : Z;
  hdr_vendor_pqc_pub_key_idx : Z;
  svn : Z;
  toc_len : Z;
  toc_digest : Z;
}.

Record ImageTocEntry := {
  load_addr : Z;
  entry_point : Z;
  offset : Z;
  size : Z;
  digest : Z;
}.

Record ImageManifest := {
  marker : Z;
  manifest_size : Z; (* ImageManifest::size *)
  pqc_key_type : Z;  (* u8 *)
  preamble : ImagePreamble;
  header : ImageHeader;
  fmc : ImageTocEntry;
  runtime : ImageTocEntry;
}.

(** Constants and layout facts the verifier reads from other crates
    ([caliptra_image_types], [memoffset]); kept symbolic. A range is
    [(start, end)] with [end] exclusive. *)
Record Consts := {
  MANIFEST_MARKER : Z;
  MANIFEST_BYTE_SIZE : Z; (* core::mem::size_of::<ImageManifest>() *)
  KEY_DESCRIPTOR_VERSION : Z;
  VENDOR_ECC_MAX_KEY_COUNT : Z;
  VENDOR_LMS_MAX_KEY_COUNT : Z;
  VENDOR_MLDSA_MAX_KEY_COUNT : Z;
  MAX_TOC_ENTRY_COUNT : Z;
  MAX_FIRMWARE_SVN : Z;
  (** the bits [VendorEccPubKeyRevocation] defines *)
  VENDOR_ECC_REVOCATION_BITS : Z;
  (** [FwVerificationPqcKeyType::from_u8] and [as u8] *)
  pqc_key_type_from_u8 : Z -> option FwVerificationPqcKeyType;
  pqc_key_type_as_u8 : FwVerificationPqcKeyType -> Z;
  vendor_pub_key_descriptors_range : Z * Z;
  owner_pub_key_range : Z * Z;
  header_range : Z * Z;
  vendor_header_len : Z; (* offset_of!(ImageHeader, owner_data) *)
  toc_range : Z * Z;
  vendor_ecc_active_pub_key_range : Z * Z;
  vendor_pqc_active_pub_key_start : Z;
  MLDSA87_PUB_KEY_BYTE_SIZE : Z;
  LMS_PUB_KEY_BYTE_SIZE : Z;
  (** [HashValue::from(lms_pub_key.digest)] of a raw PQC key buffer *)
  lms_pub_key_digest : Z -> Z;
}.

(** The [ImageVerificationEnv] trait. An engine result [None] is the
    engine's error; the accompanying [set_fw_extended_error] write is not
    observed by any property here and is left out. *)
Record Env := {
  sha384_digest : Z -> Z -> option Z; (* offset, len *)
  sha512_digest : Z -> Z -> option Z;
  ecc384_verify : Z -> ImageEccPubKey -> ImageEccSignature -> option Z;
  lms_verify : Z -> Z -> Z -> option Z;
  mldsa87_verify : Z -> Z -> Z -> option bool; (* Some true = Success *)
  vendor_pub_key_info_digest_fuses : Z;
  vendor_ecc_pub_key_revocation : Z;
  vendor_lms_pub_key_revocation : Z;
  vendor_mldsa_pub_key_revocation : Z;
  owner_pub_key_digest_fuses : Z;
  anti_rollback_disable : bool;
  dev_lifecycle : Lifecycle;
  vendor_ecc_pub_key_idx_dv : Z;
  vendor_pqc_pub_key_idx_dv : Z;
  owner_pub_key_digest_dv : Z;
  get_fmc_digest_dv : Z;
  fw_fuse_svn : Z;
  iccm_range : Z * Z;
  pqc_key_type_fuse : option FwVerificationPqcKeyType; (* None: the fuse read failed *)
}.

Definition ZERO_DIGEST : Z := 0.

Definition range_len (r : Z * Z) : Z := snd r - fst r.

(** [Range::contains] *)
Definition range_contains (r : Z * Z) (x : Z) : bool :=
  (fst r <=? x) && (x <? snd r).

Inductive PqcKeyInfo :=
  | PqcLms (pub_key : Z) (sig : Z)
  | PqcMldsa (pub_key : Z) (sig : Z).

Record HeaderInfo := {
  hi_vendor_ecc_pub_key_idx : Z;
  hi_vendor_pqc_pub_key_idx : Z;
  hi_vendor_ecc_pub_key_revocation : Z;
  hi_vendor_ecc_info : ImageEccPubKey * ImageEccSignature;
  hi_vendor_pqc_info : PqcKeyInfo;
  hi_vendor_pqc_pub_key_revocation : Z;
  hi_owner_ecc_info : ImageEccPubKey * ImageEccSignature;
  hi_owner_pqc_info : PqcKeyInfo;
  hi_owner_pub_keys_digest : Z;
  hi_owner_pub_keys_digest_in_fuses : bool;
}.

Record TocInfo := { toc_info_len : Z; toc_info_digest : Z }.

Record ImageVerificationExeInfo := {
  exe_load_addr : Z;
  exe_entry_point : Z;
  exe_digest : Z;
  exe_size : Z;
}.

Record ImageVerificationInfo := {
  info_vendor_ecc_pub_key_idx : Z;
  info_vendor_pqc_pub_key_idx : Z;
  info_owner_pub_keys_digest : Z;
  info_owner_pub_keys_digest_in_fuses : bool;
  info_fmc : ImageVerificationExeInfo;
  info_runtime : ImageVerificationExeInfo;
  fw_svn : Z;
  effective_fuse_svn : Z;
  info_fuse_vendor_ecc_pub_key_revocation : Z;
  info_fuse_vendor_pqc_pub_key_revocation : Z;
  info_fuse_svn : Z;
  info_pqc_key_type : FwVerificationPqcKeyType;
}.

Section Verifier.

Variable c : Consts.
Variable env : Env.

(** [VendorEccPubKeyRevocation::from_bits_truncate] and [contains]. *)
Definition revocation_from_bits_truncate (bits : Z) : Z :=
  Z.land bits (VENDOR_ECC_REVOCATION_BITS c).

Definition revocation_contains (self other : Z) : bool :=
  Z.land self other =? other.

(** [svn_check_required] *)
Definition svn_check_required : bool :=
  if lifecycle_eqb (dev_lifecycle env) Unprovisioned then false
  else if anti_rollback_disable env then false
  else true.

(** [verify_svn] *)
Definition verify_svn (fw_svn : Z) : result unit :=
  if svn_check_required then
    let? _ := fail_if (fw_svn >? MAX_FIRMWARE_SVN c)
                IMAGE_VERIFIER_ERR_FIRMWARE_SVN_GREATER_THAN_MAX_SUPPORTED in
    fail_if (fw_svn <? fw_fuse_svn env) IMAGE_VERIFIER_ERR_FIRMWARE_SVN_LESS_THAN_FUSE
  else Ok tt.

(** [effective_fuse_svn] *)
Definition effective_fuse_svn_of : Z :=
  if anti_rollback_disable env then 0 else fw_fuse_svn env.

(** [verify_active_ecc_pub_key_digest] *)
Definition verify_active_ecc_pub_key_digest (p : ImagePreamble) : result unit :=
  let ecc_key_idx := vendor_ecc_pub_key_idx p in
  let? expected := map_err (nth_error (key_hash (ecc_key_descriptor p)) (Z.to_nat ecc_key_idx))
                     IMAGE_VERIFIER_ERR_VENDOR_ECC_PUB_KEY_INDEX_OUT_OF_BOUNDS in
  let range := vendor_ecc_active_pub_key_range c in
  let? actual := map_err (sha384_digest env (fst range) (range_len range))
                   IMAGE_VERIFIER_ERR_VENDOR_PUB_KEY_DIGEST_FAILURE in
  fail_if (negb (expected =? actual)) IMAGE_VERIFIER_ERR_VENDOR_ECC_PUB_KEY_DIGEST_MISMATCH.

(** [verify_active_pqc_pub_key_digest] *)
Definition verify_active_pqc_pub_key_digest (p : ImagePreamble)
    (pqc : FwVerificationPqcKeyType) : result unit :=
  let pqc_key_idx := vendor_pqc_pub_key_idx p in
  let expected := nth_error (key_hash (pqc_key_descriptor p)) (Z.to_nat pqc_key_idx) in
  match expected with
  | None => Err IMAGE_VERIFIER_ERR_VENDOR_PQC_PUB_KEY_INDEX_OUT_OF_BOUNDS
  | Some expected =>
      let? _ := fail_if ((pqc_key_type_eqb pqc LMS && (VENDOR_LMS_MAX_KEY_COUNT c <=? pqc_key_idx))
                         || (pqc_key_type_eqb pqc MLDSA && (VENDOR_MLDSA_MAX_KEY_COUNT c <=? pqc_key_idx)))
                  IMAGE_VERIFIER_ERR_VENDOR_PQC_PUB_KEY_INDEX_OUT_OF_BOUNDS in
      let start := vendor_pqc_active_pub_key_start c in
      let sz := if pqc_key_type_eqb pqc MLDSA then MLDSA87_PUB_KEY_BYTE_SIZE c
                else LMS_PUB_KEY_BYTE_SIZE c in
      let? actual := map_err (sha384_digest env start sz)
                       IMAGE_VERIFIER_ERR_VENDOR_PUB_KEY_DIGEST_FAILURE in
      fail_if (negb (expected =? actual)) IMAGE_VERIFIER_ERR_VENDOR_PQC_PUB_KEY_DIGEST_MISMATCH
  end.

(** [verify_vendor_pub_key_info_digest]: skipped entirely in the
    unprovisioned lifecycle. [MAX as u8] is written [MAX mod 256]. *)
Definition verify_vendor_pub_key_info_digest (p : ImagePreamble)
    (pqc : FwVerificationPqcKeyType) : result unit :=
  if lifecycle_eqb (dev_lifecycle env) Unprovisioned then Ok tt else
  let expected := vendor_pub_key_info_digest_fuses env in
  let? _ := fail_if (expected =? ZERO_DIGEST) IMAGE_VERIFIER_ERR_VENDOR_PUB_KEY_DIGEST_INVALID in
  let ecc := ecc_key_descriptor p in
  let pqcd := pqc_key_descriptor p in
  let? _ := fail_if (negb (version ecc =? KEY_DESCRIPTOR_VERSION c))
              IMAGE_VERIFIER_ERR_ECC_KEY_DESCRIPTOR_VERSION_MISMATCH in
  let? _ := fail_if (key_hash_count ecc =? 0)
              IMAGE_VERIFIER_ERR_ECC_KEY_DESCRIPTOR_INVALID_HASH_COUNT in
  let? _ := fail_if (key_hash_count ecc >? VENDOR_ECC_MAX_KEY_COUNT c mod 256)
              IMAGE_VERIFIER_ERR_ECC_KEY_DESCRIPTOR_HASH_COUNT_GT_MAX in
  let? _ := fail_if (negb (version pqcd =? KEY_DESCRIPTOR_VERSION c))
              IMAGE_VERIFIER_ERR_PQC_KEY_DESCRIPTOR_VERSION_MISMATCH in
  let? _ := fail_if (negb (key_type pqcd =? pqc_key_type_as_u8 c pqc))
              IMAGE_VERIFIER_ERR_PQC_KEY_DESCRIPTOR_TYPE_MISMATCH in
  let? _ := fail_if (key_hash_count pqcd =? 0)
              IMAGE_VERIFIER_ERR_PQC_KEY_DESCRIPTOR_INVALID_HASH_COUNT in
  let? _ := fail_if ((pqc_key_type_eqb pqc LMS
                        && (key_hash_count pqcd >? VENDOR_LMS_MAX_KEY_COUNT c mod 256))
                     || (pqc_key_type_eqb pqc MLDSA
                        && (key_hash_count pqcd >? VENDOR_MLDSA_MAX_KEY_COUNT c mod 256)))
              IMAGE_VERIFIER_ERR_PQC_KEY_DESCRIPTOR_HASH_COUNT_GT_MAX in
  let range := vendor_pub_key_descriptors_range c in
  let? actual := map_err (sha384_digest env (fst range) (range_len range))
                   IMAGE_VERIFIER_ERR_VENDOR_PUB_KEY_DIGEST_FAILURE in
  let? _ := fail_if (negb (expected =? actual)) IMAGE_VERIFIER_ERR_VENDOR_PUB_KEY_DIGEST_MISMATCH in
  let? _ := verify_active_ecc_pub_key_digest p in
  verify_active_pqc_pub_key_digest p pqc.

(** [verify_owner_pk_digest]: the computed digest and whether fuses hold one. *)
Definition verify_owner_pk_digest (reason : ResetReason) : result (Z * bool) :=
  let range := owner_pub_key_range c in
  let? actual := map_err (sha384_digest env (fst range) (range_len range))
                   IMAGE_VERIFIER_ERR_OWNER_PUB_KEY_DIGEST_FAILURE in
  let fuses_digest := owner_pub_key_digest_fuses env in
  let? _ := if fuses_digest =? ZERO_DIGEST then Ok tt
            else fail_if (negb (fuses_digest =? actual))
                   IMAGE_VERIFIER_ERR_OWNER_PUB_KEY_DIGEST_MISMATCH in
  let? _ := if reset_reason_eqb reason UpdateReset then
              fail_if (negb (owner_pub_key_digest_dv env =? actual))
                IMAGE_VERIFIER_ERR_UPDATE_RESET_OWNER_DIGEST_FAILURE
            else Ok tt in
  Ok (actual, negb (fuses_digest =? ZERO_DIGEST)).

(** [verify_vendor_ecc_pk_idx] *)
Definition verify_vendor_ecc_pk_idx (p : ImagePreamble) (reason : ResetReason)
    : result (Z * Z) :=
  let key_idx := vendor_ecc_pub_key_idx p in
  let revocation := vendor_ecc_pub_key_revocation env in
  let key_hash_count := key_hash_count (ecc_key_descriptor p) in
  let last_key_idx := u32_sub key_hash_count 1 in
  let? _ := fail_if (key_idx >? last_key_idx)
              IMAGE_VERIFIER_ERR_VENDOR_ECC_PUB_KEY_INDEX_OUT_OF_BOUNDS in
  let? _ := if key_idx =? last_key_idx then Ok tt
            else
              let key := revocation_from_bits_truncate (u32_shl1 key_idx) in
              fail_if (revocation_contains revocation key)
                IMAGE_VERIFIER_ERR_VENDOR_ECC_PUB_KEY_REVOKED in
  let? _ := if reset_reason_eqb reason UpdateReset then
              fail_if (negb (vendor_ecc_pub_key_idx_dv env =? key_idx))
                IMAGE_VERIFIER_ERR_UPDATE_RESET_VENDOR_ECC_PUB_KEY_IDX_MISMATCH
            else Ok tt in
  Ok (key_idx, revocation).

(** [verify_vendor_pqc_pk_idx] *)
Definition verify_vendor_pqc_pk_idx (p : ImagePreamble) (reason : ResetReason)
    (revocation : Z) : result Z :=
  let key_idx := vendor_pqc_pub_key_idx p in
  let key_hash_count := key_hash_count (pqc_key_descriptor p) in
  let last_key_idx := u32_sub key_hash_count 1 in
  let? _ := fail_if (key_idx >? last_key_idx)
              IMAGE_VERIFIER_ERR_VENDOR_PQC_PUB_KEY_INDEX_OUT_OF_BOUNDS in
  let? _ := if key_idx =? last_key_idx then Ok tt
            else fail_if (negb (Z.land revocation (u32_shl1 key_idx) =? 0))
                   IMAGE_VERIFIER_ERR_VENDOR_PQC_PUB_KEY_REVOKED in
  let? _ := if reset_reason_eqb reason UpdateReset then
              fail_if (negb (vendor_pqc_pub_key_idx_dv env =? key_idx))
                IMAGE_VERIFIER_ERR_UPDATE_RESET_VENDOR_PQC_PUB_KEY_IDX_MISMATCH
            else Ok tt in
  Ok key_idx.
(** [verify_preamble]. Reading the PQC keys and signatures out of their
    fixed-size buffers ([ref_from_prefix]) cannot fail for those sizes and
    is written as the choice of a [PqcKeyInfo] view. *)
Definition verify_preamble (p : ImagePreamble) (reason : ResetReason)
    (pqc : FwVerificationPqcKeyType) : result HeaderInfo :=
  let? _ := verify_vendor_pub_key_info_digest p pqc in
  let? od := verify_owner_pk_digest reason in
  let '(owner_pub_keys_digest, owner_pub_keys_digest_in_fuses) := od in
  let? ei := verify_vendor_ecc_pk_idx p reason in
  let '(vendor_ecc_pub_key_idx, vendor_ecc_pub_key_revocation) := ei in
  let vendor_ecc_info := (vendor_ecc_active_pub_key p, vendor_ecc_sig p) in
  let vendor_pqc_info :=
    match pqc with
    | LMS => PqcLms (vendor_pqc_active_pub_key p) (vendor_pqc_sig p)
    | MLDSA => PqcMldsa (vendor_pqc_active_pub_key p) (vendor_pqc_sig p)
    end in
  let key_revocation :=
    match pqc with
    | LMS => vendor_lms_pub_key_revocation env
    | MLDSA => vendor_mldsa_pub_key_revocation env
    end in
  let? vendor_pqc_pub_key_idx := verify_vendor_pqc_pk_idx p reason key_revocation in
  let owner_ecc_info := (owner_ecc_pub_key p, owner_ecc_sig p) in
  let owner_pqc_info :=
    match pqc with
    | LMS => PqcLms (owner_pqc_pub_key p) (owner_pqc_sig p)
    | MLDSA => PqcMldsa (owner_pqc_pub_key p) (owner_pqc_sig p)
    end in
  Ok {| hi_vendor_ecc_pub_key_idx := vendor_ecc_pub_key_idx;
        hi_vendor_pqc_pub_key_idx := vendor_pqc_pub_key_idx;
        hi_vendor_ecc_pub_key_revocation := vendor_ecc_pub_key_revocation;
        hi_vendor_ecc_info := vendor_ecc_info;
        hi_vendor_pqc_info := vendor_pqc_info;
        hi_vendor_pqc_pub_key_revocation := key_revocation;
        hi_owner_ecc_info := owner_ecc_info;
        hi_owner_pqc_info := owner_pqc_info;
        hi_owner_pub_keys_digest := owner_pub_keys_digest;
        hi_owner_pub_keys_digest_in_fuses := owner_pub_keys_digest_in_fuses |}.

(** [verify_ecc_sig]; [verify_vendor_sig] performs the same checks with
    the same error codes as [is_owner = false]. *)
Definition verify_ecc_sig (dgst : Z) (pub_key : ImageEccPubKey) (sig : ImageEccSignature)
    (is_owner : bool) : result unit :=
  let '(signature_invalid, pub_key_invalid_arg, sig_invalid_arg, verify_failure) :=
    if is_owner then
      (IMAGE_VERIFIER_ERR_OWNER_ECC_SIGNATURE_INVALID,
       IMAGE_VERIFIER_ERR_OWNER_ECC_PUB_KEY_INVALID_ARG,
       IMAGE_VERIFIER_ERR_OWNER_ECC_SIGNATURE_INVALID_ARG,
       IMAGE_VERIFIER_ERR_OWNER_ECC_VERIFY_FAILURE)
    else
      (IMAGE_VERIFIER_ERR_VENDOR_ECC_SIGNATURE_INVALID,
       IMAGE_VERIFIER_ERR_VENDOR_ECC_PUB_KEY_INVALID_ARG,
       IMAGE_VERIFIER_ERR_VENDOR_ECC_SIGNATURE_INVALID_ARG,
       IMAGE_VERIFIER_ERR_VENDOR_ECC_VERIFY_FAILURE) in
  let? _ := fail_if ((ecc_x pub_key =? ZERO_DIGEST) || (ecc_y pub_key =? ZERO_DIGEST))
              pub_key_invalid_arg in
  let? _ := fail_if ((sig_r sig =? ZERO_DIGEST) || (sig_s sig =? ZERO_DIGEST))
              sig_invalid_arg in
  let? verify_r := map_err (ecc384_verify env dgst pub_key sig) verify_failure in
  fail_if (negb (verify_r =? sig_r sig)) signature_invalid.

(** [verify_lms_sig] *)
Definition verify_lms_sig (dgst pub_key sig : Z) (is_owner : bool) : result unit :=
  let '(verify_failure, signature_invalid) :=
    if is_owner then
      (IMAGE_VERIFIER_ERR_OWNER_LMS_VERIFY_FAILURE, IMAGE_VERIFIER_ERR_OWNER_LMS_SIGNATURE_INVALID)
    else
      (IMAGE_VERIFIER_ERR_VENDOR_LMS_VERIFY_FAILURE, IMAGE_VERIFIER_ERR_VENDOR_LMS_SIGNATURE_INVALID) in
  let? candidate_key := map_err (lms_verify env dgst pub_key sig) verify_failure in
  fail_if (negb (candidate_key =? lms_pub_key_digest c pub_key)) signature_invalid.

(** [verify_mldsa_sig] *)
Definition verify_mldsa_sig (dgst pub_key sig : Z) (is_owner : bool) : result unit :=
  let '(verify_failure, signature_invalid) :=
    if is_owner then
      (IMAGE_VERIFIER_ERR_OWNER_MLDSA_VERIFY_FAILURE, IMAGE_VERIFIER_ERR_OWNER_MLDSA_SIGNATURE_INVALID)
    else
      (IMAGE_VERIFIER_ERR_VENDOR_MLDSA_VERIFY_FAILURE, IMAGE_VERIFIER_ERR_VENDOR_MLDSA_SIGNATURE_INVALID) in
  let? success := map_err (mldsa87_verify env dgst pub_key sig) verify_failure in
  fail_if (negb success) signature_invalid.

(** [verify_vendor_sig] and [verify_owner_sig]: the digest holder is the
    SHA-384 digest and the optional SHA-512 digest. *)
Definition verify_pqc_sig (digest_384 : Z) (digest_512 : option Z) (pqc_info : PqcKeyInfo)
    (is_owner : bool) : result unit :=
  match pqc_info with
  | PqcLms pk sg => verify_lms_sig digest_384 pk sg is_owner
  | PqcMldsa pk sg =>
      match digest_512 with
      | Some d => verify_mldsa_sig d pk sg is_owner
      | None => Err (if is_owner then IMAGE_VERIFIER_ERR_OWNER_MLDSA_DIGEST_MISSING
                     else IMAGE_VERIFIER_ERR_VENDOR_MLDSA_DIGEST_MISSING)
      end
  end.

Definition verify_vendor_sig (digest_384 : Z) (digest_512 : option Z)
    (ecc_info : ImageEccPubKey * ImageEccSignature) (pqc_info : PqcKeyInfo) : result unit :=
  let? _ := verify_ecc_sig digest_384 (fst ecc_info) (snd ecc_info) false in
  verify_pqc_sig digest_384 digest_512 pqc_info false.

Definition verify_owner_sig (digest_384 : Z) (digest_512 : option Z)
    (ecc_info : ImageEccPubKey * ImageEccSignature) (pqc_info : PqcKeyInfo) : result unit :=
  let? _ := verify_ecc_sig digest_384 (fst ecc_info) (snd ecc_info) true in
  verify_pqc_sig digest_384 digest_512 pqc_info true.

(** [verify_header] *)
Definition verify_header (h : ImageHeader) (info : HeaderInfo) : result TocInfo :=
  let range := header_range c in
  let? vendor_digest_384 := map_err (sha384_digest env (fst range) (vendor_header_len c))
                              IMAGE_VERIFIER_ERR_HEADER_DIGEST_FAILURE in
  let? owner_digest_384 := map_err (sha384_digest env (fst range) (range_len range))
                             IMAGE_VERIFIER_ERR_HEADER_DIGEST_FAILURE in
  let? d512 := match hi_vendor_pqc_info info with
               | PqcMldsa _ _ =>
                   let? v := map_err (sha512_digest env (fst range) (vendor_header_len c))
                               IMAGE_VERIFIER_ERR_HEADER_DIGEST_FAILURE in
                   let? o := map_err (sha512_digest env (fst range) (range_len range))
                               IMAGE_VERIFIER_ERR_HEADER_DIGEST_FAILURE in
                   Ok (Some v, Some o)
               | PqcLms _ _ => Ok (None, None)
               end in
  let '(vendor_digest_512, owner_digest_512) := d512 in
  let? _ := verify_vendor_sig vendor_digest_384 vendor_digest_512
              (hi_vendor_ecc_info info) (hi_vendor_pqc_info info) in
  let? _ := fail_if (negb (hdr_vendor_ecc_pub_key_idx h =? hi_vendor_ecc_pub_key_idx info))
              IMAGE_VERIFIER_ERR_VENDOR_ECC_PUB_KEY_INDEX_MISMATCH in
  let? _ := fail_if (negb (hdr_vendor_pqc_pub_key_idx h =? hi_vendor_pqc_pub_key_idx info))
              IMAGE_VERIFIER_ERR_VENDOR_PQC_PUB_KEY_INDEX_MISMATCH in
  let? _ := verify_owner_sig owner_digest_384 owner_digest_512
              (hi_owner_ecc_info info) (hi_owner_pqc_info info) in
  Ok {| toc_info_len := toc_len h; toc_info_digest := toc_digest h |}.
(** Modelled from the spec: [ImageTocEntry::image_range] and [image_size]
    (crate [caliptra_image_types], not among the sources). The spec places
    a TOC entry at [offset .. offset + size] of the bundle; [image_range] is
    fallible ([?] at every call), and fails when that end does not fit in
    a [u32]. *)
Definition image_size (e : ImageTocEntry) : Z := size e.

Definition image_range (e : ImageTocEntry) : result (Z * Z) :=
  if U32_MOD <=? offset e + size e then Err IMAGE_VERIFIER_ERR_TOC_ENTRY_RANGE_ARITHMETIC_OVERFLOW
  else Ok (offset e, offset e + size e).

(** [verify_toc]; returns the FMC and Runtime entries ([ImageInfo]). *)
Definition verify_toc (m : ImageManifest) (verify_info : TocInfo) (img_bundle_sz : Z)
    : result (ImageTocEntry * ImageTocEntry) :=
  let? _ := fail_if (negb (toc_info_len verify_info =? MAX_TOC_ENTRY_COUNT c))
              IMAGE_VERIFIER_ERR_TOC_ENTRY_COUNT_INVALID in
  let range := toc_range c in
  let? actual := map_err (sha384_digest env (fst range) (range_len range))
                   IMAGE_VERIFIER_ERR_TOC_DIGEST_FAILURE in
  let? _ := fail_if (negb (toc_info_digest verify_info =? actual))
              IMAGE_VERIFIER_ERR_TOC_DIGEST_MISMATCH in
  let? _ := fail_if (image_size (fmc m) =? 0) IMAGE_VERIFIER_ERR_FMC_SIZE_ZERO in
  let? _ := fail_if (image_size (runtime m) =? 0) IMAGE_VERIFIER_ERR_RUNTIME_SIZE_ZERO in
  let img_len := manifest_size m + image_size (fmc m) + image_size (runtime m) in
  let? _ := fail_if (img_len >? img_bundle_sz)
              IMAGE_VERIFIER_ERR_IMAGE_LEN_MORE_THAN_BUNDLE_SIZE in
  let? fmc_range := image_range (fmc m) in
  let? runtime_range := image_range (runtime m) in
  let? _ := fail_if ((fst fmc_range <? snd runtime_range) && (snd fmc_range >? fst runtime_range))
              IMAGE_VERIFIER_ERR_FMC_RUNTIME_OVERLAP in
  let? _ := fail_if (snd fmc_range >? fst runtime_range)
              IMAGE_VERIFIER_ERR_FMC_RUNTIME_INCORRECT_ORDER in
  let fmc_load_addr_start := load_addr (fmc m) in
  let '(fmc_load_addr_end, fmc_overflow) :=
    u32_overflowing_add fmc_load_addr_start (u32_sub (image_size (fmc m)) 1) in
  let? _ := fail_if fmc_overflow
              IMAGE_VERIFIER_ERR_FMC_LOAD_ADDRESS_IMAGE_SIZE_ARITHMETIC_OVERFLOW in
  let runtime_load_addr_start := load_addr (runtime m) in
  let '(runtime_load_addr_end, runtime_overflow) :=
    u32_overflowing_add runtime_load_addr_start (u32_sub (image_size (runtime m)) 1) in
  let? _ := fail_if runtime_overflow
              IMAGE_VERIFIER_ERR_RUNTIME_LOAD_ADDRESS_IMAGE_SIZE_ARITHMETIC_OVERFLOW in
  let? _ := fail_if ((fmc_load_addr_start <=? runtime_load_addr_end)
                     && (fmc_load_addr_end >=? runtime_load_addr_start))
              IMAGE_VERIFIER_ERR_FMC_RUNTIME_LOAD_ADDR_OVERLAP in
  Ok (fmc m, runtime m).

(** The [ImageVerificationExeInfo] returned by [verify_fmc] and
    [verify_runtime] for an entry. *)
Definition exe_info_of (e : ImageTocEntry) : ImageVerificationExeInfo :=
  {| exe_load_addr := load_addr e; exe_entry_point := entry_point e;
     exe_digest := digest e; exe_size := size e |}.

(** [verify_fmc] *)
Definition verify_fmc (e : ImageTocEntry) (reason : ResetReason)
    : result ImageVerificationExeInfo :=
  let? range := image_range e in
  let? actual := map_err (sha384_digest env (fst range) (range_len range))
                   IMAGE_VERIFIER_ERR_FMC_DIGEST_FAILURE in
  let? _ := fail_if (negb (digest e =? actual)) IMAGE_VERIFIER_ERR_FMC_DIGEST_MISMATCH in
  let? _ := fail_if (negb (range_contains (iccm_range env) (load_addr e))
                     || negb (range_contains (iccm_range env)
                                (u32_sub ((load_addr e + size e) mod U32_MOD) 1)))
              IMAGE_VERIFIER_ERR_FMC_LOAD_ADDR_INVALID in
  let? _ := fail_if (negb (load_addr e mod 4 =? 0)) IMAGE_VERIFIER_ERR_FMC_LOAD_ADDR_UNALIGNED in
  let? _ := fail_if (negb (range_contains (iccm_range env) (entry_point e)))
              IMAGE_VERIFIER_ERR_FMC_ENTRY_POINT_INVALID in
  let? _ := fail_if (negb (entry_point e mod 4 =? 0)) IMAGE_VERIFIER_ERR_FMC_ENTRY_POINT_UNALIGNED in
  let? _ := if reset_reason_eqb reason UpdateReset then
              fail_if (negb (actual =? get_fmc_digest_dv env))
                IMAGE_VERIFIER_ERR_UPDATE_RESET_FMC_DIGEST_MISMATCH
            else Ok tt in
  Ok (exe_info_of e).

(** [verify_runtime] *)
Definition verify_runtime (e : ImageTocEntry) : result ImageVerificationExeInfo :=
  let? range := image_range e in
  let? actual := map_err (sha384_digest env (fst range) (range_len range))
                   IMAGE_VERIFIER_ERR_RUNTIME_DIGEST_FAILURE in
  let? _ := fail_if (negb (digest e =? actual)) IMAGE_VERIFIER_ERR_RUNTIME_DIGEST_MISMATCH in
  let? _ := fail_if (negb (range_contains (iccm_range env) (load_addr e))
                     || negb (range_contains (iccm_range env)
                                (u32_sub ((load_addr e + size e) mod U32_MOD) 1)))
              IMAGE_VERIFIER_ERR_RUNTIME_LOAD_ADDR_INVALID in
  let? _ := fail_if (negb (load_addr e mod 4 =? 0))
              IMAGE_VERIFIER_ERR_RUNTIME_LOAD_ADDR_UNALIGNED in
  let? _ := fail_if (negb (range_contains (iccm_range env) (entry_point e)))
              IMAGE_VERIFIER_ERR_RUNTIME_ENTRY_POINT_INVALID in
  let? _ := fail_if (negb (entry_point e mod 4 =? 0))
              IMAGE_VERIFIER_ERR_RUNTIME_ENTRY_POINT_UNALIGNED in
  Ok (exe_info_of e).

(** Phases A to E of [verify]: everything before [verify_svn]. *)
Definition verify_images (m : ImageManifest) (img_bundle_sz : Z) (reason : ResetReason)
    : result (FwVerificationPqcKeyType * HeaderInfo * ImageVerificationExeInfo
              * ImageVerificationExeInfo) :=
  let? _ := fail_if (negb (marker m =? MANIFEST_MARKER c))
              IMAGE_VERIFIER_ERR_MANIFEST_MARKER_MISMATCH in
  let? _ := fail_if (negb (manifest_size m =? MANIFEST_BYTE_SIZE c))
              IMAGE_VERIFIER_ERR_MANIFEST_SIZE_MISMATCH in
  let? pqc := map_err (pqc_key_type_from_u8 c (pqc_key_type m))
                IMAGE_VERIFIER_ERR_PQC_KEY_TYPE_INVALID in
  let? pqc_fuse := map_err (pqc_key_type_fuse env) IMAGE_VERIFIER_ERR_PQC_KEY_TYPE_FUSE in
  let? _ := fail_if (negb (pqc_key_type_eqb pqc pqc_fuse))
              IMAGE_VERIFIER_ERR_PQC_KEY_TYPE_MISMATCH in
  let? header_info := verify_preamble (preamble m) reason pqc in
  let? toc_info := verify_header (header m) header_info in
  let? image_info := verify_toc m toc_info img_bundle_sz in
  let? fmc_info := verify_fmc (fst image_info) reason in
  let? runtime_info := verify_runtime (snd image_info) in
  Ok (pqc, header_info, fmc_info, runtime_info).

(** [ImageVerifier::verify] *)
Definition verify (m : ImageManifest) (img_bundle_sz : Z) (reason : ResetReason)
    : result ImageVerificationInfo :=
  let? r := verify_images m img_bundle_sz reason in
  let '(pqc, header_info, fmc_info, runtime_info) := r in
  let? _ := verify_svn (svn (header m)) in
  Ok {| info_vendor_ecc_pub_key_idx := hi_vendor_ecc_pub_key_idx header_info;
        info_vendor_pqc_pub_key_idx := hi_vendor_pqc_pub_key_idx header_info;
        info_owner_pub_keys_digest := hi_owner_pub_keys_digest header_info;
        info_owner_pub_keys_digest_in_fuses := hi_owner_pub_keys_digest_in_fuses header_info;
        info_fmc := fmc_info;
        info_runtime := runtime_info;
        fw_svn := svn (header m);
        effective_fuse_svn := effective_fuse_svn_of;
        info_fuse_vendor_ecc_pub_key_revocation := hi_vendor_ecc_pub_key_revocation header_info;
        info_fuse_vendor_pqc_pub_key_revocation := hi_vendor_pqc_pub_key_revocation header_info;
        info_fuse_svn := fw_fuse_svn env;
        info_pqc_key_type := pqc |}.

End Verifier.

End ImageVerify.

(** ** ROM flows ([rom/dev/src]) *)

Module Rom.

Import ImageVerify.

(** *** Firmware key ladder *)

(** Modelled from the spec: [key_ladder::initialize_key_ladder] and
    [key_ladder::extend_key_ladder] ([rom/dev/src/key_ladder.rs], not among
    the sources). Spec 4.6: the ladder is a chain built by iterated HMAC; on
    cold reset a chain of length [n] is built from a fixed seed, on update
    reset the chain is extended by [n] steps. The chain is kept as the list
    of its keys, newest first; [step] is one HMAC evaluation, [None] its
    engine error. *)
Fixpoint ladder_iterate (step : Z -> option Z) (n : nat) (chain : list Z) (key : Z)
    : result (list Z) :=
  match n with
  | O => Ok chain
  | S n' =>
      match step key with
      | None => Err (DRIVER_ERROR 0)
      | Some k => ladder_iterate step n' (k :: chain) k
      end
  end.

Definition initialize_key_ladder (step : Z -> option Z) (seed : Z) (chain_len : Z)
    : result (list Z) :=
  ladder_iterate step (Z.to_nat chain_len) [] seed.

Definition extend_key_ladder (step : Z -> option Z) (seed : Z) (chain : list Z)
    (decrement_by : Z) : result (list Z) :=
  ladder_iterate step (Z.to_nat decrement_by) chain (hd seed chain).

(** *** Data vault *)

Inductive RomBootStatus := UpdateResetStarted | UpdateResetComplete | OtherBootStatus.

Record DataVault := {
  fmc_tci : Z;
  cold_boot_fw_svn : Z;
  fmc_entry_point : Z;
  owner_pk_hash : Z;
  vendor_ecc_pk_index : Z;
  vendor_pqc_pk_index : Z;
  rt_tci : Z;
  dv_fw_svn : Z;
  fw_min_svn : Z;
  rt_entry_point : Z;
  manifest_addr : Z;
  rom_update_reset_status : RomBootStatus;
}.

(** Persistent state the flows below read and write: the data vault, the
    key-ladder chain and the two manifest slots. *)
Record RomState := {
  data_vault : DataVault;
  key_ladder : list Z;
  manifest1 : option ImageManifest;
  manifest2 : option ImageManifest;
}.

Definition set_data_vault (s : RomState) (dv : DataVault) : RomState :=
  {| data_vault := dv; key_ladder := key_ladder s;
     manifest1 := manifest1 s; manifest2 := manifest2 s |}.

Definition set_key_ladder (s : RomState) (l : list Z) : RomState :=
  {| data_vault := data_vault s; key_ladder := l;
     manifest1 := manifest1 s; manifest2 := manifest2 s |}.

Definition set_manifests (s : RomState) (m1 m2 : option ImageManifest) : RomState :=
  {| data_vault := data_vault s; key_ladder := key_ladder s;
     manifest1 := m1; manifest2 := m2 |}.

(** *** Update reset ([flow/update_reset.rs]) *)

Section UpdateReset.

(** One HMAC step of the key ladder and its seed. *)
Variable ladder_step : Z -> option Z.
Variable ladder_seed : Z.

(** [UpdateResetFlow::populate_data_vault]: writes to the data vault happen
    before the ladder is extended, so they persist when extending fails. *)
Definition update_populate_data_vault (s : RomState) (info : ImageVerificationInfo)
    : RomState * result unit :=
  let dv := data_vault s in
  let old_min_svn := fw_min_svn dv in
  let new_min_svn := Z.min old_min_svn (fw_svn info) in
  let dv' := {| fmc_tci := fmc_tci dv; cold_boot_fw_svn := cold_boot_fw_svn dv;
                fmc_entry_point := fmc_entry_point dv; owner_pk_hash := owner_pk_hash dv;
                vendor_ecc_pk_index := vendor_ecc_pk_index dv;
                vendor_pqc_pk_index := vendor_pqc_pk_index dv;
                rt_tci := exe_digest (info_runtime info);
                dv_fw_svn := fw_svn info;
                fw_min_svn := new_min_svn;
                rt_entry_point := exe_entry_point (info_runtime info);
                manifest_addr := manifest_addr dv;
                rom_update_reset_status := rom_update_reset_status dv |} in
  let s1 := set_data_vault s dv' in
  let decrement_by := u32_sub old_min_svn new_min_svn in
  match extend_key_ladder ladder_step ladder_seed (key_ladder s1) decrement_by with
  | Ok chain => (set_key_ladder s1 chain, Ok tt)
  | Err e => (s1, Err e)
  end.

Definition set_update_reset_status (s : RomState) (st : RomBootStatus) : RomState :=
  let dv := data_vault s in
  set_data_vault s
    {| fmc_tci := fmc_tci dv; cold_boot_fw_svn := cold_boot_fw_svn dv;
       fmc_entry_point := fmc_entry_point dv; owner_pk_hash := owner_pk_hash dv;
       vendor_ecc_pk_index := vendor_ecc_pk_index dv;
       vendor_pqc_pk_index := vendor_pqc_pk_index dv; rt_tci := rt_tci dv;
       dv_fw_svn := dv_fw_svn dv; fw_min_svn := fw_min_svn dv;
       rt_entry_point := rt_entry_point dv; manifest_addr := manifest_addr dv;
       rom_update_reset_status := st |}.

(** The mailbox transaction the flow receives: its command (whether it is
    FIRMWARE_LOAD), the manifest copied into [manifest2] (or the copy's
    error) and the declared length. *)
Record UpdateTxn := {
  utxn_is_firmware_load : bool;
  utxn_manifest : result ImageManifest;
  utxn_dlen : Z;
}.

(** [UpdateResetFlow::run]. [verify_image] is [ImageVerifier::verify] with
    reason [UpdateReset] over the flow's verification environment;
    [extend_pcrs] and [load_image] are the outcomes of the PCR extension and
    of copying the Runtime into ICCM and completing the transaction, steps
    that write neither the data vault nor the key ladder. *)
Definition update_reset_run (verify_image : ImageManifest -> Z -> result ImageVerificationInfo)
    (extend_pcrs load_image : result unit) (txn : option UpdateTxn) (s : RomState)
    : RomState * result unit :=
  let s := set_update_reset_status s UpdateResetStarted in
  match txn with
  | None => (s, Err ROM_UPDATE_RESET_FLOW_MAILBOX_ACCESS_FAILURE)
  | Some t =>
      if negb (utxn_is_firmware_load t) then (s, Err ROM_UPDATE_RESET_FLOW_INVALID_FIRMWARE_COMMAND)
      else
      match utxn_manifest t with
      | Err e => (s, Err e)
      | Ok m =>
          let s := set_manifests s (manifest1 s) (Some m) in
          match verify_image m (utxn_dlen t) with
          | Err e => (s, Err e)
          | Ok info =>
              match update_populate_data_vault s info with
              | (s, Err e) => (s, Err e)
              | (s, Ok _) =>
                  match extend_pcrs with
                  | Err e => (s, Err e)
                  | Ok _ =>
                      match load_image with
                      | Err e => (s, Err e)
                      | Ok _ =>
                          let s := set_manifests s (manifest2 s) (manifest2 s) in
                          (set_update_reset_status s UpdateResetComplete, Ok tt)
                      end
                  end
              end
          end
      end
  end.

End UpdateReset.
(** *** Cold reset firmware processing ([flow/cold_reset/fw_processor.rs]) *)

Section ColdReset.

Variable c : Consts.
Variable ladder_step : Z -> option Z.
Variable ladder_seed : Z.

(** [FirmwareProcessor::populate_data_vault] *)
Definition cold_populate_data_vault (info : ImageVerificationInfo) (manifest_address : Z)
    (s : RomState) : RomState :=
  let dv := data_vault s in
  set_data_vault s
    {| fmc_tci := exe_digest (info_fmc info);
       cold_boot_fw_svn := fw_svn info;
       fmc_entry_point := exe_entry_point (info_fmc info);
       owner_pk_hash := info_owner_pub_keys_digest info;
       vendor_ecc_pk_index := info_vendor_ecc_pub_key_idx info;
       vendor_pqc_pk_index := info_vendor_pqc_pub_key_idx info;
       rt_tci := exe_digest (info_runtime info);
       dv_fw_svn := fw_svn info;
       fw_min_svn := fw_svn info;
       rt_entry_point := exe_entry_point (info_runtime info);
       manifest_addr := manifest_address;
       rom_update_reset_status := rom_update_reset_status dv |}.

(** [FirmwareProcessor::populate_fw_key_ladder] *)
Definition populate_fw_key_ladder (s : RomState) : RomState * result unit :=
  let svn := dv_fw_svn (data_vault s) in
  if svn >? MAX_FIRMWARE_SVN c then (s, Err FW_PROC_SVN_TOO_LARGE)
  else
    let chain_len := MAX_FIRMWARE_SVN c - svn in
    match initialize_key_ladder ladder_step ladder_seed chain_len with
    | Ok chain => (set_key_ladder s chain, Ok tt)
    | Err e => (s, Err e)
    end.

(** The steps of [FirmwareProcessor::process] after the mailbox loop that
    neither read nor write the data vault or the key ladder, given by their
    outcomes. *)
Record ColdSteps := {
  cs_update_fuse_log : result unit;
  cs_extend_pcrs : result unit;
  cs_load_image : result unit;
  cs_txn_complete : result unit;
}.

(** [FirmwareProcessor::process] from the received image on: load the
    manifest into [manifest1], verify it with reason [ColdReset]
    ([verify_image]), record the fuse log, populate the data vault, extend
    the PCRs, load the images, complete the transaction, initialize the key
    ladder. *)
Definition cold_process (verify_image : ImageManifest -> Z -> result ImageVerificationInfo)
    (steps : ColdSteps) (loaded_manifest : result ImageManifest) (image_size_bytes : Z)
    (manifest_address : Z) (s : RomState) : RomState * result ImageVerificationInfo :=
  match loaded_manifest with
  | Err e => (s, Err e)
  | Ok m =>
      let s := set_manifests s (Some m) (manifest2 s) in
      match verify_image m image_size_bytes with
      | Err e => (s, Err e)
      | Ok info =>
          match cs_update_fuse_log steps with
          | Err e => (s, Err e)
          | Ok _ =>
              let s := cold_populate_data_vault info manifest_address s in
              match cs_extend_pcrs steps, cs_load_image steps, cs_txn_complete steps with
              | Err e, _, _ | Ok _, Err e, _ | Ok _, Ok _, Err e => (s, Err e)
              | Ok _, Ok _, Ok _ =>
                  match populate_fw_key_ladder s with
                  | (s, Err e) => (s, Err e)
                  | (s, Ok _) => (s, Ok info)
                  end
              end
          end
      end
  end.

End ColdReset.
(** *** Pre-firmware-load mailbox loop *)

Definition MEASUREMENT_MAX_COUNT : Z := 8.
Definition PCR_ID_STASH_MEASUREMENT : Z := 31.

Record StashMeasurementReq := {
  sm_chksum : Z;
  sm_metadata : Z;
  sm_measurement : Z;
  sm_context : Z;
  sm_svn : Z;
}.

Inductive PcrLogEntryId := PcrLogStashMeasurement.

Record MeasurementLogEntry := {
  pcr_entry_id : PcrLogEntryId;
  pcr_ids : Z;
  pcr_data : Z;
  me_metadata : Z;
  me_context : Z;
  me_svn : Z;
}.

(** A mailbox transaction as the loop sees it. Commands other than
    STASH_MEASUREMENT and FIRMWARE_LOAD are given by the outcome of their
    handler ([Ok] = response sent, the loop goes on; [Err] = fatal); none of
    them touches PCR31 or the measurement log. *)
Inductive MboxCommand :=
  | CmdFirmwareLoad
  | CmdStashMeasurement (req : StashMeasurementReq)
  | CmdHandled (outcome : result unit)
  | CmdUnknown.

Record MboxTxn := {
  txn_id : Z;   (* the sender's PAUSER *)
  txn_cmd : MboxCommand;
  txn_dlen : Z;
}.

Inductive TxnCompletion := Responded | CompletedWithFailure.

(** The state the loop threads: PCR31, the measurement log with its index
    ([persistent_data.fht.meas_log_index]) and the completions sent. *)
Record FwProcState := {
  pcr31 : Z;
  meas_log_index : Z;
  measurement_log : list MeasurementLogEntry;
  completions : list TxnCompletion;
}.

Inductive LoopExit :=
  | LoopWaiting                 (* no more transactions: the loop keeps polling *)
  | LoopFirmwareLoad (dlen : Z) (* FIRMWARE_LOAD: the transaction is handed to the flow *)
  | LoopError (e : CaliptraError).

Fixpoint list_set {A : Type} (l : list A) (n : nat) (x : A) : list A :=
  match l, n with
  | [], _ => []
  | _ :: t, O => x :: t
  | h :: t, S n' => h :: list_set t n' x
  end.

Section Mailbox.

Variable RESERVED_PAUSER : Z.
Variable IMAGE_BYTE_SIZE : Z.
Variable STASH_MEASUREMENT_REQ_BYTE_SIZE : Z.
(** [caliptra_common::checksum::verify_checksum] of a request against its
    command id. *)
Variable verify_checksum : StashMeasurementReq -> bool.
(** [PcrBank::extend_pcr]: the new PCR value, [None] on engine error. *)
Variable extend_pcr : Z -> Z -> option Z.

(** [copy_req_verify_chksum] for a STASH_MEASUREMENT request. *)
Definition copy_req_verify_chksum (dlen : Z) (req : StashMeasurementReq) : result unit :=
  let? _ := fail_if (negb (dlen =? STASH_MEASUREMENT_REQ_BYTE_SIZE))
              FW_PROC_MAILBOX_INVALID_REQUEST_LENGTH in
  fail_if (negb (verify_checksum req)) FW_PROC_MAILBOX_INVALID_CHECKSUM.

(** [log_measurement] *)
Definition log_measurement (s : FwProcState) (req : StashMeasurementReq)
    : result FwProcState :=
  match nth_error (measurement_log s) (Z.to_nat (meas_log_index s)) with
  | None => Err ROM_GLOBAL_MEASUREMENT_LOG_EXHAUSTED
  | Some _ =>
      let entry := {| pcr_entry_id := PcrLogStashMeasurement;
                      pcr_ids := Z.shiftl 1 PCR_ID_STASH_MEASUREMENT;
                      pcr_data := sm_measurement req;
                      me_metadata := sm_metadata req;
                      me_context := sm_context req;
                      me_svn := sm_svn req |} in
      Ok {| pcr31 := pcr31 s;
            meas_log_index := meas_log_index s + 1;
            measurement_log := list_set (measurement_log s) (Z.to_nat (meas_log_index s)) entry;
            completions := completions s |}
  end.

(** [extend_measurement] *)
Definition extend_measurement (s : FwProcState) (req : StashMeasurementReq)
    : result FwProcState :=
  let? p := map_err (extend_pcr (pcr31 s) (sm_measurement req)) (DRIVER_ERROR 0) in
  log_measurement {| pcr31 := p; meas_log_index := meas_log_index s;
                     measurement_log := measurement_log s; completions := completions s |} req.

(** [stash_measurement] *)
Definition stash_measurement (s : FwProcState) (dlen : Z) (req : StashMeasurementReq)
    : result FwProcState :=
  let? _ := copy_req_verify_chksum dlen req in
  extend_measurement s req.

Definition add_completion (s : FwProcState) (t : TxnCompletion) : FwProcState :=
  {| pcr31 := pcr31 s; meas_log_index := meas_log_index s;
     measurement_log := measurement_log s; completions := completions s ++ [t] |}.

(** [FirmwareProcessor::process_mailbox_commands] in passive mode, over the
    transactions the SoC sends, in order. *)
Fixpoint process_mailbox_commands (txns : list MboxTxn) (s : FwProcState)
    : FwProcState * LoopExit :=
  match txns with
  | [] => (s, LoopWaiting)
  | t :: rest =>
      if txn_id t =? RESERVED_PAUSER then (s, LoopError FW_PROC_MAILBOX_RESERVED_PAUSER)
      else
      match txn_cmd t with
      | CmdFirmwareLoad =>
          if (txn_dlen t =? 0) || (txn_dlen t >? IMAGE_BYTE_SIZE)
          then (s, LoopError FW_PROC_INVALID_IMAGE_SIZE)
          else (s, LoopFirmwareLoad (txn_dlen t))
      | CmdStashMeasurement req =>
          if meas_log_index s =? MEASUREMENT_MAX_COUNT then
            (add_completion s CompletedWithFailure,
             LoopError FW_PROC_MAILBOX_STASH_MEASUREMENT_MAX_LIMIT)
          else
            match stash_measurement s (txn_dlen t) req with
            | Err e => (s, LoopError e)
            | Ok s' => process_mailbox_commands rest (add_completion s' Responded)
            end
      | CmdHandled (Ok _) => process_mailbox_commands rest (add_completion s Responded)
      | CmdHandled (Err e) => (s, LoopError e)
      | CmdUnknown => (s, LoopError FW_PROC_MAILBOX_INVALID_COMMAND)
      end
  end.

End Mailbox.
(** *** ECC key-pair derivation ([crypto.rs]) *)

(** The key vault: slot contents, the slots whose writes are locked, and
    the log of the [erase_key] calls that succeeded. *)
Record KeyVault := {
  kv_slots : nat -> option Z;
  kv_locked : nat -> bool;
  kv_erased : list nat;
}.

(** [KeyVault::erase_key]: refused on a locked slot. *)
Definition erase_key (kv : KeyVault) (id : nat) : KeyVault * result unit :=
  if kv_locked kv id then (kv, Err (DRIVER_ERROR 1))
  else ({| kv_slots := fun j => if Nat.eqb j id then None else kv_slots kv j;
           kv_locked := kv_locked kv;
           kv_erased := kv_erased kv ++ [id] |}, Ok tt).

Section KeyGen.

Variable KEY_ID_TMP : nat.
(** [Crypto::env_hmac_kdf(env, cdi, label, None, dest, Hmac512)]: the key
    vault after the engine ran and its outcome. *)
Variable env_hmac_kdf : KeyVault -> nat -> Z -> nat -> KeyVault * result unit.
(** [Ecc384::key_pair] seeded from a key-vault slot, writing the private
    key to another slot: the key vault after the engine ran and the public
    key or the engine's error. *)
Variable ecc384_key_pair : KeyVault -> nat -> nat -> KeyVault * result Z.

(** [Crypto::ecc384_key_gen]: returns the private key slot and the public key. *)
Definition ecc384_key_gen (kv : KeyVault) (cdi : nat) (label : Z) (priv_key : nat)
    : KeyVault * result (nat * Z) :=
  match env_hmac_kdf kv cdi label KEY_ID_TMP with
  | (kv, Err e) => (kv, Err e)
  | (kv, Ok _) =>
      let '(kv, pub_key) := ecc384_key_pair kv KEY_ID_TMP priv_key in
      match erase_key kv KEY_ID_TMP with
      | (kv, Err e) => (kv, Err e)
      | (kv, Ok _) =>
          match pub_key with
          | Err e => (kv, Err e)
          | Ok pk => (kv, Ok (priv_key, pk))
          end
      end
  end.

End KeyGen.

(** *** Loading the images in active mode ([flow/cold_reset/fw_processor.rs]) *)

(** [&mbox_sram[start..end]], taken after the bounds check that makes it
    defined ([start <= end <= mbox_sram.len()]). *)
Definition sram_slice (mbox_sram : list Z) (start end_ : Z) : list Z :=
  firstn (Z.to_nat (end_ - start)) (skipn (Z.to_nat start) mbox_sram).

(** [FirmwareProcessor::load_manifest] in active mode: the bytes copied
    into [manifest1], the first [size_of::<ImageManifest>()] bytes of the
    mailbox SRAM. *)
Definition load_manifest_active (c : Consts) (mbox_sram : list Z) : result (list Z) :=
  let manifest_len := MANIFEST_BYTE_SIZE c in
  if Z.of_nat (length mbox_sram) <? manifest_len then Err FW_PROC_INVALID_IMAGE_SIZE
  else Ok (firstn (Z.to_nat manifest_len) mbox_sram).

(** [FirmwareProcessor::load_image] in active mode: the copies made, each
    a destination address ([load_addr]) and the bytes written there, and
    the outcome. [usize] is 32 bits wide on the ROM's target, so [start +
    len] wraps modulo [2^32]. *)
Definition load_image_active (c : Consts) (m : ImageManifest) (mbox_sram : list Z)
    : list (Z * list Z) * result unit :=
  let start := MANIFEST_BYTE_SIZE c in
  let end_ := (start + size (fmc m)) mod U32_MOD in
  if (start >? end_) || (Z.of_nat (length mbox_sram) <? end_) then
    ([], Err FW_PROC_INVALID_IMAGE_SIZE)
  else
  let fmc_copy := (load_addr (fmc m), sram_slice mbox_sram start end_) in
  let start := (MANIFEST_BYTE_SIZE c + size (fmc m)) mod U32_MOD in
  let end_ := (start + size (runtime m)) mod U32_MOD in
  if (start >? end_) || (Z.of_nat (length mbox_sram) <? end_) then
    ([fmc_copy], Err FW_PROC_INVALID_IMAGE_SIZE)
  else
    ([fmc_copy; (load_addr (runtime m), sram_slice mbox_sram start end_)], Ok tt).

End Rom.

(** ** Concrete instances

    A concrete set of constants, a verification environment whose engines
    accept everything signed with non-zero keys, and a well-formed
    two-image manifest: used to run the definitions on concrete inputs. *)

Module Samples.

Import ImageVerify Rom.

Definition consts : Consts :=
  {| MANIFEST_MARKER := 0x324E4D43;
     MANIFEST_BYTE_SIZE := 100;
     KEY_DESCRIPTOR_VERSION := 1;
     VENDOR_ECC_MAX_KEY_COUNT := 4;
     VENDOR_LMS_MAX_KEY_COUNT := 32;
     VENDOR_MLDSA_MAX_KEY_COUNT := 4;
     MAX_TOC_ENTRY_COUNT := 2;
     MAX_FIRMWARE_SVN := 128;
     VENDOR_ECC_REVOCATION_BITS := 15;
     pqc_key_type_from_u8 := fun b => if b =? 1 then Some MLDSA
                                      else if b =? 3 then Some LMS else None;
     pqc_key_type_as_u8 := fun t => match t with MLDSA => 1 | LMS => 3 end;
     vendor_pub_key_descriptors_range := (8, 40);
     owner_pub_key_range := (40, 60);
     header_range := (60, 90);
     vendor_header_len := 20;
     toc_range := (90, 100);
     vendor_ecc_active_pub_key_range := (10, 20);
     vendor_pqc_active_pub_key_start := 20;
     MLDSA87_PUB_KEY_BYTE_SIZE := 2592;
     LMS_PUB_KEY_BYTE_SIZE := 48;
     lms_pub_key_digest := fun k => k |}.

(** The vendor key descriptors hash to [1] (the value in the fuses), every
    other digest of the bundle is [0]; the ECC engine returns [r] and the
    LMS engine the key's own digest, i.e. all signatures verify. *)
Definition env (lc : Lifecycle) (ard : bool) (fuse_svn : Z) : Env :=
  {| sha384_digest := fun start _ => Some (if start =? 8 then 1 else 0);
     sha512_digest := fun _ _ => Some 0;
     ecc384_verify := fun _ _ sg => Some (sig_r sg);
     lms_verify := fun _ pk _ => Some pk;
     mldsa87_verify := fun _ _ _ => Some true;
     vendor_pub_key_info_digest_fuses := 1;
     vendor_ecc_pub_key_revocation := 0;
     vendor_lms_pub_key_revocation := 0;
     vendor_mldsa_pub_key_revocation := 0;
     owner_pub_key_digest_fuses := 0;
     anti_rollback_disable := ard;
     dev_lifecycle := lc;
     vendor_ecc_pub_key_idx_dv := 0;
     vendor_pqc_pub_key_idx_dv := 0;
     owner_pub_key_digest_dv := 0;
     get_fmc_digest_dv := 0;
     fw_fuse_svn := fuse_svn;
     iccm_range := (0x40000000, 0x40040000);
     pqc_key_type_fuse := Some LMS |}.

(** The same environment with other values in the data vault: the owner
    public-key digest and the FMC digest recorded at cold boot. *)
Definition with_dv_digests (e : Env) (owner_dv fmc_dv : Z) : Env :=
  {| sha384_digest := sha384_digest e;
     sha512_digest := sha512_digest e;
     ecc384_verify := ecc384_verify e;
     lms_verify := lms_verify e;
     mldsa87_verify := mldsa87_verify e;
     vendor_pub_key_info_digest_fuses := vendor_pub_key_info_digest_fuses e;
     vendor_ecc_pub_key_revocation := vendor_ecc_pub_key_revocation e;
     vendor_lms_pub_key_revocation := vendor_lms_pub_key_revocation e;
     vendor_mldsa_pub_key_revocation := vendor_mldsa_pub_key_revocation e;
     owner_pub_key_digest_fuses := owner_pub_key_digest_fuses e;
     anti_rollback_disable := anti_rollback_disable e;
     dev_lifecycle := dev_lifecycle e;
     vendor_ecc_pub_key_idx_dv := vendor_ecc_pub_key_idx_dv e;
     vendor_pqc_pub_key_idx_dv := vendor_pqc_pub_key_idx_dv e;
     owner_pub_key_digest_dv := owner_dv;
     get_fmc_digest_dv := fmc_dv;
     fw_fuse_svn := fw_fuse_svn e;
     iccm_range := iccm_range e;
     pqc_key_type_fuse := pqc_key_type_fuse e |}.

(** The same environment with other revocation fuses. *)
Definition with_revocations (e : Env) (ecc lms mldsa : Z) : Env :=
  {| sha384_digest := sha384_digest e;
     sha512_digest := sha512_digest e;
     ecc384_verify := ecc384_verify e;
     lms_verify := lms_verify e;
     mldsa87_verify := mldsa87_verify e;
     vendor_pub_key_info_digest_fuses := vendor_pub_key_info_digest_fuses e;
     vendor_ecc_pub_key_revocation := ecc;
     vendor_lms_pub_key_revocation := lms;
     vendor_mldsa_pub_key_revocation := mldsa;
     owner_pub_key_digest_fuses := owner_pub_key_digest_fuses e;
     anti_rollback_disable := anti_rollback_disable e;
     dev_lifecycle := dev_lifecycle e;
     vendor_ecc_pub_key_idx_dv := vendor_ecc_pub_key_idx_dv e;
     vendor_pqc_pub_key_idx_dv := vendor_pqc_pub_key_idx_dv e;
     owner_pub_key_digest_dv := owner_pub_key_digest_dv e;
     get_fmc_digest_dv := get_fmc_digest_dv e;
     fw_fuse_svn := fw_fuse_svn e;
     iccm_range := iccm_range e;
     pqc_key_type_fuse := pqc_key_type_fuse e |}.

Definition descriptor (count : Z) : KeyDescriptor :=
  {| version := 1; key_type := 3; key_hash_count := count; key_hash := [0; 0; 0; 0] |}.

Definition preamble_with (ecc_count ecc_idx pqc_count pqc_idx : Z) : ImagePreamble :=
  {| ecc_key_descriptor := descriptor ecc_count;
     pqc_key_descriptor := descriptor pqc_count;
     vendor_ecc_pub_key_idx := ecc_idx;
     vendor_pqc_pub_key_idx := pqc_idx;
     vendor_ecc_active_pub_key := {| ecc_x := 1; ecc_y := 1 |};
     vendor_pqc_active_pub_key := 7;
     vendor_ecc_sig := {| sig_r := 5; sig_s := 5 |};
     vendor_pqc_sig := 9;
     owner_ecc_pub_key := {| ecc_x := 2; ecc_y := 2 |};
     owner_pqc_pub_key := 8;
     owner_ecc_sig := {| sig_r := 6; sig_s := 6 |};
     owner_pqc_sig := 9 |}.

Definition toc_entry (la off sz : Z) : ImageTocEntry :=
  {| load_addr := la; entry_point := la; offset := off; size := sz; digest := 0 |}.

Definition manifest_with (fw_svn : Z) (p : ImagePreamble) : ImageManifest :=
  {| marker := 0x324E4D43;
     manifest_size := 100;
     pqc_key_type := 3;
     preamble := p;
     header := {| hdr_vendor_ecc_pub_key_idx := 0; hdr_vendor_pqc_pub_key_idx := 0;
                  svn := fw_svn; toc_len := 2; toc_digest := 0 |};
     fmc := toc_entry 0x40000000 100 100;
     runtime := toc_entry 0x40001000 200 100 |}.

Definition manifest (fw_svn : Z) : ImageManifest := manifest_with fw_svn (preamble_with 1 0 1 0).

(** A ROM state after a cold boot with firmware SVN [svn]: a key ladder of
    [2] keys, manifests not loaded yet. *)
Definition rom_state (svn : Z) : RomState :=
  {| data_vault := {| fmc_tci := 0; cold_boot_fw_svn := svn; fmc_entry_point := 0;
                      owner_pk_hash := 0; vendor_ecc_pk_index := 0; vendor_pqc_pk_index := 0;
                      rt_tci := 0; dv_fw_svn := svn; fw_min_svn := svn; rt_entry_point := 0;
                      manifest_addr := 0; rom_update_reset_status := OtherBootStatus |};
     key_ladder := [11; 10];
     manifest1 := None;
     manifest2 := None |}.

(** An HMAC step of the key ladder that always succeeds. *)
Definition ladder_step_ok (k : Z) : option Z := Some (k + 1).

(** An update-reset mailbox transaction carrying [manifest svn]. *)
Definition update_txn (svn : Z) : UpdateTxn :=
  {| utxn_is_firmware_load := true; utxn_manifest := Ok (manifest svn); utxn_dlen := 300 |}.

(** The steps of the cold-reset flow around verification, all succeeding. *)
Definition cold_steps_ok : ColdSteps :=
  {| cs_update_fuse_log := Ok tt; cs_extend_pcrs := Ok tt; cs_load_image := Ok tt;
     cs_txn_complete := Ok tt |}.

(** A key vault whose slot [3] (the temporary slot below) still holds a
    key, no slot locked. *)
Definition kv_tmp_populated : KeyVault :=
  {| kv_slots := fun j => if Nat.eqb j 3 then Some 42 else None;
     kv_locked := fun _ => false;
     kv_erased := [] |}.

(** An HMAC engine that writes the tag to its destination slot, and one that
    reports an error without writing. *)
Definition hmac_kdf_ok (kv : KeyVault) (cdi : nat) (label : Z) (dest : nat)
    : KeyVault * result unit :=
  ({| kv_slots := fun j => if Nat.eqb j dest then Some label else kv_slots kv j;
      kv_locked := kv_locked kv; kv_erased := kv_erased kv |}, Ok tt).

Definition hmac_kdf_fail (kv : KeyVault) (cdi : nat) (label : Z) (dest : nat)
    : KeyVault * result unit :=
  (kv, Err (DRIVER_ERROR 2)).

(** An ECC engine that returns the public key [7]. *)
Definition ecc_key_pair_ok (kv : KeyVault) (seed priv : nat) : KeyVault * result Z :=
  (kv, Ok 7).

(** A STASH_MEASUREMENT request measuring [i]. *)
Definition stash_req (i : Z) : StashMeasurementReq :=
  {| sm_chksum := 0; sm_metadata := 0; sm_measurement := i; sm_context := 0; sm_svn := 0 |}.

Definition stash_reqs : list StashMeasurementReq := map stash_req [1; 2; 3; 4; 5; 6; 7; 8].

(** The mailbox loop before any measurement has been stashed. *)
Definition fw_proc_empty : FwProcState :=
  {| pcr31 := 0; meas_log_index := 0;
     measurement_log :=
       repeat {| pcr_entry_id := PcrLogStashMeasurement; pcr_ids := 0; pcr_data := 0;
                 me_metadata := 0; me_context := 0; me_svn := 0 |} 8;
     completions := [] |}.

End Samples.

(** * Properties *)

Module Facts.

Import ImageVerify Rom Samples.

(** [errs_in P r]: every error [r] can return satisfies [P]. *)
Definition errs_in {A} (P : CaliptraError -> Prop) (r : result A) : Prop :=
  match r with Ok _ => True | Err e => P e end.

Lemma errs_bind {A B} P (m : result A) (k : A -> result B) :
  errs_in P m -> (forall a, errs_in P (k a)) -> errs_in P (bind m k).
Proof. destruct m; simpl; auto. Qed.

Lemma errs_fail_if P b e : P e -> errs_in P (fail_if b e).
Proof. destruct b; simpl; auto. Qed.

Lemma errs_map_err {A} P (o : option A) e : P e -> errs_in P (map_err o e).
Proof. destruct o; simpl; auto. Qed.

(** Neither of the two SVN errors. *)
Definition not_svn_err (e : CaliptraError) : Prop :=
  e <> IMAGE_VERIFIER_ERR_FIRMWARE_SVN_GREATER_THAN_MAX_SUPPORTED /\
  e <> IMAGE_VERIFIER_ERR_FIRMWARE_SVN_LESS_THAN_FUSE.

(** Neither of the two MLDSA digest-missing errors of [verify_pqc_sig]. *)
Definition not_mldsa_digest_missing (e : CaliptraError) : Prop :=
  e <> IMAGE_VERIFIER_ERR_VENDOR_MLDSA_DIGEST_MISSING /\
  e <> IMAGE_VERIFIER_ERR_OWNER_MLDSA_DIGEST_MISSING.

(** The SHA-384 digest [verify_owner_pk_digest] computes over the owner
    public-key region. *)
Definition owner_region_digest (c : Consts) (env : Env) : option Z :=
  sha384_digest env (fst (owner_pub_key_range c)) (range_len (owner_pub_key_range c)).

(** The SHA-384 digest [verify_fmc] and [verify_runtime] compute over a TOC
    entry's image. *)
Definition entry_digest (env : Env) (e : ImageTocEntry) : option Z :=
  match image_range e with
  | Ok r => sha384_digest env (fst r) (range_len r)
  | Err _ => None
  end.

(** The PQC revocation bitmask [verify_preamble] passes to
    [verify_vendor_pqc_pk_idx] for a key type. *)
Definition pqc_revocation (env : Env) (pqc : FwVerificationPqcKeyType) : Z :=
  match pqc with
  | LMS => vendor_lms_pub_key_revocation env
  | MLDSA => vendor_mldsa_pub_key_revocation env
  end.

(** The checks [verify] makes before the vendor key indices all pass. *)
Definition checks_before_key_indices (c : Consts) (env : Env) (m : ImageManifest)
    (reason : ResetReason) : bool :=
  (marker m =? MANIFEST_MARKER c) && (manifest_size m =? MANIFEST_BYTE_SIZE c) &&
  match pqc_key_type_from_u8 c (pqc_key_type m), pqc_key_type_fuse env with
  | Some pqc, Some pqc_fuse =>
      pqc_key_type_eqb pqc pqc_fuse
      && is_ok (verify_vendor_pub_key_info_digest c env (preamble m) pqc)
  | _, _ => false
  end
  && is_ok (verify_owner_pk_digest c env reason).

(** The checks [verify_toc] makes before comparing the FMC and Runtime
    ranges all pass: entry count, TOC digest, non-zero sizes, and the images
    fit in the bundle. *)
Definition toc_checks_before_ranges (c : Consts) (env : Env) (m : ImageManifest)
    (ti : TocInfo) (sz : Z) : bool :=
  (toc_info_len ti =? MAX_TOC_ENTRY_COUNT c) &&
  match sha384_digest env (fst (toc_range c)) (range_len (toc_range c)) with
  | Some actual => toc_info_digest ti =? actual
  | None => false
  end &&
  negb (size (fmc m) =? 0) && negb (size (runtime m) =? 0) &&
  (manifest_size m + size (fmc m) + size (runtime m) <=? sz).

(** The [u32] fields of a TOC entry are in range. *)
Definition toc_entry_u32 (e : ImageTocEntry) : bool :=
  (0 <=? load_addr e) && (load_addr e <? U32_MOD) && (0 <=? offset e) && (offset e <? U32_MOD)
  && (0 <=? size e) && (size e <? U32_MOD).

(** A STASH_MEASUREMENT transaction from [id] of length [dlen]. *)
Definition stash_txn (dlen id : Z) (req : StashMeasurementReq) : MboxTxn :=
  {| txn_id := id; txn_cmd := CmdStashMeasurement req; txn_dlen := dlen |}.

(** The log entry of a stashed measurement. *)
Definition measurement_entry (req : StashMeasurementReq) : MeasurementLogEntry :=
  {| pcr_entry_id := PcrLogStashMeasurement;
     pcr_ids := Z.shiftl 1 PCR_ID_STASH_MEASUREMENT;
     pcr_data := sm_measurement req;
     me_metadata := sm_metadata req;
     me_context := sm_context req;
     me_svn := sm_svn req |}.

(** PCR extension, as a total function where the engine does not fail. *)
Definition extend_total (extend_pcr : Z -> Z -> option Z) (p x : Z) : Z :=
  match extend_pcr p x with Some q => q | None => p end.

(** The checks [verify_fmc] and [verify_runtime] make on where an image is
    loaded and entered: the load address and the image's last byte in ICCM,
    the entry point in ICCM, both 4-byte aligned. *)
Definition exe_in_iccm (env : Env) (e : ImageTocEntry) : bool :=
  range_contains (iccm_range env) (load_addr e)
  && range_contains (iccm_range env) (u32_sub ((load_addr e + size e) mod U32_MOD) 1)
  && (load_addr e mod 4 =? 0)
  && range_contains (iccm_range env) (entry_point e)
  && (entry_point e mod 4 =? 0).

(** The [TocInfo] [verify_header] returns for a header. *)
Definition header_toc_info (h : ImageHeader) : TocInfo :=
  {| toc_info_len := toc_len h; toc_info_digest := toc_digest h |}.

(** The PQC key and signature view [verify_preamble] builds for a key type. *)
Definition pqc_info_of (pqc : FwVerificationPqcKeyType) (pk sg : Z) : PqcKeyInfo :=
  match pqc with
  | LMS => PqcLms pk sg
  | MLDSA => PqcMldsa pk sg
  end.

(** ** The result monad *)

Lemma bind_Ok_inv {A B} (m : result A) (k : A -> result B) (b : B) :
  bind m k = Ok b -> exists a, m = Ok a /\ k a = Ok b.
Proof. destruct m; simpl; [eauto | discriminate]. Qed.

Lemma fail_if_Ok_inv (b : bool) e u : fail_if b e = Ok u -> b = false.
Proof. destruct b; simpl; congruence. Qed.

Lemma map_err_Ok_inv {A} (o : option A) e a : map_err o e = Ok a -> o = Some a.
Proof. destruct o; simpl; congruence. Qed.

Ltac errs_step :=
  match goal with
  | |- errs_in _ (bind _ _) => apply errs_bind; [ | intro ]
  | |- errs_in _ (fail_if _ _) => apply errs_fail_if
  | |- errs_in _ (map_err _ _) => apply errs_map_err
  | |- errs_in _ (Ok _) => exact I
  | |- errs_in _ (Err _) => simpl
  | |- context [if ?b then _ else _] => destruct b
  | |- errs_in _ (match ?x with _ => _ end) => destruct x
  | |- not_svn_err _ => split; discriminate
  end.

Ltac errs_solve := repeat errs_step.

Section NoSvnErr.

Variable c : Consts.
Variable env : Env.

Lemma verify_vendor_pub_key_info_digest_no_svn p pqc :
  errs_in not_svn_err (verify_vendor_pub_key_info_digest c env p pqc).
Proof.
  unfold verify_vendor_pub_key_info_digest, verify_active_ecc_pub_key_digest,
    verify_active_pqc_pub_key_digest; errs_solve.
Qed.

Lemma verify_preamble_no_svn p reason pqc :
  errs_in not_svn_err (verify_preamble c env p reason pqc).
Proof.
  unfold verify_preamble.
  apply errs_bind; [apply verify_vendor_pub_key_info_digest_no_svn | intros _].
  unfold verify_owner_pk_digest, verify_vendor_ecc_pk_idx, verify_vendor_pqc_pk_idx;
    errs_solve.
Qed.

Lemma verify_header_no_svn h info :
  errs_in not_svn_err (verify_header c env h info).
Proof.
  unfold verify_header, verify_vendor_sig, verify_owner_sig, verify_pqc_sig,
    verify_ecc_sig, verify_lms_sig, verify_mldsa_sig; errs_solve.
Qed.

Lemma verify_toc_no_svn m ti sz :
  errs_in not_svn_err (verify_toc c env m ti sz).
Proof. unfold verify_toc, image_range; errs_solve. Qed.

Lemma verify_fmc_no_svn e reason : errs_in not_svn_err (verify_fmc env e reason).
Proof. unfold verify_fmc, image_range; errs_solve. Qed.

Lemma verify_runtime_no_svn e : errs_in not_svn_err (verify_runtime env e).
Proof. unfold verify_runtime, image_range; errs_solve. Qed.

Lemma verify_images_no_svn m sz reason :
  errs_in not_svn_err (verify_images c env m sz reason).
Proof.
  unfold verify_images.
  repeat (apply errs_bind; [first [ apply errs_fail_if; split; discriminate
                                  | apply errs_map_err; split; discriminate
                                  | apply verify_preamble_no_svn
                                  | apply verify_header_no_svn
                                  | apply verify_toc_no_svn
                                  | apply verify_fmc_no_svn
                                  | apply verify_runtime_no_svn ] | intro ]).
  exact I.
Qed.

End NoSvnErr.

(** ** C1: the SVN-versus-fuse check *)

(** C1: [verify_svn] checks the firmware SVN against the fuse SVN exactly
    when the lifecycle is not Unprovisioned and anti-rollback is not
    disabled. When it does and the bundle passes every earlier check, an
    SVN below the fuse SVN (a fuse SVN that is itself at most
    [MAX_FIRMWARE_SVN]) makes [verify] fail with
    [IMAGE_VERIFIER_ERR_FIRMWARE_SVN_LESS_THAN_FUSE]. When it does not,
    [verify] returns neither SVN error, whatever the SVN. *)
Theorem verify_svn_fuse_gate (c : Consts) (env : Env) (m : ImageManifest) (sz : Z)
    (reason : ResetReason) :
  (svn_check_required env = true <->
     dev_lifecycle env <> Unprovisioned /\ anti_rollback_disable env = false) /\
  (forall r, verify_images c env m sz reason = Ok r ->
     svn_check_required env = true ->
     svn (header m) < fw_fuse_svn env ->
     fw_fuse_svn env <= MAX_FIRMWARE_SVN c ->
     verify c env m sz reason = Err IMAGE_VERIFIER_ERR_FIRMWARE_SVN_LESS_THAN_FUSE) /\
  (svn_check_required env = false ->
     forall e, verify c env m sz reason = Err e -> not_svn_err e).
Proof.
  split; [| split].
  - unfold svn_check_required.
    destruct (dev_lifecycle env), (anti_rollback_disable env); simpl;
      split; intuition congruence.
  - intros r Hv Hreq Hlt Hmax.
    unfold verify; rewrite Hv; destruct r as [[[pqc hi] fi] ri]; simpl.
    unfold verify_svn; rewrite Hreq.
    replace (svn (header m) >? MAX_FIRMWARE_SVN c) with false
      by (symmetry; rewrite Z.gtb_ltb; apply Z.ltb_ge; lia).
    replace (svn (header m) <? fw_fuse_svn env) with true
      by (symmetry; apply Z.ltb_lt; lia).
    reflexivity.
  - intros Hreq e He.
    pose proof (verify_images_no_svn c env m sz reason) as Hn.
    unfold verify in He.
    destruct (verify_images c env m sz reason) as [[[[pqc hi] fi] ri] | e'];
      simpl in *.
    + unfold verify_svn in He; rewrite Hreq in He; discriminate.
    + congruence.
Qed.

Lemma verify_svn_fuse_gate_witness :
  verify consts (env Manufacturing false 10) (manifest 5) 300 ColdReset
  = Err IMAGE_VERIFIER_ERR_FIRMWARE_SVN_LESS_THAN_FUSE.
Proof.
  eapply (proj1 (proj2 (verify_svn_fuse_gate consts (env Manufacturing false 10)
                          (manifest 5) 300 ColdReset)));
    [ reflexivity | reflexivity | simpl; lia | simpl; lia ].
Defined.

(** ** Update reset against cold reset *)

Ltac inv_ok :=
  repeat match goal with
  | H : bind _ _ = Ok _ |- _ =>
      let a := fresh "a" in let Ha := fresh "Ha" in
      apply bind_Ok_inv in H; destruct H as [a [Ha H]]
  | H : fail_if _ _ = Ok _ |- _ => apply fail_if_Ok_inv in H
  | H : map_err _ _ = Ok _ |- _ => apply map_err_Ok_inv in H
  end.

Ltac norm_bool :=
  repeat match goal with
  | H : negb _ = true |- _ => apply negb_true_iff in H
  | H : negb _ = false |- _ => apply negb_false_iff in H
  | H : (_ =? _) = true |- _ => apply Z.eqb_eq in H
  | H : (_ =? _) = false |- _ => apply Z.eqb_neq in H
  end.

Ltac smash :=
  repeat (match goal with
          | H : negb _ = true |- _ => apply negb_true_iff in H
          | H : negb _ = false |- _ => apply negb_false_iff in H
          | H : context [if ?b then _ else _] |- _ => destruct b eqn:?
          | |- context [if ?b then _ else _] => destruct b eqn:?
          | H : context [match ?x with Some _ => _ | None => _ end] |- _ => destruct x eqn:?
          | |- context [match ?x with Some _ => _ | None => _ end] => destruct x eqn:?
          end; simpl in *; try discriminate; try congruence).

Section Reasons.

Variable c : Consts.
Variable env : Env.

Lemma verify_owner_pk_digest_update (a : Z) (b : bool) :
  verify_owner_pk_digest c env ColdReset = Ok (a, b) ->
  owner_region_digest c env = Some a /\
  verify_owner_pk_digest c env UpdateReset =
    if owner_pub_key_digest_dv env =? a then Ok (a, b)
    else Err IMAGE_VERIFIER_ERR_UPDATE_RESET_OWNER_DIGEST_FAILURE.
Proof.
  unfold verify_owner_pk_digest, owner_region_digest, map_err, fail_if, bind; simpl.
  intro H; smash; injection H as <- <-; split; auto; congruence.
Qed.

Lemma verify_vendor_ecc_pk_idx_update p r :
  verify_vendor_ecc_pk_idx c env p ColdReset = Ok r ->
  verify_vendor_ecc_pk_idx c env p UpdateReset =
    if vendor_ecc_pub_key_idx_dv env =? vendor_ecc_pub_key_idx p then Ok r
    else Err IMAGE_VERIFIER_ERR_UPDATE_RESET_VENDOR_ECC_PUB_KEY_IDX_MISMATCH.
Proof.
  unfold verify_vendor_ecc_pk_idx, fail_if, bind; simpl.
  intro H; smash.
Qed.

Lemma verify_vendor_pqc_pk_idx_update p rev r :
  verify_vendor_pqc_pk_idx env p ColdReset rev = Ok r ->
  verify_vendor_pqc_pk_idx env p UpdateReset rev =
    if vendor_pqc_pub_key_idx_dv env =? vendor_pqc_pub_key_idx p then Ok r
    else Err IMAGE_VERIFIER_ERR_UPDATE_RESET_VENDOR_PQC_PUB_KEY_IDX_MISMATCH.
Proof.
  unfold verify_vendor_pqc_pk_idx, fail_if, bind; simpl.
  intro H; smash.
Qed.

Lemma verify_fmc_update e x :
  verify_fmc env e ColdReset = Ok x ->
  entry_digest env e = Some (exe_digest x) /\
  verify_fmc env e UpdateReset =
    if exe_digest x =? get_fmc_digest_dv env then Ok x
    else Err IMAGE_VERIFIER_ERR_UPDATE_RESET_FMC_DIGEST_MISMATCH.
Proof.
  unfold verify_fmc, entry_digest, map_err, fail_if, bind; simpl.
  destruct (image_range e) as [r|]; simpl; [| discriminate].
  intro H; smash; injection H as <-; simpl in *;
    repeat match goal with
           | H : (_ =? _) = true |- _ => apply Z.eqb_eq in H
           | H : (_ =? _) = false |- _ => apply Z.eqb_neq in H
           end;
    subst; split; auto; congruence.
Qed.

Lemma verify_preamble_update p pqc hi :
  verify_preamble c env p ColdReset pqc = Ok hi ->
  verify_preamble c env p UpdateReset pqc =
    if owner_pub_key_digest_dv env =? hi_owner_pub_keys_digest hi then
      if vendor_ecc_pub_key_idx_dv env =? vendor_ecc_pub_key_idx p then
        if vendor_pqc_pub_key_idx_dv env =? vendor_pqc_pub_key_idx p then Ok hi
        else Err IMAGE_VERIFIER_ERR_UPDATE_RESET_VENDOR_PQC_PUB_KEY_IDX_MISMATCH
      else Err IMAGE_VERIFIER_ERR_UPDATE_RESET_VENDOR_ECC_PUB_KEY_IDX_MISMATCH
    else Err IMAGE_VERIFIER_ERR_UPDATE_RESET_OWNER_DIGEST_FAILURE.
Proof.
  unfold verify_preamble; intro H.
  apply bind_Ok_inv in H as [u [Hv H]]; rewrite Hv; cbn [bind].
  apply bind_Ok_inv in H as [[od b] [Ho H]]; cbv beta iota in H.
  destruct (verify_owner_pk_digest_update _ _ Ho) as [_ ->].
  apply bind_Ok_inv in H as [[ei r] [He H]]; cbv beta iota in H.
  apply bind_Ok_inv in H as [pidx [Hp H]].
  injection H as <-; cbn [hi_owner_pub_keys_digest].
  destruct (owner_pub_key_digest_dv env =? od); cbn [bind]; [| reflexivity].
  rewrite (verify_vendor_ecc_pk_idx_update _ _ He).
  destruct (vendor_ecc_pub_key_idx_dv env =? vendor_ecc_pub_key_idx p); cbn [bind];
    [| reflexivity].
  rewrite (verify_vendor_pqc_pk_idx_update _ _ _ Hp).
  destruct (vendor_pqc_pub_key_idx_dv env =? vendor_pqc_pub_key_idx p); cbn [bind];
    reflexivity.
Qed.

Lemma verify_toc_Ok m ti sz r :
  verify_toc c env m ti sz = Ok r -> r = (fmc m, runtime m).
Proof.
  unfold verify_toc; intro H; inv_ok.
  destruct (u32_overflowing_add _ _) in H; inv_ok.
  destruct (u32_overflowing_add _ _) in H; inv_ok.
  congruence.
Qed.

(** The update-reset verification of a bundle whose cold-reset verification
    succeeds: it adds exactly the four data-vault comparisons. *)
Lemma verify_images_update m sz pqc hi fi ri :
  verify_images c env m sz ColdReset = Ok (pqc, hi, fi, ri) ->
  verify_images c env m sz UpdateReset =
    if owner_pub_key_digest_dv env =? hi_owner_pub_keys_digest hi then
      if vendor_ecc_pub_key_idx_dv env =? vendor_ecc_pub_key_idx (preamble m) then
        if vendor_pqc_pub_key_idx_dv env =? vendor_pqc_pub_key_idx (preamble m) then
          if exe_digest fi =? get_fmc_digest_dv env then Ok (pqc, hi, fi, ri)
          else Err IMAGE_VERIFIER_ERR_UPDATE_RESET_FMC_DIGEST_MISMATCH
        else Err IMAGE_VERIFIER_ERR_UPDATE_RESET_VENDOR_PQC_PUB_KEY_IDX_MISMATCH
      else Err IMAGE_VERIFIER_ERR_UPDATE_RESET_VENDOR_ECC_PUB_KEY_IDX_MISMATCH
    else Err IMAGE_VERIFIER_ERR_UPDATE_RESET_OWNER_DIGEST_FAILURE.
Proof.
  unfold verify_images; intro H.
  do 5 (apply bind_Ok_inv in H as [? [Hs H]]; rewrite Hs; cbn [bind]; clear Hs).
  apply bind_Ok_inv in H as [hi' [Hp H]].
  rewrite (verify_preamble_update _ _ _ Hp).
  apply bind_Ok_inv in H as [ti [Hh H]].
  apply bind_Ok_inv in H as [ii [Ht H]].
  apply bind_Ok_inv in H as [fi' [Hf H]].
  apply bind_Ok_inv in H as [ri' [Hr H]].
  injection H as <- <- <- <-.
  destruct (owner_pub_key_digest_dv env =? hi_owner_pub_keys_digest hi'); cbn [bind];
    [| reflexivity].
  destruct (vendor_ecc_pub_key_idx_dv env =? vendor_ecc_pub_key_idx (preamble m));
    cbn [bind]; [| reflexivity].
  destruct (vendor_pqc_pub_key_idx_dv env =? vendor_pqc_pub_key_idx (preamble m));
    cbn [bind]; [| reflexivity].
  rewrite Hh; cbn [bind]; rewrite Ht; cbn [bind].
  rewrite (proj2 (verify_fmc_update _ _ Hf)).
  destruct (exe_digest fi' =? get_fmc_digest_dv env); cbn [bind]; [| reflexivity].
  rewrite Hr; reflexivity.
Qed.

(** What a successful cold-reset verification computed: the owner-region
    digest and the FMC image digest. *)
Lemma verify_images_digests m sz reason pqc hi fi ri :
  verify_images c env m sz reason = Ok (pqc, hi, fi, ri) ->
  owner_region_digest c env = Some (hi_owner_pub_keys_digest hi) /\
  entry_digest env (fmc m) = Some (exe_digest fi).
Proof.
  unfold verify_images; intro H.
  do 5 (apply bind_Ok_inv in H as [? [_ H]]).
  apply bind_Ok_inv in H as [hi' [Hp H]].
  apply bind_Ok_inv in H as [ti [_ H]].
  apply bind_Ok_inv in H as [ii [Ht H]].
  apply bind_Ok_inv in H as [fi' [Hf H]].
  apply bind_Ok_inv in H as [ri' [_ H]].
  injection H as <- <- <- <-.
  apply verify_toc_Ok in Ht; subst ii; cbn [fst] in Hf.
  split.
  - unfold verify_preamble in Hp.
    apply bind_Ok_inv in Hp as [u [_ Hp]].
    apply bind_Ok_inv in Hp as [[od b] [Ho Hp]]; cbv beta iota in Hp.
    apply bind_Ok_inv in Hp as [[ei r] [_ Hp]]; cbv beta iota in Hp.
    apply bind_Ok_inv in Hp as [pidx [_ Hp]].
    injection Hp as <-; cbn [hi_owner_pub_keys_digest].
    unfold verify_owner_pk_digest, owner_region_digest in *.
    inv_ok; destruct a0; congruence.
  - unfold verify_fmc, entry_digest in *.
    apply bind_Ok_inv in Hf as [rg [Hrg Hf]]; rewrite Hrg.
    apply bind_Ok_inv in Hf as [a [Ha Hf]]; apply map_err_Ok_inv in Ha.
    apply bind_Ok_inv in Hf as [u [Hd Hf]].
    apply fail_if_Ok_inv, negb_false_iff, Z.eqb_eq in Hd.
    inv_ok; injection Hf as <-; cbn; congruence.
Qed.

Lemma verify_images_update_Ok m sz pqc hi fi ri :
  verify_images c env m sz UpdateReset = Ok (pqc, hi, fi, ri) ->
  owner_pub_key_digest_dv env = hi_owner_pub_keys_digest hi /\
  exe_digest fi = get_fmc_digest_dv env.
Proof.
  unfold verify_images; intro H.
  do 5 (apply bind_Ok_inv in H as [? [_ H]]).
  apply bind_Ok_inv in H as [hi' [Hp H]].
  apply bind_Ok_inv in H as [ti [_ H]].
  apply bind_Ok_inv in H as [ii [_ H]].
  apply bind_Ok_inv in H as [fi' [Hf H]].
  apply bind_Ok_inv in H as [ri' [_ H]].
  injection H as <- <- <- <-.
  split.
  - unfold verify_preamble in Hp.
    apply bind_Ok_inv in Hp as [u [_ Hp]].
    apply bind_Ok_inv in Hp as [[od b] [Ho Hp]]; cbv beta iota in Hp.
    apply bind_Ok_inv in Hp as [[ei r] [_ Hp]]; cbv beta iota in Hp.
    apply bind_Ok_inv in Hp as [pidx [_ Hp]].
    injection Hp as <-; cbn [hi_owner_pub_keys_digest].
    unfold verify_owner_pk_digest in Ho; cbn [reset_reason_eqb] in Ho.
    inv_ok; injection Ho as <- _; norm_bool; congruence.
  - unfold verify_fmc in Hf; cbn [reset_reason_eqb] in Hf.
    inv_ok; injection Hf as <-; cbn; norm_bool; congruence.
Qed.

End Reasons.

(** ** C2: update reset keeps the owner keys and the FMC *)

(** C2: an update-reset [verify] succeeds only if the SHA-384 digest of the
    owner public-key region equals the owner key digest in the data vault
    and the digest of the FMC image equals the FMC digest in the data
    vault. For a bundle that passes every other check (its cold-reset
    verification succeeds), a different owner digest gives
    [IMAGE_VERIFIER_ERR_UPDATE_RESET_OWNER_DIGEST_FAILURE], and with the
    owner digest and the key indices as recorded, a different FMC digest
    gives [IMAGE_VERIFIER_ERR_UPDATE_RESET_FMC_DIGEST_MISMATCH]. *)
Theorem update_reset_digest_checks (c : Consts) (env : Env) (m : ImageManifest) (sz : Z) :
  (forall info, verify c env m sz UpdateReset = Ok info ->
     owner_region_digest c env = Some (owner_pub_key_digest_dv env) /\
     entry_digest env (fmc m) = Some (get_fmc_digest_dv env)) /\
  (forall r, verify_images c env m sz ColdReset = Ok r ->
     owner_region_digest c env <> Some (owner_pub_key_digest_dv env) ->
     verify c env m sz UpdateReset = Err IMAGE_VERIFIER_ERR_UPDATE_RESET_OWNER_DIGEST_FAILURE) /\
  (forall r, verify_images c env m sz ColdReset = Ok r ->
     owner_region_digest c env = Some (owner_pub_key_digest_dv env) ->
     vendor_ecc_pub_key_idx_dv env = vendor_ecc_pub_key_idx (preamble m) ->
     vendor_pqc_pub_key_idx_dv env = vendor_pqc_pub_key_idx (preamble m) ->
     entry_digest env (fmc m) <> Some (get_fmc_digest_dv env) ->
     verify c env m sz UpdateReset = Err IMAGE_VERIFIER_ERR_UPDATE_RESET_FMC_DIGEST_MISMATCH).
Proof.
  split; [| split].
  - intros info H; unfold verify in H.
    apply bind_Ok_inv in H as [[[[pqc hi] fi] ri] [Hv _]].
    destruct (verify_images_digests c env _ _ _ _ _ _ _ Hv) as [Ho Hf].
    destruct (verify_images_update_Ok c env _ _ _ _ _ _ Hv) as [Eo Ef].
    rewrite Ho, Hf, Eo, Ef; split; reflexivity.
  - intros [[[pqc hi] fi] ri] Hv Hne; unfold verify.
    destruct (verify_images_digests c env _ _ _ _ _ _ _ Hv) as [Ho _].
    rewrite (verify_images_update c env _ _ _ _ _ _ Hv).
    destruct (Z.eqb_spec (owner_pub_key_digest_dv env) (hi_owner_pub_keys_digest hi));
      [congruence | reflexivity].
  - intros [[[pqc hi] fi] ri] Hv Ho' Hecc Hpqc Hne; unfold verify.
    destruct (verify_images_digests c env _ _ _ _ _ _ _ Hv) as [Ho Hf].
    rewrite (verify_images_update c env _ _ _ _ _ _ Hv).
    rewrite Ho' in Ho; injection Ho as ->; rewrite Z.eqb_refl.
    rewrite Hecc, Z.eqb_refl, Hpqc, Z.eqb_refl.
    destruct (Z.eqb_spec (exe_digest fi) (get_fmc_digest_dv env));
      [congruence | reflexivity].
Qed.

Lemma update_reset_digest_checks_witness :
  verify consts (with_dv_digests (env Manufacturing false 0) 5 0) (manifest 5) 300 UpdateReset
  = Err IMAGE_VERIFIER_ERR_UPDATE_RESET_OWNER_DIGEST_FAILURE /\
  verify consts (with_dv_digests (env Manufacturing false 0) 0 5) (manifest 5) 300 UpdateReset
  = Err IMAGE_VERIFIER_ERR_UPDATE_RESET_FMC_DIGEST_MISMATCH.
Proof.
  split.
  - eapply (proj1 (proj2 (update_reset_digest_checks consts
                            (with_dv_digests (env Manufacturing false 0) 5 0) (manifest 5) 300)));
      [ reflexivity | discriminate ].
  - eapply (proj2 (proj2 (update_reset_digest_checks consts
                            (with_dv_digests (env Manufacturing false 0) 0 5) (manifest 5) 300)));
      [ reflexivity | reflexivity | reflexivity | reflexivity | discriminate ].
Defined.

(** ** Key revocation *)

Lemma testbit_u32_lt (a i : Z) :
  0 <= a < U32_MOD -> 0 <= i -> Z.testbit a i = true -> i < 32.
Proof.
  intros Ha Hi Hb.
  destruct (Z.lt_ge_cases i 32) as [| Hge]; [assumption |].
  rewrite <- (Z.mod_small a U32_MOD Ha) in Hb.
  unfold U32_MOD in Hb; rewrite Z.mod_pow2_bits_high in Hb by lia; discriminate.
Qed.

Lemma u32_shl1_small (i : Z) : 0 <= i < 32 -> u32_shl1 i = 2 ^ i.
Proof.
  intro Hi; unfold u32_shl1.
  rewrite Z.mod_small by lia.
  rewrite Z.shiftl_1_l.
  change (U32_MOD - 1) with (Z.ones 32).
  rewrite Z.land_ones by lia.
  apply Z.mod_small; split; [apply Z.pow_nonneg; lia | apply Z.pow_lt_mono_r; lia].
Qed.

Lemma land_pow2_set (a i : Z) :
  0 <= i -> Z.testbit a i = true -> Z.land a (2 ^ i) = 2 ^ i.
Proof.
  intros Hi Hb; apply Z.bits_inj'; intros n Hn.
  rewrite Z.land_spec, Z.pow2_bits_eqb by lia.
  destruct (Z.eqb_spec i n); [subst; rewrite Hb | rewrite andb_false_r]; reflexivity.
Qed.

Lemma pow2_ne_0 (i : Z) : 0 <= i -> 2 ^ i <> 0.
Proof. intro; apply Z.pow_nonzero; lia. Qed.

Lemma verify_vendor_ecc_pk_idx_revoked c env p reason :
  let rev := vendor_ecc_pub_key_revocation env in
  let i := vendor_ecc_pub_key_idx p in
  0 <= rev < U32_MOD ->
  Z.land rev (VENDOR_ECC_REVOCATION_BITS c) = rev ->
  0 <= i < u32_sub (key_hash_count (ecc_key_descriptor p)) 1 ->
  Z.testbit rev i = true ->
  verify_vendor_ecc_pk_idx c env p reason = Err IMAGE_VERIFIER_ERR_VENDOR_ECC_PUB_KEY_REVOKED.
Proof.
  intros rev i Hrev Hsub Hi Hb.
  pose proof (testbit_u32_lt rev i Hrev (proj1 Hi) Hb) as H32.
  unfold verify_vendor_ecc_pk_idx; fold rev i.
  replace (i >? u32_sub (key_hash_count (ecc_key_descriptor p)) 1) with false
    by (symmetry; rewrite Z.gtb_ltb; apply Z.ltb_ge; lia).
  replace (i =? u32_sub (key_hash_count (ecc_key_descriptor p)) 1) with false
    by (symmetry; apply Z.eqb_neq; lia).
  cbn [fail_if bind].
  unfold revocation_from_bits_truncate, revocation_contains.
  rewrite u32_shl1_small by lia.
  assert (Hbits : Z.testbit (VENDOR_ECC_REVOCATION_BITS c) i = true).
  { rewrite <- Hsub, Z.land_spec in Hb; apply andb_true_iff in Hb; tauto. }
  rewrite (Z.land_comm (2 ^ i)), (land_pow2_set _ _ (proj1 Hi) Hbits).
  rewrite (land_pow2_set _ _ (proj1 Hi) Hb), Z.eqb_refl; reflexivity.
Qed.

Lemma verify_vendor_pqc_pk_idx_revoked env p reason rev :
  let i := vendor_pqc_pub_key_idx p in
  0 <= rev < U32_MOD ->
  0 <= i < u32_sub (key_hash_count (pqc_key_descriptor p)) 1 ->
  Z.testbit rev i = true ->
  verify_vendor_pqc_pk_idx env p reason rev = Err IMAGE_VERIFIER_ERR_VENDOR_PQC_PUB_KEY_REVOKED.
Proof.
  intros i Hrev Hi Hb.
  pose proof (testbit_u32_lt rev i Hrev (proj1 Hi) Hb) as H32.
  unfold verify_vendor_pqc_pk_idx; fold i.
  replace (i >? u32_sub (key_hash_count (pqc_key_descriptor p)) 1) with false
    by (symmetry; rewrite Z.gtb_ltb; apply Z.ltb_ge; lia).
  replace (i =? u32_sub (key_hash_count (pqc_key_descriptor p)) 1) with false
    by (symmetry; apply Z.eqb_neq; lia).
  cbn [fail_if bind].
  rewrite u32_shl1_small by lia.
  rewrite (land_pow2_set _ _ (proj1 Hi) Hb).
  destruct (Z.eqb_spec (2 ^ i) 0) as [E | _]; [exfalso; exact (pow2_ne_0 i (proj1 Hi) E) |].
  reflexivity.
Qed.

(** Once the checks before them pass, an error of the key-index checks is
    the error of [verify]. *)
Lemma verify_error_at_key_indices c env m sz reason pqc e :
  checks_before_key_indices c env m reason = true ->
  pqc_key_type_from_u8 c (pqc_key_type m) = Some pqc ->
  (verify_vendor_ecc_pk_idx c env (preamble m) reason = Err e ->
   verify c env m sz reason = Err e) /\
  (is_ok (verify_vendor_ecc_pk_idx c env (preamble m) reason) = true ->
   verify_vendor_pqc_pk_idx env (preamble m) reason (pqc_revocation env pqc) = Err e ->
   verify c env m sz reason = Err e).
Proof.
  unfold checks_before_key_indices; intros H Hpqc.
  rewrite Hpqc in H.
  destruct (marker m =? MANIFEST_MARKER c) eqn:Hm; [| discriminate].
  destruct (manifest_size m =? MANIFEST_BYTE_SIZE c) eqn:Hs; [| discriminate].
  destruct (pqc_key_type_fuse env) as [pf |] eqn:Hf; [| discriminate].
  destruct (pqc_key_type_eqb pqc pf) eqn:Hq; [| discriminate].
  destruct (verify_vendor_pub_key_info_digest c env (preamble m) pqc) eqn:Hv;
    [| discriminate].
  destruct (verify_owner_pk_digest c env reason) as [[od b] |] eqn:Ho; [| discriminate].
  unfold verify, verify_images, verify_preamble.
  rewrite Hm, Hs, Hpqc, Hf; cbn [negb fail_if map_err bind].
  rewrite Hq; cbn [negb fail_if bind]; rewrite Hv; cbn [bind].
  rewrite Ho; cbn [bind].
  split.
  - intro He; rewrite He; reflexivity.
  - destruct (verify_vendor_ecc_pk_idx c env (preamble m) reason) as [[ki kr] |];
      [| discriminate]; intros _ He; cbn [bind].
    unfold pqc_revocation in He; destruct pqc; rewrite He; reflexivity.
Qed.

(** C3: a vendor key whose index is below the last index of its descriptor
    and whose bit is set in the revocation bitmask is rejected with
    [IMAGE_VERIFIER_ERR_VENDOR_ECC_PUB_KEY_REVOKED] (ECC; the bitmask is a
    [u32] within [VENDOR_ECC_REVOCATION_BITS]) or
    [IMAGE_VERIFIER_ERR_VENDOR_PQC_PUB_KEY_REVOKED] (PQC; the bitmask of the
    bundle's PQC key type), by the index check and by [verify] once the
    checks before it pass (for PQC, the ECC index check as well). For the
    last index the bitmask is not read: the result of the index check is
    given by the update-reset comparison alone. *)
Theorem vendor_key_revocation (c : Consts) (env : Env) (m : ImageManifest) (sz : Z)
    (reason : ResetReason) :
  (0 <= vendor_ecc_pub_key_revocation env < U32_MOD ->
   Z.land (vendor_ecc_pub_key_revocation env) (VENDOR_ECC_REVOCATION_BITS c)
     = vendor_ecc_pub_key_revocation env ->
   0 <= vendor_ecc_pub_key_idx (preamble m)
     < u32_sub (key_hash_count (ecc_key_descriptor (preamble m))) 1 ->
   Z.testbit (vendor_ecc_pub_key_revocation env) (vendor_ecc_pub_key_idx (preamble m)) = true ->
   verify_vendor_ecc_pk_idx c env (preamble m) reason
     = Err IMAGE_VERIFIER_ERR_VENDOR_ECC_PUB_KEY_REVOKED /\
   (checks_before_key_indices c env m reason = true ->
    verify c env m sz reason = Err IMAGE_VERIFIER_ERR_VENDOR_ECC_PUB_KEY_REVOKED)) /\
  (forall pqc, pqc_key_type_from_u8 c (pqc_key_type m) = Some pqc ->
   0 <= pqc_revocation env pqc < U32_MOD ->
   0 <= vendor_pqc_pub_key_idx (preamble m)
     < u32_sub (key_hash_count (pqc_key_descriptor (preamble m))) 1 ->
   Z.testbit (pqc_revocation env pqc) (vendor_pqc_pub_key_idx (preamble m)) = true ->
   verify_vendor_pqc_pk_idx env (preamble m) reason (pqc_revocation env pqc)
     = Err IMAGE_VERIFIER_ERR_VENDOR_PQC_PUB_KEY_REVOKED /\
   (checks_before_key_indices c env m reason = true ->
    is_ok (verify_vendor_ecc_pk_idx c env (preamble m) reason) = true ->
    verify c env m sz reason = Err IMAGE_VERIFIER_ERR_VENDOR_PQC_PUB_KEY_REVOKED)) /\
  (vendor_ecc_pub_key_idx (preamble m) = u32_sub (key_hash_count (ecc_key_descriptor (preamble m))) 1 ->
   verify_vendor_ecc_pk_idx c env (preamble m) reason =
     if reset_reason_eqb reason UpdateReset
        && negb (vendor_ecc_pub_key_idx_dv env =? vendor_ecc_pub_key_idx (preamble m))
     then Err IMAGE_VERIFIER_ERR_UPDATE_RESET_VENDOR_ECC_PUB_KEY_IDX_MISMATCH
     else Ok (vendor_ecc_pub_key_idx (preamble m), vendor_ecc_pub_key_revocation env)) /\
  (forall rev,
   vendor_pqc_pub_key_idx (preamble m) = u32_sub (key_hash_count (pqc_key_descriptor (preamble m))) 1 ->
   verify_vendor_pqc_pk_idx env (preamble m) reason rev =
     if reset_reason_eqb reason UpdateReset
        && negb (vendor_pqc_pub_key_idx_dv env =? vendor_pqc_pub_key_idx (preamble m))
     then Err IMAGE_VERIFIER_ERR_UPDATE_RESET_VENDOR_PQC_PUB_KEY_IDX_MISMATCH
     else Ok (vendor_pqc_pub_key_idx (preamble m))).
Proof.
  split; [| split; [| split]].
  - intros Hr Hs Hi Hb.
    pose proof (verify_vendor_ecc_pk_idx_revoked c env (preamble m) reason Hr Hs Hi Hb) as E.
    split; [exact E |].
    intro Hc.
    destruct (pqc_key_type_from_u8 c (pqc_key_type m)) as [pqc |] eqn:Hp.
    + exact (proj1 (verify_error_at_key_indices c env m sz reason pqc _ Hc Hp) E).
    + unfold checks_before_key_indices in Hc; rewrite Hp in Hc.
      rewrite andb_false_r, andb_false_l in Hc; discriminate.
  - intros pqc Hp Hr Hi Hb.
    pose proof (verify_vendor_pqc_pk_idx_revoked env (preamble m) reason _ Hr Hi Hb) as E.
    split; [exact E |].
    intros Hc Hok.
    exact (proj2 (verify_error_at_key_indices c env m sz reason pqc _ Hc Hp) Hok E).
  - intro Hl; unfold verify_vendor_ecc_pk_idx; rewrite <- Hl.
    rewrite Z.eqb_refl.
    replace (vendor_ecc_pub_key_idx (preamble m) >? vendor_ecc_pub_key_idx (preamble m))
      with false by (symmetry; rewrite Z.gtb_ltb; apply Z.ltb_irrefl).
    cbn [fail_if bind].
    destruct (reset_reason_eqb reason UpdateReset); cbn [andb];
      [destruct (vendor_ecc_pub_key_idx_dv env =? vendor_ecc_pub_key_idx (preamble m)) |];
      reflexivity.
  - intros rev Hl; unfold verify_vendor_pqc_pk_idx; rewrite <- Hl.
    rewrite Z.eqb_refl.
    replace (vendor_pqc_pub_key_idx (preamble m) >? vendor_pqc_pub_key_idx (preamble m))
      with false by (symmetry; rewrite Z.gtb_ltb; apply Z.ltb_irrefl).
    cbn [fail_if bind].
    destruct (reset_reason_eqb reason UpdateReset); cbn [andb];
      [destruct (vendor_pqc_pub_key_idx_dv env =? vendor_pqc_pub_key_idx (preamble m)) |];
      reflexivity.
Qed.

Lemma vendor_key_revocation_witness :
  verify consts (with_revocations (env Manufacturing false 0) 1 0 0)
    (manifest_with 5 (preamble_with 2 0 2 0)) 300 ColdReset
  = Err IMAGE_VERIFIER_ERR_VENDOR_ECC_PUB_KEY_REVOKED /\
  verify consts (with_revocations (env Manufacturing false 0) 0 1 0)
    (manifest_with 5 (preamble_with 2 0 2 0)) 300 ColdReset
  = Err IMAGE_VERIFIER_ERR_VENDOR_PQC_PUB_KEY_REVOKED.
Proof.
  split.
  - apply (proj1 (vendor_key_revocation consts (with_revocations (env Manufacturing false 0) 1 0 0)
                    (manifest_with 5 (preamble_with 2 0 2 0)) 300 ColdReset));
      [ vm_compute; split; congruence | reflexivity | vm_compute; split; congruence
      | reflexivity | reflexivity ].
  - apply (proj1 (proj2 (vendor_key_revocation consts
                           (with_revocations (env Manufacturing false 0) 0 1 0)
                           (manifest_with 5 (preamble_with 2 0 2 0)) 300 ColdReset)) LMS);
      [ reflexivity | vm_compute; split; congruence | vm_compute; split; congruence
      | reflexivity | reflexivity | reflexivity ].
Defined.

(** ** C10: an empty key descriptor in the unprovisioned lifecycle *)

(** C10: in the Unprovisioned lifecycle the vendor key-descriptor checks
    are skipped ([verify_vendor_pub_key_info_digest] returns [Ok]); with a
    [key_hash_count] of [0], [last_key_idx = 0 - 1] wraps to [0xFFFFFFFF],
    and neither index check returns its OUT_OF_BOUNDS error for any [u32]
    key index. *)
Theorem zero_hash_count_index_unbounded (c : Consts) (env : Env) (m : ImageManifest)
    (reason : ResetReason) :
  dev_lifecycle env = Unprovisioned ->
  (forall pqc, verify_vendor_pub_key_info_digest c env (preamble m) pqc = Ok tt) /\
  (key_hash_count (ecc_key_descriptor (preamble m)) = 0 ->
   u32_sub (key_hash_count (ecc_key_descriptor (preamble m))) 1 = 0xFFFFFFFF /\
   (0 <= vendor_ecc_pub_key_idx (preamble m) < U32_MOD ->
    verify_vendor_ecc_pk_idx c env (preamble m) reason
      <> Err IMAGE_VERIFIER_ERR_VENDOR_ECC_PUB_KEY_INDEX_OUT_OF_BOUNDS)) /\
  (key_hash_count (pqc_key_descriptor (preamble m)) = 0 ->
   u32_sub (key_hash_count (pqc_key_descriptor (preamble m))) 1 = 0xFFFFFFFF /\
   (0 <= vendor_pqc_pub_key_idx (preamble m) < U32_MOD ->
    forall rev, verify_vendor_pqc_pk_idx env (preamble m) reason rev
      <> Err IMAGE_VERIFIER_ERR_VENDOR_PQC_PUB_KEY_INDEX_OUT_OF_BOUNDS)).
Proof.
  intro Hl; split; [| split].
  - intro pqc; unfold verify_vendor_pub_key_info_digest; rewrite Hl; reflexivity.
  - intro H0; split; [rewrite H0; reflexivity |].
    intro Hi; unfold verify_vendor_ecc_pk_idx; rewrite H0.
    replace (vendor_ecc_pub_key_idx (preamble m) >? u32_sub 0 1) with false
      by (symmetry; rewrite Z.gtb_ltb; apply Z.ltb_ge; unfold U32_MOD in Hi;
          change (u32_sub 0 1) with (2 ^ 32 - 1); lia).
    cbn [fail_if bind].
    unfold fail_if; smash.
  - intro H0; split; [rewrite H0; reflexivity |].
    intros Hi rev; unfold verify_vendor_pqc_pk_idx; rewrite H0.
    replace (vendor_pqc_pub_key_idx (preamble m) >? u32_sub 0 1) with false
      by (symmetry; rewrite Z.gtb_ltb; apply Z.ltb_ge; unfold U32_MOD in Hi;
          change (u32_sub 0 1) with (2 ^ 32 - 1); lia).
    cbn [fail_if bind].
    unfold fail_if; smash.
Qed.

Lemma zero_hash_count_index_unbounded_witness :
  verify_vendor_ecc_pk_idx consts (env Unprovisioned false 0) (preamble_with 0 4000000000 0 7)
    ColdReset <> Err IMAGE_VERIFIER_ERR_VENDOR_ECC_PUB_KEY_INDEX_OUT_OF_BOUNDS.
Proof.
  apply (proj2 (proj1 (proj2 (zero_hash_count_index_unbounded consts (env Unprovisioned false 0)
                                (manifest_with 5 (preamble_with 0 4000000000 0 7)) ColdReset
                                eq_refl)) eq_refl));
    vm_compute; split; congruence.
Defined.

(** ** C4: the maximum SVN is checked only with the fuse SVN *)

(** C4 (as the code is): when [svn_check_required] is false, a bundle that
    passes every other check is accepted whatever its SVN, including an SVN
    above [MAX_FIRMWARE_SVN]. *)
Theorem verify_svn_unchecked_when_not_required (c : Consts) (env : Env) (m : ImageManifest)
    (sz : Z) (reason : ResetReason) r :
  svn_check_required env = false ->
  verify_images c env m sz reason = Ok r ->
  exists info, verify c env m sz reason = Ok info /\ fw_svn info = svn (header m).
Proof.
  intros Hreq Hv; unfold verify; rewrite Hv.
  destruct r as [[[pqc hi] fi] ri]; cbn [bind].
  unfold verify_svn; rewrite Hreq; cbn [bind].
  eexists; split; reflexivity.
Qed.

Lemma verify_svn_unchecked_when_not_required_witness :
  exists info, verify consts (env Unprovisioned false 0) (manifest 5) 300 ColdReset = Ok info
               /\ fw_svn info = 5.
Proof.
  eapply (verify_svn_unchecked_when_not_required consts (env Unprovisioned false 0)
            (manifest 5) 300 ColdReset); reflexivity.
Defined.

(** An SVN of [MAX_FIRMWARE_SVN + 1] is accepted by [verify] in the
    Unprovisioned lifecycle, and with anti-rollback disabled. *)
Lemma verify_accepts_svn_above_max :
  MAX_FIRMWARE_SVN consts < 129 /\
  (exists info, verify consts (env Unprovisioned false 0) (manifest 129) 300 ColdReset = Ok info
                /\ fw_svn info = 129) /\
  (exists info, verify consts (env Manufacturing true 0) (manifest 129) 300 ColdReset = Ok info
                /\ fw_svn info = 129).
Proof.
  split; [reflexivity |].
  split; eexists; split; reflexivity.
Qed.

(** ** C9: the temporary slot of [ecc384_key_gen] *)

(** C9 (as the code is): when the HMAC step fails, [ecc384_key_gen] returns
    its error at once, with the key vault as the HMAC step left it:
    [erase_key KEY_ID_TMP] is not called. Once the HMAC step succeeds and the
    slot is not locked, the slot is erased whatever the key-pair engine
    returned. *)
Theorem ecc384_key_gen_tmp_slot (KEY_ID_TMP : nat)
    (env_hmac_kdf : KeyVault -> nat -> Z -> nat -> KeyVault * result unit)
    (ecc384_key_pair : KeyVault -> nat -> nat -> KeyVault * result Z)
    (kv : KeyVault) (cdi : nat) (label : Z) (priv_key : nat) :
  (forall kv' e, env_hmac_kdf kv cdi label KEY_ID_TMP = (kv', Err e) ->
     ecc384_key_gen KEY_ID_TMP env_hmac_kdf ecc384_key_pair kv cdi label priv_key
       = (kv', Err e)) /\
  (forall kv1 u kv2 pk, env_hmac_kdf kv cdi label KEY_ID_TMP = (kv1, Ok u) ->
     ecc384_key_pair kv1 KEY_ID_TMP priv_key = (kv2, pk) ->
     kv_locked kv2 KEY_ID_TMP = false ->
     let kv' := fst (ecc384_key_gen KEY_ID_TMP env_hmac_kdf ecc384_key_pair kv cdi label priv_key) in
     kv_slots kv' KEY_ID_TMP = None /\ kv_erased kv' = kv_erased kv2 ++ [KEY_ID_TMP]).
Proof.
  split.
  - intros kv' e H; unfold ecc384_key_gen; rewrite H; reflexivity.
  - intros kv1 u kv2 pk H1 H2 Hl; unfold ecc384_key_gen; rewrite H1, H2.
    unfold erase_key; rewrite Hl; cbn.
    destruct pk; cbn; rewrite Nat.eqb_refl; split; reflexivity.
Qed.

Lemma ecc384_key_gen_tmp_slot_witness :
  ecc384_key_gen 3 hmac_kdf_fail ecc_key_pair_ok kv_tmp_populated 0 1 5
    = (kv_tmp_populated, Err (DRIVER_ERROR 2)).
Proof.
  apply (proj1 (ecc384_key_gen_tmp_slot 3 hmac_kdf_fail ecc_key_pair_ok kv_tmp_populated 0 1 5));
    reflexivity.
Defined.

(** The HMAC step fails: the result is an error, the temporary slot [3]
    still holds its key and no slot was erased. *)
Lemma ecc384_key_gen_error_leaves_tmp_slot :
  let '(kv', r) := ecc384_key_gen 3 hmac_kdf_fail ecc_key_pair_ok kv_tmp_populated 0 1 5 in
  r = Err (DRIVER_ERROR 2) /\ kv_slots kv' 3 = Some 42 /\ kv_erased kv' = [].
Proof. vm_compute; repeat split. Qed.

(** ** C5: update reset, min-SVN and key ladder *)

Lemma ladder_iterate_Ok step n chain key l :
  ladder_iterate step n chain key = Ok l ->
  exists new, l = new ++ chain /\ length new = n.
Proof.
  revert chain key; induction n as [| n IH]; intros chain key H; cbn in H.
  - injection H as <-; exists []; split; reflexivity.
  - destruct (step key) as [k |]; [| discriminate].
    destruct (IH _ _ H) as [new [-> Hlen]].
    exists (new ++ [k]); rewrite <- app_assoc, length_app, Hlen; cbn.
    split; [reflexivity | lia].
Qed.

(** C5: after a successful update reset, the data vault's min-SVN is the
    minimum of the old min-SVN and the new firmware SVN, its firmware SVN is
    the new one, and the key ladder is the old chain extended by exactly
    [old min-SVN - new min-SVN] keys (none when the min-SVN does not
    decrease); it is never shortened. *)
Theorem update_reset_min_svn_ladder (ladder_step : Z -> option Z) (ladder_seed : Z)
    (verify_image : ImageManifest -> Z -> result ImageVerificationInfo)
    (extend_pcrs load_image : result unit) (txn : option UpdateTxn) (s s' : RomState) :
  0 <= fw_min_svn (data_vault s) < U32_MOD ->
  update_reset_run ladder_step ladder_seed verify_image extend_pcrs load_image txn s = (s', Ok tt) ->
  exists t m info,
    txn = Some t /\ utxn_manifest t = Ok m /\ verify_image m (utxn_dlen t) = Ok info /\
    fw_min_svn (data_vault s') = Z.min (fw_min_svn (data_vault s)) (fw_svn info) /\
    dv_fw_svn (data_vault s') = fw_svn info /\
    (0 <= fw_svn info ->
     exists new, key_ladder s' = new ++ key_ladder s /\
       Z.of_nat (length new)
         = fw_min_svn (data_vault s) - Z.min (fw_min_svn (data_vault s)) (fw_svn info)).
Proof.
  intros Hold H; unfold update_reset_run in H.
  destruct txn as [t |]; [| discriminate].
  destruct (utxn_is_firmware_load t); cbn [negb] in H; [| discriminate].
  destruct (utxn_manifest t) as [m | e] eqn:Hm; [| discriminate].
  destruct (verify_image m (utxn_dlen t)) as [info | e] eqn:Hv; [| discriminate].
  destruct (update_populate_data_vault ladder_step ladder_seed _ info) as [s1 [u | e]] eqn:Hp;
    [| discriminate].
  destruct extend_pcrs; [| discriminate].
  destruct load_image; [| discriminate].
  injection H as <-.
  unfold update_populate_data_vault in Hp.
  destruct (extend_key_ladder _ _ _ _) as [chain | e] eqn:Hx; [| discriminate].
  injection Hp as <- _.
  exists t, m, info.
  split; [reflexivity |]; split; [exact Hm |]; split; [exact Hv |]; cbn.
  split; [reflexivity |]; split; [reflexivity |].
  intro Hsvn.
  unfold extend_key_ladder in Hx; cbn in Hx.
  apply ladder_iterate_Ok in Hx as [new [-> Hlen]].
  exists new; split; [reflexivity |].
  rewrite Hlen; unfold u32_sub.
  rewrite Z.mod_small by lia.
  rewrite Z2Nat.id by lia; reflexivity.
Qed.

Lemma update_reset_min_svn_ladder_witness :
  exists t m info,
    Some (update_txn 5) = Some t /\ utxn_manifest t = Ok m /\
    verify consts (env Manufacturing false 0) m (utxn_dlen t) UpdateReset = Ok info /\
    fw_min_svn (data_vault (fst (update_reset_run ladder_step_ok 0
      (fun m n => verify consts (env Manufacturing false 0) m n UpdateReset)
      (Ok tt) (Ok tt) (Some (update_txn 5)) (rom_state 8))))
      = Z.min (fw_min_svn (data_vault (rom_state 8))) (fw_svn info) /\
    dv_fw_svn (data_vault (fst (update_reset_run ladder_step_ok 0
      (fun m n => verify consts (env Manufacturing false 0) m n UpdateReset)
      (Ok tt) (Ok tt) (Some (update_txn 5)) (rom_state 8)))) = fw_svn info /\
    (0 <= fw_svn info ->
     exists new, key_ladder (fst (update_reset_run ladder_step_ok 0
       (fun m n => verify consts (env Manufacturing false 0) m n UpdateReset)
       (Ok tt) (Ok tt) (Some (update_txn 5)) (rom_state 8))) = new ++ key_ladder (rom_state 8) /\
       Z.of_nat (length new)
         = fw_min_svn (data_vault (rom_state 8))
           - Z.min (fw_min_svn (data_vault (rom_state 8))) (fw_svn info)).
Proof.
  apply (update_reset_min_svn_ladder ladder_step_ok 0
           (fun m n => verify consts (env Manufacturing false 0) m n UpdateReset)
           (Ok tt) (Ok tt) (Some (update_txn 5)) (rom_state 8));
    [ vm_compute; split; congruence | vm_compute; reflexivity ].
Defined.

(** ** C6: cold boot, SVNs and key ladder *)

(** C6: after a successful cold-boot firmware processing, the cold-boot
    firmware SVN, the firmware SVN and the min-SVN of the data vault all
    equal the SVN verification returned, that SVN is at most
    [MAX_FIRMWARE_SVN], and the key ladder is a chain of
    [MAX_FIRMWARE_SVN - fw_svn] keys. When every step before the key ladder
    succeeds with an SVN above [MAX_FIRMWARE_SVN], the processing fails with
    [FW_PROC_SVN_TOO_LARGE]. *)
Theorem cold_boot_svn_ladder (c : Consts) (ladder_step : Z -> option Z) (ladder_seed : Z)
    (verify_image : ImageManifest -> Z -> result ImageVerificationInfo) (steps : ColdSteps)
    (loaded_manifest : result ImageManifest) (image_size_bytes manifest_address : Z)
    (s : RomState) :
  (forall s' info,
     cold_process c ladder_step ladder_seed verify_image steps loaded_manifest image_size_bytes
       manifest_address s = (s', Ok info) ->
     cold_boot_fw_svn (data_vault s') = fw_svn info /\
     dv_fw_svn (data_vault s') = fw_svn info /\
     fw_min_svn (data_vault s') = fw_svn info /\
     fw_svn info <= MAX_FIRMWARE_SVN c /\
     Z.of_nat (length (key_ladder s')) = MAX_FIRMWARE_SVN c - fw_svn info) /\
  (forall m info,
     loaded_manifest = Ok m -> verify_image m image_size_bytes = Ok info ->
     cs_update_fuse_log steps = Ok tt -> cs_extend_pcrs steps = Ok tt ->
     cs_load_image steps = Ok tt -> cs_txn_complete steps = Ok tt ->
     fw_svn info > MAX_FIRMWARE_SVN c ->
     snd (cold_process c ladder_step ladder_seed verify_image steps loaded_manifest
            image_size_bytes manifest_address s) = Err FW_PROC_SVN_TOO_LARGE).
Proof.
  split.
  - intros s' info H; unfold cold_process in H.
    destruct loaded_manifest as [m | e]; [| discriminate].
    destruct (verify_image m image_size_bytes) as [info' | e]; [| discriminate].
    destruct (cs_update_fuse_log steps); [| discriminate].
    destruct (cs_extend_pcrs steps), (cs_load_image steps), (cs_txn_complete steps);
      try discriminate.
    unfold populate_fw_key_ladder in H;
      cbn [data_vault cold_populate_data_vault set_data_vault dv_fw_svn] in H.
    destruct (fw_svn info' >? MAX_FIRMWARE_SVN c) eqn:Hmax; [cbn in H; discriminate |].
    destruct (initialize_key_ladder _ _ _) as [chain | e] eqn:Hi; [| cbn in H; discriminate].
    injection H as <- <-; cbn.
    rewrite Z.gtb_ltb, Z.ltb_ge in Hmax.
    unfold initialize_key_ladder in Hi.
    apply ladder_iterate_Ok in Hi as [new [-> Hlen]].
    rewrite app_nil_r, Hlen, Z2Nat.id by lia.
    repeat split; lia.
  - intros m info Hm Hv H1 H2 H3 H4 Hgt; unfold cold_process.
    rewrite Hm, Hv, H1, H2, H3, H4.
    unfold populate_fw_key_ladder; cbn [data_vault cold_populate_data_vault set_data_vault dv_fw_svn].
    replace (fw_svn info >? MAX_FIRMWARE_SVN c) with true
      by (symmetry; rewrite Z.gtb_ltb; apply Z.ltb_lt; lia).
    reflexivity.
Qed.

Lemma cold_boot_svn_ladder_witness :
  snd (cold_process consts ladder_step_ok 0
         (fun m n => verify consts (env Unprovisioned false 0) m n ColdReset)
         cold_steps_ok (Ok (manifest 129)) 300 0 (rom_state 0)) = Err FW_PROC_SVN_TOO_LARGE.
Proof.
  eapply (proj2 (cold_boot_svn_ladder consts ladder_step_ok 0
                   (fun m n => verify consts (env Unprovisioned false 0) m n ColdReset)
                   cold_steps_ok (Ok (manifest 129)) 300 0 (rom_state 0)));
    [ reflexivity | vm_compute; reflexivity | reflexivity | reflexivity | reflexivity
    | reflexivity | vm_compute; reflexivity ].
Defined.

(** ** C7: FMC and Runtime geometry *)

Lemma verify_toc_at_ranges c env m ti sz :
  toc_checks_before_ranges c env m ti sz = true ->
  image_range (fmc m) = Ok (offset (fmc m), offset (fmc m) + size (fmc m)) ->
  image_range (runtime m) = Ok (offset (runtime m), offset (runtime m) + size (runtime m)) ->
  verify_toc c env m ti sz =
    let? _ := fail_if ((offset (fmc m) <? offset (runtime m) + size (runtime m))
                       && (offset (fmc m) + size (fmc m) >? offset (runtime m)))
                IMAGE_VERIFIER_ERR_FMC_RUNTIME_OVERLAP in
    let? _ := fail_if (offset (fmc m) + size (fmc m) >? offset (runtime m))
                IMAGE_VERIFIER_ERR_FMC_RUNTIME_INCORRECT_ORDER in
    let fmc_load_addr_start := load_addr (fmc m) in
    let '(fmc_load_addr_end, fmc_overflow) :=
      u32_overflowing_add fmc_load_addr_start (u32_sub (image_size (fmc m)) 1) in
    let? _ := fail_if fmc_overflow
                IMAGE_VERIFIER_ERR_FMC_LOAD_ADDRESS_IMAGE_SIZE_ARITHMETIC_OVERFLOW in
    let runtime_load_addr_start := load_addr (runtime m) in
    let '(runtime_load_addr_end, runtime_overflow) :=
      u32_overflowing_add runtime_load_addr_start (u32_sub (image_size (runtime m)) 1) in
    let? _ := fail_if runtime_overflow
                IMAGE_VERIFIER_ERR_RUNTIME_LOAD_ADDRESS_IMAGE_SIZE_ARITHMETIC_OVERFLOW in
    let? _ := fail_if ((fmc_load_addr_start <=? runtime_load_addr_end)
                       && (fmc_load_addr_end >=? runtime_load_addr_start))
                IMAGE_VERIFIER_ERR_FMC_RUNTIME_LOAD_ADDR_OVERLAP in
    Ok (fmc m, runtime m).
Proof.
  unfold toc_checks_before_ranges; intros H Hf Hr.
  destruct (toc_info_len ti =? MAX_TOC_ENTRY_COUNT c) eqn:E1; [| discriminate].
  destruct (sha384_digest env (fst (toc_range c)) (range_len (toc_range c))) as [a |] eqn:E2;
    [| rewrite andb_false_r in H; discriminate].
  destruct (toc_info_digest ti =? a) eqn:E3; [| discriminate].
  destruct (size (fmc m) =? 0) eqn:E4; [discriminate |].
  destruct (size (runtime m) =? 0) eqn:E5; [discriminate |].
  cbn [andb negb] in H.
  unfold verify_toc, image_size.
  rewrite E1; cbn [negb fail_if bind]; rewrite E2; cbn [map_err bind].
  rewrite E3; cbn [negb fail_if bind]; rewrite E4, E5; cbn [fail_if bind].
  replace (manifest_size m + size (fmc m) + size (runtime m) >? sz) with false
    by (symmetry; rewrite Z.gtb_ltb; apply Z.leb_le in H; apply Z.ltb_ge; lia).
  cbn [fail_if bind]; rewrite Hf, Hr; cbn [bind fst snd]; reflexivity.
Qed.

Lemma image_range_small e :
  offset e + size e < U32_MOD -> image_range e = Ok (offset e, offset e + size e).
Proof.
  intro H; unfold image_range.
  replace (U32_MOD <=? offset e + size e) with false by (symmetry; apply Z.leb_gt; lia).
  reflexivity.
Qed.

Lemma toc_entry_u32_bounds e :
  toc_entry_u32 e = true ->
  0 <= load_addr e < U32_MOD /\ 0 <= offset e < U32_MOD /\ 0 <= size e < U32_MOD.
Proof.
  unfold toc_entry_u32; intro H.
  repeat rewrite andb_true_iff in H.
  destruct H as [[[[[H1 H2] H3] H4] H5] H6].
  apply Z.leb_le in H1, H3, H5; apply Z.ltb_lt in H2, H4, H6; lia.
Qed.

Lemma toc_checks_sizes c env m ti sz :
  toc_checks_before_ranges c env m ti sz = true -> size (fmc m) <> 0 /\ size (runtime m) <> 0.
Proof.
  unfold toc_checks_before_ranges; intro H.
  repeat rewrite andb_true_iff in H.
  destruct H as [[[[_ _] H4] H5] _].
  apply negb_true_iff, Z.eqb_neq in H4, H5; auto.
Qed.

(** The load range of an entry, [load_addr .. load_addr + size - 1], when
    it does not overflow. *)
Lemma load_range_small la sz :
  0 <= la -> 0 < sz < U32_MOD -> la + sz <= U32_MOD ->
  u32_overflowing_add la (u32_sub sz 1) = (la + sz - 1, false).
Proof.
  intros H1 H2 H3; unfold u32_overflowing_add, u32_sub.
  rewrite (Z.mod_small (sz - 1)) by lia.
  rewrite Z.mod_small by lia.
  replace (U32_MOD <=? la + (sz - 1)) with false by (symmetry; apply Z.leb_gt; lia).
  f_equal; lia.
Qed.

Ltac zbool :=
  repeat match goal with
  | |- context [?a >? ?b] => rewrite (Z.gtb_ltb a b)
  | |- context [?a >=? ?b] => rewrite (Z.geb_leb a b)
  | |- context [?a <? ?b] => destruct (Z.ltb_spec a b)
  | |- context [?a <=? ?b] => destruct (Z.leb_spec a b)
  end.

(** C7: once [verify_toc]'s earlier checks pass and the entries' bundle
    ranges [offset .. offset + size] fit in a [u32]: FMC and Runtime ranges
    that share a byte give [IMAGE_VERIFIER_ERR_FMC_RUNTIME_OVERLAP] (this
    covers ranges that touch by one byte); a Runtime range placed before
    the FMC range gives [IMAGE_VERIFIER_ERR_FMC_RUNTIME_INCORRECT_ORDER];
    and with the bundle ranges in order, load ranges
    [load_addr .. load_addr + size - 1] that do not overflow and share an
    address give [IMAGE_VERIFIER_ERR_FMC_RUNTIME_LOAD_ADDR_OVERLAP]. *)
Theorem toc_fmc_runtime_geometry (c : Consts) (env : Env) (m : ImageManifest) (ti : TocInfo)
    (sz : Z) :
  toc_checks_before_ranges c env m ti sz = true ->
  toc_entry_u32 (fmc m) = true -> toc_entry_u32 (runtime m) = true ->
  offset (fmc m) + size (fmc m) < U32_MOD ->
  offset (runtime m) + size (runtime m) < U32_MOD ->
  (offset (fmc m) < offset (runtime m) + size (runtime m) ->
   offset (runtime m) < offset (fmc m) + size (fmc m) ->
   verify_toc c env m ti sz = Err IMAGE_VERIFIER_ERR_FMC_RUNTIME_OVERLAP) /\
  (offset (runtime m) + size (runtime m) <= offset (fmc m) ->
   verify_toc c env m ti sz = Err IMAGE_VERIFIER_ERR_FMC_RUNTIME_INCORRECT_ORDER) /\
  (offset (fmc m) + size (fmc m) <= offset (runtime m) ->
   load_addr (fmc m) + size (fmc m) <= U32_MOD ->
   load_addr (runtime m) + size (runtime m) <= U32_MOD ->
   load_addr (fmc m) < load_addr (runtime m) + size (runtime m) ->
   load_addr (runtime m) < load_addr (fmc m) + size (fmc m) ->
   verify_toc c env m ti sz = Err IMAGE_VERIFIER_ERR_FMC_RUNTIME_LOAD_ADDR_OVERLAP).
Proof.
  intros Hc Hf Hr Hfe Hre.
  pose proof (toc_entry_u32_bounds _ Hf) as Bf.
  pose proof (toc_entry_u32_bounds _ Hr) as Br.
  pose proof (toc_checks_sizes _ _ _ _ _ Hc) as [Sf Sr].
  rewrite (verify_toc_at_ranges c env m ti sz Hc (image_range_small _ Hfe) (image_range_small _ Hre)).
  split; [| split].
  - intros H1 H2; zbool; cbn; try reflexivity; lia.
  - intros H1; zbool; cbn; try reflexivity; lia.
  - intros H1 H2 H3 H4 H5; unfold image_size.
    rewrite (load_range_small (load_addr (fmc m)) (size (fmc m))) by lia.
    rewrite (load_range_small (load_addr (runtime m)) (size (runtime m))) by lia.
    zbool; cbn; try reflexivity; lia.
Qed.

Lemma toc_fmc_runtime_geometry_witness :
  verify_toc consts (env Manufacturing false 0)
    (manifest_with 5 (preamble_with 1 0 1 0)) {| toc_info_len := 2; toc_info_digest := 0 |} 300
    = Ok (toc_entry 0x40000000 100 100, toc_entry 0x40001000 200 100) /\
  verify_toc consts (env Manufacturing false 0)
    {| marker := 0x324E4D43; manifest_size := 100; pqc_key_type := 3;
       preamble := preamble_with 1 0 1 0;
       header := header (manifest 5);
       fmc := toc_entry 0x40000000 100 100;
       runtime := toc_entry 0x40001000 199 100 |}
    {| toc_info_len := 2; toc_info_digest := 0 |} 300
    = Err IMAGE_VERIFIER_ERR_FMC_RUNTIME_OVERLAP.
Proof.
  split; [reflexivity |].
  apply (proj1 (toc_fmc_runtime_geometry consts (env Manufacturing false 0)
    {| marker := 0x324E4D43; manifest_size := 100; pqc_key_type := 3;
       preamble := preamble_with 1 0 1 0;
       header := header (manifest 5);
       fmc := toc_entry 0x40000000 100 100;
       runtime := toc_entry 0x40001000 199 100 |}
    {| toc_info_len := 2; toc_info_digest := 0 |} 300
    eq_refl eq_refl eq_refl ltac:(vm_compute; reflexivity) ltac:(vm_compute; reflexivity)));
    vm_compute; reflexivity.
Defined.

(** ** C8: the STASH_MEASUREMENT limit *)

Lemma list_set_split {A} (l : list A) n x :
  (n < length l)%nat -> list_set l n x = firstn n l ++ x :: skipn (S n) l.
Proof.
  revert n; induction l as [| h t IH]; intros n Hn; cbn in Hn; [lia |].
  destruct n as [| n]; cbn; [reflexivity |].
  rewrite IH by lia; reflexivity.
Qed.

Lemma length_list_set {A} (l : list A) n x : length (list_set l n x) = length l.
Proof.
  revert n; induction l as [| h t IH]; intros [| n]; cbn; auto.
Qed.

Lemma log_after_set {A} (L M : list A) e n k :
  (n < length L)%nat ->
  firstn (S n) (list_set L n e) ++ M ++ skipn (S n + k) (list_set L n e)
  = firstn n L ++ e :: M ++ skipn (n + S k) L.
Proof.
  intro Hn; rewrite list_set_split by exact Hn.
  assert (Hf : length (firstn n L) = n) by (rewrite length_firstn; lia).
  rewrite firstn_app, Hf, firstn_all2 by lia.
  replace (S n - n)%nat with 1%nat by lia; cbn [firstn].
  rewrite skipn_app, Hf, skipn_all2 by lia; cbn [app].
  replace (S n + k - n)%nat with (S k) by lia.
  change (skipn (S k) (e :: skipn (S n) L)) with (skipn k (skipn (S n) L)).
  rewrite skipn_skipn.
  replace (k + S n)%nat with (n + S k)%nat by lia.
  rewrite <- app_assoc; reflexivity.
Qed.

Section StashLimit.

Variable RESERVED_PAUSER IMAGE_BYTE_SIZE STASH_MEASUREMENT_REQ_BYTE_SIZE : Z.
Variable verify_checksum : StashMeasurementReq -> bool.
Variable extend_pcr : Z -> Z -> option Z.

Let process := process_mailbox_commands RESERVED_PAUSER IMAGE_BYTE_SIZE
                 STASH_MEASUREMENT_REQ_BYTE_SIZE verify_checksum extend_pcr.

Lemma process_app l1 l2 s :
  process (l1 ++ l2) s =
    match process l1 s with
    | (s', LoopWaiting) => process l2 s'
    | r => r
    end.
Proof.
  unfold process; revert s; induction l1 as [| t l1 IH]; intro s; [reflexivity |].
  cbn [app process_mailbox_commands].
  destruct (txn_id t =? RESERVED_PAUSER); [reflexivity |].
  destruct (txn_cmd t) as [| req | [u | e] |]; try reflexivity.
  - destruct ((txn_dlen t =? 0) || (txn_dlen t >? IMAGE_BYTE_SIZE)); reflexivity.
  - destruct (meas_log_index s =? MEASUREMENT_MAX_COUNT); [reflexivity |].
    destruct (stash_measurement _ _ _ _ _ _); [apply IH | reflexivity].
  - apply IH.
Qed.

(** One accepted STASH_MEASUREMENT request. *)
Lemma process_stash_one id req s rest n :
  id <> RESERVED_PAUSER -> verify_checksum req = true ->
  extend_pcr (pcr31 s) (sm_measurement req) <> None ->
  meas_log_index s = Z.of_nat n -> (n < 8)%nat -> length (measurement_log s) = 8%nat ->
  process (stash_txn STASH_MEASUREMENT_REQ_BYTE_SIZE id req :: rest) s =
  process rest
    {| pcr31 := extend_total extend_pcr (pcr31 s) (sm_measurement req);
       meas_log_index := meas_log_index s + 1;
       measurement_log := list_set (measurement_log s) n (measurement_entry req);
       completions := completions s ++ [Responded] |}.
Proof.
  intros Hid Hck Hext Hi Hn Hlen.
  unfold process; cbn [process_mailbox_commands stash_txn txn_id txn_cmd txn_dlen].
  replace (id =? RESERVED_PAUSER) with false by (symmetry; apply Z.eqb_neq; exact Hid).
  replace (meas_log_index s =? MEASUREMENT_MAX_COUNT) with false
    by (symmetry; apply Z.eqb_neq; unfold MEASUREMENT_MAX_COUNT; lia).
  unfold stash_measurement, copy_req_verify_chksum.
  rewrite Z.eqb_refl, Hck; cbn [negb fail_if bind].
  unfold extend_measurement, extend_total.
  destruct (extend_pcr (pcr31 s) (sm_measurement req)) as [q |]; [| congruence].
  cbn [map_err bind]; unfold log_measurement; cbn [measurement_log meas_log_index].
  rewrite Hi, Nat2Z.id.
  destruct (nth_error (measurement_log s) n) eqn:Hnth;
    [| apply nth_error_None in Hnth; lia].
  reflexivity.
Qed.

Lemma process_stash_many reqs id : forall s n,
  id <> RESERVED_PAUSER -> (forall r, In r reqs -> verify_checksum r = true) ->
  (forall p x, extend_pcr p x <> None) ->
  meas_log_index s = Z.of_nat n -> (n + length reqs <= 8)%nat ->
  length (measurement_log s) = 8%nat ->
  process (map (stash_txn STASH_MEASUREMENT_REQ_BYTE_SIZE id) reqs) s =
  ({| pcr31 := fold_left (extend_total extend_pcr) (map sm_measurement reqs) (pcr31 s);
      meas_log_index := Z.of_nat (n + length reqs);
      measurement_log := firstn n (measurement_log s) ++ map measurement_entry reqs
                         ++ skipn (n + length reqs) (measurement_log s);
      completions := completions s ++ repeat Responded (length reqs) |}, LoopWaiting).
Proof.
  induction reqs as [| r reqs IH]; intros s n Hid Hck Hext Hi Hn Hlen.
  - destruct s; cbn in *; rewrite Nat.add_0_r, firstn_skipn, app_nil_r, Hi; reflexivity.
  - cbn [map length] in *.
    rewrite (process_stash_one id r s _ n Hid (Hck r (or_introl eq_refl)) (Hext _ _) Hi)
      by lia.
    rewrite (IH _ (S n) Hid (fun x Hx => Hck x (or_intror Hx)) Hext)
      by (cbn; try rewrite length_list_set; lia).
    cbn [pcr31 meas_log_index measurement_log completions fold_left].
    rewrite log_after_set by lia.
    rewrite <- app_assoc; cbn [app repeat].
    f_equal; f_equal; lia.
Qed.

(** C8: from an empty measurement log (index [0], [MEASUREMENT_MAX_COUNT]
    slots), a STASH_MEASUREMENT request that passes its length and checksum
    checks extends PCR31 with its measurement, writes its log entry at the
    current index and increments the index; eight such requests are all
    accepted, PCR31 then being the iterated extension by the eight
    measurements in order and the log holding their entries; a ninth
    request is completed with failure and ends the loop with
    [FW_PROC_MAILBOX_STASH_MEASUREMENT_MAX_LIMIT]. *)
Theorem stash_measurement_limit (reqs : list StashMeasurementReq) (req9 : StashMeasurementReq)
    (id : Z) (s : FwProcState) :
  length reqs = 8%nat -> meas_log_index s = 0 -> length (measurement_log s) = 8%nat ->
  id <> RESERVED_PAUSER -> (forall r, In r reqs -> verify_checksum r = true) ->
  (forall p x, extend_pcr p x <> None) ->
  let s8 := {| pcr31 := fold_left (extend_total extend_pcr) (map sm_measurement reqs) (pcr31 s);
               meas_log_index := 8;
               measurement_log := map measurement_entry reqs;
               completions := completions s ++ repeat Responded 8 |} in
  (forall r, In r reqs ->
     process [stash_txn STASH_MEASUREMENT_REQ_BYTE_SIZE id r] s =
     ({| pcr31 := extend_total extend_pcr (pcr31 s) (sm_measurement r);
         meas_log_index := meas_log_index s + 1;
         measurement_log := list_set (measurement_log s) (Z.to_nat (meas_log_index s))
                              (measurement_entry r);
         completions := completions s ++ [Responded] |}, LoopWaiting)) /\
  process (map (stash_txn STASH_MEASUREMENT_REQ_BYTE_SIZE id) reqs) s = (s8, LoopWaiting) /\
  process (map (stash_txn STASH_MEASUREMENT_REQ_BYTE_SIZE id) (reqs ++ [req9])) s =
    (add_completion s8 CompletedWithFailure,
     LoopError FW_PROC_MAILBOX_STASH_MEASUREMENT_MAX_LIMIT).
Proof.
  intros H8 Hi Hlen Hid Hck Hext s8.
  assert (Hall : process (map (stash_txn STASH_MEASUREMENT_REQ_BYTE_SIZE id) reqs) s
                 = (s8, LoopWaiting)).
  { rewrite (process_stash_many reqs id s 0 Hid Hck Hext) by (cbn; lia).
    rewrite H8, firstn_O, (skipn_all2 (measurement_log s)) by (rewrite Hlen; lia).
    rewrite app_nil_r; reflexivity. }
  split; [| split; [exact Hall |]].
  - intros r Hr.
    rewrite (process_stash_one id r s [] 0 Hid (Hck r Hr) (Hext _ _)) by (cbn; lia).
    rewrite Hi; reflexivity.
  - rewrite map_app, process_app, Hall.
    unfold process; cbn [map process_mailbox_commands stash_txn txn_id txn_cmd].
    rewrite (proj2 (Z.eqb_neq _ _) Hid); reflexivity.
Qed.

End StashLimit.

(** Eight requests from an empty log are accepted and a ninth one stops the
    loop with [FW_PROC_MAILBOX_STASH_MEASUREMENT_MAX_LIMIT]. *)
Lemma stash_measurement_limit_witness :
  length stash_reqs = 8%nat /\ meas_log_index fw_proc_empty = 0 /\
  length (measurement_log fw_proc_empty) = 8%nat /\
  snd (process_mailbox_commands 0xFFFFFFFF 0x20000 52 (fun _ => true) (fun p x => Some (p + x))
         (map (stash_txn 52 1) stash_reqs) fw_proc_empty) = LoopWaiting /\
  snd (process_mailbox_commands 0xFFFFFFFF 0x20000 52 (fun _ => true) (fun p x => Some (p + x))
         (map (stash_txn 52 1) (stash_reqs ++ [stash_req 9])) fw_proc_empty)
  = LoopError FW_PROC_MAILBOX_STASH_MEASUREMENT_MAX_LIMIT.
Proof.
  pose proof (stash_measurement_limit 0xFFFFFFFF 0x20000 52 (fun _ => true)
                (fun p x => Some (p + x)) stash_reqs (stash_req 9) 1 fw_proc_empty
                eq_refl eq_refl eq_refl ltac:(lia) (fun _ _ => eq_refl)
                (fun _ _ => ltac:(discriminate))) as H.
  cbv zeta in H; destruct H as (_ & H2 & H3).
  split; [reflexivity |]; split; [reflexivity |]; split; [reflexivity |].
  rewrite H2, H3; split; reflexivity.
Defined.

(** * Further properties of the verifier *)

Section VerifyParts.

Variable c : Consts.
Variable env : Env.

Lemma verify_Ok_parts m sz reason info :
  verify c env m sz reason = Ok info ->
  exists pqc hi fi ri,
    verify_images c env m sz reason = Ok (pqc, hi, fi, ri) /\
    verify_svn c env (svn (header m)) = Ok tt /\
    info_fmc info = fi /\ info_runtime info = ri /\
    fw_svn info = svn (header m) /\
    effective_fuse_svn info = effective_fuse_svn_of env /\
    info_pqc_key_type info = pqc /\
    info_vendor_ecc_pub_key_idx info = hi_vendor_ecc_pub_key_idx hi /\
    info_vendor_pqc_pub_key_idx info = hi_vendor_pqc_pub_key_idx hi /\
    info_owner_pub_keys_digest info = hi_owner_pub_keys_digest hi /\
    info_owner_pub_keys_digest_in_fuses info = hi_owner_pub_keys_digest_in_fuses hi.
Proof.
  unfold verify; intro H.
  apply bind_Ok_inv in H as [[[[pqc hi] fi] ri] [Hi H]]; cbv beta iota in H.
  apply bind_Ok_inv in H as [[] [Hs H]]; injection H as <-.
  exists pqc, hi, fi, ri; repeat split; assumption.
Qed.

Lemma verify_header_Ok_toc h info ti :
  verify_header c env h info = Ok ti -> ti = header_toc_info h.
Proof.
  unfold verify_header; intro H; inv_ok.
  destruct a1 as [v o]; cbv beta iota in H; inv_ok.
  injection H as <-; reflexivity.
Qed.

Lemma verify_images_Ok_parts m sz reason pqc hi fi ri :
  verify_images c env m sz reason = Ok (pqc, hi, fi, ri) ->
  marker m = MANIFEST_MARKER c /\ manifest_size m = MANIFEST_BYTE_SIZE c /\
  pqc_key_type_from_u8 c (pqc_key_type m) = Some pqc /\
  pqc_key_type_fuse env = Some pqc /\
  verify_preamble c env (preamble m) reason pqc = Ok hi /\
  verify_header c env (header m) hi = Ok (header_toc_info (header m)) /\
  verify_toc c env m (header_toc_info (header m)) sz = Ok (fmc m, runtime m) /\
  verify_fmc env (fmc m) reason = Ok fi /\
  verify_runtime env (runtime m) = Ok ri.
Proof.
  unfold verify_images; intro H.
  apply bind_Ok_inv in H as [u1 [H1 H]]; apply fail_if_Ok_inv in H1.
  apply bind_Ok_inv in H as [u2 [H2 H]]; apply fail_if_Ok_inv in H2.
  apply bind_Ok_inv in H as [pqc' [H3 H]]; apply map_err_Ok_inv in H3.
  apply bind_Ok_inv in H as [pf [H4 H]]; apply map_err_Ok_inv in H4.
  apply bind_Ok_inv in H as [u5 [H5 H]]; apply fail_if_Ok_inv in H5.
  apply bind_Ok_inv in H as [hi' [Hp H]].
  apply bind_Ok_inv in H as [ti [Hh H]].
  apply bind_Ok_inv in H as [ii [Ht H]].
  apply bind_Ok_inv in H as [fi' [Hf H]].
  apply bind_Ok_inv in H as [ri' [Hr H]].
  injection H as <- <- <- <-.
  pose proof (verify_header_Ok_toc _ _ _ Hh) as Hti; subst ti.
  pose proof (verify_toc_Ok _ _ _ _ _ _ Ht) as Hii; subst ii.
  norm_bool.
  assert (pf = pqc') by (destruct pqc', pf; simpl in H5; congruence); subst pf.
  repeat split; assumption.
Qed.

Lemma verify_fmc_Ok_props e reason x :
  verify_fmc env e reason = Ok x ->
  x = exe_info_of e /\ entry_digest env e = Some (digest e) /\ exe_in_iccm env e = true.
Proof.
  unfold verify_fmc, entry_digest, exe_in_iccm; intro H.
  apply bind_Ok_inv in H as [rg [Hrg H]]; rewrite Hrg.
  apply bind_Ok_inv in H as [a [Ha H]]; apply map_err_Ok_inv in Ha.
  apply bind_Ok_inv in H as [u [Hd H]]; apply fail_if_Ok_inv in Hd.
  apply bind_Ok_inv in H as [u1 [H1 H]]; apply fail_if_Ok_inv in H1.
  apply bind_Ok_inv in H as [u2 [H2 H]]; apply fail_if_Ok_inv in H2.
  apply bind_Ok_inv in H as [u3 [H3 H]]; apply fail_if_Ok_inv in H3.
  apply bind_Ok_inv in H as [u4 [H4 H]]; apply fail_if_Ok_inv in H4.
  apply bind_Ok_inv in H as [u5 [_ H]].
  injection H as <-.
  apply orb_false_iff in H1 as [H1a H1b]; norm_bool.
  split; [reflexivity | split; [congruence |]].
  rewrite H1a, H1b, H2, H3, H4; reflexivity.
Qed.

Lemma verify_runtime_Ok_props e x :
  verify_runtime env e = Ok x ->
  x = exe_info_of e /\ entry_digest env e = Some (digest e) /\ exe_in_iccm env e = true.
Proof.
  unfold verify_runtime, entry_digest, exe_in_iccm; intro H.
  apply bind_Ok_inv in H as [rg [Hrg H]]; rewrite Hrg.
  apply bind_Ok_inv in H as [a [Ha H]]; apply map_err_Ok_inv in Ha.
  apply bind_Ok_inv in H as [u [Hd H]]; apply fail_if_Ok_inv in Hd.
  apply bind_Ok_inv in H as [u1 [H1 H]]; apply fail_if_Ok_inv in H1.
  apply bind_Ok_inv in H as [u2 [H2 H]]; apply fail_if_Ok_inv in H2.
  apply bind_Ok_inv in H as [u3 [H3 H]]; apply fail_if_Ok_inv in H3.
  apply bind_Ok_inv in H as [u4 [H4 H]]; apply fail_if_Ok_inv in H4.
  injection H as <-.
  apply orb_false_iff in H1 as [H1a H1b]; norm_bool.
  split; [reflexivity | split; [congruence |]].
  rewrite H1a, H1b, H2, H3, H4; reflexivity.
Qed.

End VerifyParts.

Section VerifyParts2.

Variable c : Consts.
Variable env : Env.

Lemma verify_vendor_ecc_pk_idx_Ok p reason r :
  verify_vendor_ecc_pk_idx c env p reason = Ok r ->
  r = (vendor_ecc_pub_key_idx p, vendor_ecc_pub_key_revocation env).
Proof.
  unfold verify_vendor_ecc_pk_idx; intro H; inv_ok; congruence.
Qed.

Lemma verify_vendor_pqc_pk_idx_Ok p reason rev k :
  verify_vendor_pqc_pk_idx env p reason rev = Ok k -> k = vendor_pqc_pub_key_idx p.
Proof.
  unfold verify_vendor_pqc_pk_idx; intro H; inv_ok; congruence.
Qed.

Lemma verify_preamble_Ok_fields p reason pqc hi :
  verify_preamble c env p reason pqc = Ok hi ->
  verify_vendor_pub_key_info_digest c env p pqc = Ok tt /\
  verify_owner_pk_digest c env reason
    = Ok (hi_owner_pub_keys_digest hi, hi_owner_pub_keys_digest_in_fuses hi) /\
  verify_vendor_ecc_pk_idx c env p reason
    = Ok (hi_vendor_ecc_pub_key_idx hi, hi_vendor_ecc_pub_key_revocation hi) /\
  verify_vendor_pqc_pk_idx env p reason (pqc_revocation env pqc)
    = Ok (hi_vendor_pqc_pub_key_idx hi) /\
  hi_vendor_pqc_pub_key_revocation hi = pqc_revocation env pqc /\
  hi_vendor_ecc_info hi = (vendor_ecc_active_pub_key p, vendor_ecc_sig p) /\
  hi_owner_ecc_info hi = (owner_ecc_pub_key p, owner_ecc_sig p) /\
  hi_vendor_pqc_info hi = pqc_info_of pqc (vendor_pqc_active_pub_key p) (vendor_pqc_sig p) /\
  hi_owner_pqc_info hi = pqc_info_of pqc (owner_pqc_pub_key p) (owner_pqc_sig p).
Proof.
  unfold verify_preamble; intro H.
  apply bind_Ok_inv in H as [[] [Hv H]].
  apply bind_Ok_inv in H as [[od b] [Ho H]]; cbv beta iota in H.
  apply bind_Ok_inv in H as [[ei r] [He H]]; cbv beta iota in H.
  apply bind_Ok_inv in H as [pidx [Hp H]].
  injection H as <-; cbn.
  destruct pqc; repeat split; assumption.
Qed.

Lemma verify_ecc_sig_Ok d pk sg is_owner :
  verify_ecc_sig env d pk sg is_owner = Ok tt ->
  ecc_x pk <> 0 /\ ecc_y pk <> 0 /\ sig_r sg <> 0 /\ sig_s sg <> 0 /\
  ecc384_verify env d pk sg = Some (sig_r sg).
Proof.
  unfold verify_ecc_sig, ZERO_DIGEST; destruct is_owner; cbv beta iota; intro H;
    apply bind_Ok_inv in H as [[] [H1 H]]; apply fail_if_Ok_inv, orb_false_iff in H1;
    apply bind_Ok_inv in H as [[] [H2 H]]; apply fail_if_Ok_inv, orb_false_iff in H2;
    apply bind_Ok_inv in H as [r [H3 H]]; apply map_err_Ok_inv in H3;
    apply fail_if_Ok_inv in H; destruct H1, H2; norm_bool;
    repeat split; congruence.
Qed.

Lemma verify_pqc_sig_Ok pqc d384 d512 pk sg is_owner :
  verify_pqc_sig c env d384 d512 (pqc_info_of pqc pk sg) is_owner = Ok tt ->
  match pqc with
  | LMS => lms_verify env d384 pk sg = Some (lms_pub_key_digest c pk)
  | MLDSA => exists d, d512 = Some d /\ mldsa87_verify env d pk sg = Some true
  end.
Proof.
  destruct pqc; cbn [pqc_info_of verify_pqc_sig].
  - unfold verify_lms_sig; destruct is_owner; cbv beta iota; intro H;
      apply bind_Ok_inv in H as [k [H1 H]]; apply map_err_Ok_inv in H1;
      apply fail_if_Ok_inv in H; norm_bool; congruence.
  - destruct d512 as [d |]; [| destruct is_owner; discriminate].
    unfold verify_mldsa_sig; destruct is_owner; cbv beta iota; intro H;
      apply bind_Ok_inv in H as [b [H1 H]]; apply map_err_Ok_inv in H1;
      apply fail_if_Ok_inv in H; norm_bool; subst b; eauto.
Qed.

(** What [verify_header] checked, for a header info whose vendor and owner
    PQC views are of the same key type (as [verify_preamble] builds them). *)
Lemma verify_header_Ok_sigs h hi ti pqc vpk vsg opk osg :
  hi_vendor_pqc_info hi = pqc_info_of pqc vpk vsg ->
  hi_owner_pqc_info hi = pqc_info_of pqc opk osg ->
  verify_header c env h hi = Ok ti ->
  exists vd od,
    sha384_digest env (fst (header_range c)) (vendor_header_len c) = Some vd /\
    sha384_digest env (fst (header_range c)) (range_len (header_range c)) = Some od /\
    ecc384_verify env vd (fst (hi_vendor_ecc_info hi)) (snd (hi_vendor_ecc_info hi))
      = Some (sig_r (snd (hi_vendor_ecc_info hi))) /\
    ecc384_verify env od (fst (hi_owner_ecc_info hi)) (snd (hi_owner_ecc_info hi))
      = Some (sig_r (snd (hi_owner_ecc_info hi))) /\
    hdr_vendor_ecc_pub_key_idx h = hi_vendor_ecc_pub_key_idx hi /\
    hdr_vendor_pqc_pub_key_idx h = hi_vendor_pqc_pub_key_idx hi /\
    match pqc with
    | LMS => lms_verify env vd vpk vsg = Some (lms_pub_key_digest c vpk) /\
             lms_verify env od opk osg = Some (lms_pub_key_digest c opk)
    | MLDSA => exists vd5 od5,
        sha512_digest env (fst (header_range c)) (vendor_header_len c) = Some vd5 /\
        sha512_digest env (fst (header_range c)) (range_len (header_range c)) = Some od5 /\
        mldsa87_verify env vd5 vpk vsg = Some true /\
        mldsa87_verify env od5 opk osg = Some true
    end.
Proof.
  intros Hv Ho H; unfold verify_header in H; rewrite Hv, Ho in H.
  apply bind_Ok_inv in H as [vd [Hvd H]]; apply map_err_Ok_inv in Hvd.
  apply bind_Ok_inv in H as [od [Hod H]]; apply map_err_Ok_inv in Hod.
  apply bind_Ok_inv in H as [[v5 o5] [H5 H]]; cbv beta iota in H.
  apply bind_Ok_inv in H as [[] [Hvs H]].
  apply bind_Ok_inv in H as [[] [Hi1 H]]; apply fail_if_Ok_inv in Hi1.
  apply bind_Ok_inv in H as [[] [Hi2 H]]; apply fail_if_Ok_inv in Hi2.
  apply bind_Ok_inv in H as [[] [Hos _]].
  unfold verify_vendor_sig, verify_owner_sig in *.
  apply bind_Ok_inv in Hvs as [[] [Hve Hvp]].
  apply bind_Ok_inv in Hos as [[] [Hoe Hop]].
  apply verify_ecc_sig_Ok in Hve, Hoe.
  apply verify_pqc_sig_Ok in Hvp, Hop.
  norm_bool; exists vd, od.
  do 2 (split; [assumption |]).
  split; [tauto |]; split; [tauto |].
  do 2 (split; [assumption |]).
  destruct pqc; cbn [pqc_info_of] in H5.
  - injection H5 as <- <-; split; assumption.
  - apply bind_Ok_inv in H5 as [v [Hv5 H5]]; apply map_err_Ok_inv in Hv5.
    apply bind_Ok_inv in H5 as [o [Ho5 H5]]; apply map_err_Ok_inv in Ho5.
    injection H5 as <- <-.
    destruct Hvp as [d1 [Hd1 Hm1]], Hop as [d2 [Hd2 Hm2]].
    injection Hd1 as <-; injection Hd2 as <-.
    exists v, o; repeat split; assumption.
Qed.

Lemma verify_owner_pk_digest_Ok reason a b :
  verify_owner_pk_digest c env reason = Ok (a, b) ->
  owner_region_digest c env = Some a /\
  b = negb (owner_pub_key_digest_fuses env =? 0) /\
  (b = true -> owner_pub_key_digest_fuses env = a) /\
  (reason = UpdateReset -> owner_pub_key_digest_dv env = a).
Proof.
  unfold verify_owner_pk_digest, owner_region_digest, ZERO_DIGEST; intro H.
  apply bind_Ok_inv in H as [x [Hx H]]; apply map_err_Ok_inv in Hx.
  apply bind_Ok_inv in H as [[] [H1 H]].
  apply bind_Ok_inv in H as [[] [H2 H]].
  injection H as <- <-.
  split; [assumption |]; split; [reflexivity |].
  split.
  - destruct (owner_pub_key_digest_fuses env =? 0); [discriminate |].
    intros _; apply fail_if_Ok_inv in H1; norm_bool; assumption.
  - intros ->; cbn in H2; apply fail_if_Ok_inv in H2; norm_bool; assumption.
Qed.

End VerifyParts2.

Ltac zhyp :=
  repeat match goal with
  | H : negb _ = false |- _ => apply negb_false_iff in H
  | H : negb _ = true |- _ => apply negb_true_iff in H
  | H : (_ || _) = false |- _ => apply orb_false_iff in H as [? ?]
  | H : (_ && _) = true |- _ => apply andb_true_iff in H as [? ?]
  | H : (_ && _) = false |- _ => apply andb_false_iff in H
  | H : (_ =? _) = true |- _ => apply Z.eqb_eq in H
  | H : (_ =? _) = false |- _ => apply Z.eqb_neq in H
  | H : (_ <? _) = true |- _ => apply Z.ltb_lt in H
  | H : (_ <? _) = false |- _ => apply Z.ltb_ge in H
  | H : (_ <=? _) = true |- _ => apply Z.leb_le in H
  | H : (_ <=? _) = false |- _ => apply Z.leb_gt in H
  | H : (?a >? ?b) = _ |- _ => rewrite (Z.gtb_ltb a b) in H
  | H : (?a >=? ?b) = _ |- _ => rewrite (Z.geb_leb a b) in H
  end.

Section TocLayout.

Variable c : Consts.
Variable env : Env.

Lemma verify_toc_Ok_layout m ti sz r :
  toc_entry_u32 (fmc m) = true -> toc_entry_u32 (runtime m) = true ->
  verify_toc c env m ti sz = Ok r ->
  toc_info_len ti = MAX_TOC_ENTRY_COUNT c /\
  sha384_digest env (fst (toc_range c)) (range_len (toc_range c)) = Some (toc_info_digest ti) /\
  0 < size (fmc m) /\ 0 < size (runtime m) /\
  manifest_size m + size (fmc m) + size (runtime m) <= sz /\
  offset (fmc m) + size (fmc m) <= offset (runtime m) /\
  offset (runtime m) + size (runtime m) < U32_MOD /\
  load_addr (fmc m) + size (fmc m) <= U32_MOD /\
  load_addr (runtime m) + size (runtime m) <= U32_MOD /\
  (load_addr (fmc m) + size (fmc m) <= load_addr (runtime m) \/
   load_addr (runtime m) + size (runtime m) <= load_addr (fmc m)).
Proof.
  intros Hf Hr H.
  pose proof (toc_entry_u32_bounds _ Hf) as Bf.
  pose proof (toc_entry_u32_bounds _ Hr) as Br.
  unfold verify_toc, image_size in H.
  apply bind_Ok_inv in H as [[] [H1 H]]; apply fail_if_Ok_inv in H1.
  apply bind_Ok_inv in H as [a [H2 H]]; apply map_err_Ok_inv in H2.
  apply bind_Ok_inv in H as [[] [H3 H]]; apply fail_if_Ok_inv in H3.
  apply bind_Ok_inv in H as [[] [H4 H]]; apply fail_if_Ok_inv in H4.
  apply bind_Ok_inv in H as [[] [H5 H]]; apply fail_if_Ok_inv in H5.
  apply bind_Ok_inv in H as [[] [H6 H]]; apply fail_if_Ok_inv in H6.
  apply bind_Ok_inv in H as [fr [H7 H]].
  apply bind_Ok_inv in H as [rr [H8 H]].
  apply bind_Ok_inv in H as [[] [H9 H]]; apply fail_if_Ok_inv in H9.
  apply bind_Ok_inv in H as [[] [H10 H]]; apply fail_if_Ok_inv in H10.
  unfold image_range in H7, H8.
  destruct (U32_MOD <=? offset (fmc m) + size (fmc m)) eqn:R1; [discriminate |].
  destruct (U32_MOD <=? offset (runtime m) + size (runtime m)) eqn:R2; [discriminate |].
  injection H7 as <-; injection H8 as <-; cbn [fst snd] in H9, H10.
  zhyp.
  assert (Sf : u32_sub (size (fmc m)) 1 = size (fmc m) - 1)
    by (unfold u32_sub; apply Z.mod_small; lia).
  assert (Sr : u32_sub (size (runtime m)) 1 = size (runtime m) - 1)
    by (unfold u32_sub; apply Z.mod_small; lia).
  cbv beta in H; rewrite Sf, Sr in H; unfold u32_overflowing_add in H.
  apply bind_Ok_inv in H as [[] [H11 H]]; apply fail_if_Ok_inv in H11.
  apply bind_Ok_inv in H as [[] [H12 H]]; apply fail_if_Ok_inv in H12.
  apply bind_Ok_inv in H as [[] [H13 H]]; apply fail_if_Ok_inv in H13.
  zhyp.
  rewrite (Z.mod_small (load_addr (fmc m) + _)) in H13 by lia.
  rewrite (Z.mod_small (load_addr (runtime m) + _)) in H13 by lia.
  zhyp.
  repeat split; try congruence; try lia.
Qed.

End TocLayout.

Lemma verify_toc_Ok_head c env m ti sz r :
  verify_toc c env m ti sz = Ok r ->
  toc_info_len ti = MAX_TOC_ENTRY_COUNT c /\
  sha384_digest env (fst (toc_range c)) (range_len (toc_range c)) = Some (toc_info_digest ti).
Proof.
  unfold verify_toc; intro H.
  apply bind_Ok_inv in H as [[] [H1 H]]; apply fail_if_Ok_inv in H1.
  apply bind_Ok_inv in H as [a [H2 H]]; apply map_err_Ok_inv in H2.
  apply bind_Ok_inv in H as [[] [H3 H]]; apply fail_if_Ok_inv in H3.
  zhyp; split; congruence.
Qed.

(** Both images of an accepted bundle are described in the result as their
    TOC entries, each image hashes to the digest of its TOC entry, and each
    is placed in ICCM: its first and last load addresses and its entry point
    lie in the ICCM range, and its load address and entry point are 4-byte
    aligned. *)
Theorem verify_images_in_iccm (c : Consts) (env : Env) (m : ImageManifest) (sz : Z)
    (reason : ResetReason) (info : ImageVerificationInfo) :
  verify c env m sz reason = Ok info ->
  info_fmc info = exe_info_of (fmc m) /\ info_runtime info = exe_info_of (runtime m) /\
  entry_digest env (fmc m) = Some (digest (fmc m)) /\
  entry_digest env (runtime m) = Some (digest (runtime m)) /\
  exe_in_iccm env (fmc m) = true /\ exe_in_iccm env (runtime m) = true.
Proof.
  intro H.
  destruct (verify_Ok_parts c env _ _ _ _ H) as (pqc & hi & fi & ri & Hi & _ & Hf & Hr & _).
  destruct (verify_images_Ok_parts c env _ _ _ _ _ _ _ Hi) as (_ & _ & _ & _ & _ & _ & _ & Hf' & Hr').
  destruct (verify_fmc_Ok_props env _ _ _ Hf') as (-> & ? & ?).
  destruct (verify_runtime_Ok_props env _ _ Hr') as (-> & ? & ?).
  repeat split; assumption.
Qed.

Lemma verify_images_in_iccm_witness :
  exists info, verify consts (env Manufacturing false 0) (manifest 5) 300 ColdReset = Ok info /\
  info_fmc info = exe_info_of (fmc (manifest 5)) /\
  info_runtime info = exe_info_of (runtime (manifest 5)) /\
  entry_digest (env Manufacturing false 0) (fmc (manifest 5)) = Some (digest (fmc (manifest 5))) /\
  entry_digest (env Manufacturing false 0) (runtime (manifest 5))
    = Some (digest (runtime (manifest 5))) /\
  exe_in_iccm (env Manufacturing false 0) (fmc (manifest 5)) = true /\
  exe_in_iccm (env Manufacturing false 0) (runtime (manifest 5)) = true.
Proof.
  eexists; split; [reflexivity |].
  apply (verify_images_in_iccm consts (env Manufacturing false 0) (manifest 5) 300 ColdReset).
  reflexivity.
Defined.

(** An accepted bundle has the manifest marker and size, a PQC key type
    byte that decodes to the key type selected in the fuses and reported in
    the result, the expected TOC entry count, a TOC that hashes to the
    header's TOC digest, and header key indices equal to the preamble's
    indices and to those reported in the result. *)
Theorem verify_manifest_header_checks (c : Consts) (env : Env) (m : ImageManifest) (sz : Z)
    (reason : ResetReason) (info : ImageVerificationInfo) :
  verify c env m sz reason = Ok info ->
  marker m = MANIFEST_MARKER c /\ manifest_size m = MANIFEST_BYTE_SIZE c /\
  pqc_key_type_from_u8 c (pqc_key_type m) = Some (info_pqc_key_type info) /\
  pqc_key_type_fuse env = Some (info_pqc_key_type info) /\
  toc_len (header m) = MAX_TOC_ENTRY_COUNT c /\
  sha384_digest env (fst (toc_range c)) (range_len (toc_range c)) = Some (toc_digest (header m)) /\
  hdr_vendor_ecc_pub_key_idx (header m) = info_vendor_ecc_pub_key_idx info /\
  hdr_vendor_pqc_pub_key_idx (header m) = info_vendor_pqc_pub_key_idx info /\
  info_vendor_ecc_pub_key_idx info = vendor_ecc_pub_key_idx (preamble m) /\
  info_vendor_pqc_pub_key_idx info = vendor_pqc_pub_key_idx (preamble m).
Proof.
  intro H.
  destruct (verify_Ok_parts c env _ _ _ _ H)
    as (pqc & hi & fi & ri & Hi & _ & _ & _ & _ & _ & Hpqc & Hei & Hpi & _).
  destruct (verify_images_Ok_parts c env _ _ _ _ _ _ _ Hi)
    as (Hm & Hs & Hu8 & Hfu & Hp & Hh & Ht & _).
  destruct (verify_toc_Ok_head _ _ _ _ _ _ Ht) as [Hl Hd]; cbn in Hl, Hd.
  destruct (verify_preamble_Ok_fields c env _ _ _ _ Hp)
    as (_ & _ & He & Hq & Hrev & Hve & Hoe & Hvq & Hoq).
  apply verify_vendor_ecc_pk_idx_Ok in He; injection He as He _.
  apply verify_vendor_pqc_pk_idx_Ok in Hq.
  destruct (verify_header_Ok_sigs c env _ _ _ _ _ _ _ _ Hvq Hoq Hh)
    as (vd & od & _ & _ & _ & _ & Hhe & Hhq & _).
  subst pqc; repeat split; congruence.
Qed.

Lemma verify_manifest_header_checks_witness :
  exists info, verify consts (env Manufacturing false 0) (manifest 5) 300 ColdReset = Ok info /\
  marker (manifest 5) = MANIFEST_MARKER consts /\
  manifest_size (manifest 5) = MANIFEST_BYTE_SIZE consts /\
  pqc_key_type_from_u8 consts (pqc_key_type (manifest 5)) = Some (info_pqc_key_type info) /\
  pqc_key_type_fuse (env Manufacturing false 0) = Some (info_pqc_key_type info) /\
  toc_len (header (manifest 5)) = MAX_TOC_ENTRY_COUNT consts /\
  sha384_digest (env Manufacturing false 0) (fst (toc_range consts)) (range_len (toc_range consts))
    = Some (toc_digest (header (manifest 5))) /\
  hdr_vendor_ecc_pub_key_idx (header (manifest 5)) = info_vendor_ecc_pub_key_idx info /\
  hdr_vendor_pqc_pub_key_idx (header (manifest 5)) = info_vendor_pqc_pub_key_idx info /\
  info_vendor_ecc_pub_key_idx info = vendor_ecc_pub_key_idx (preamble (manifest 5)) /\
  info_vendor_pqc_pub_key_idx info = vendor_pqc_pub_key_idx (preamble (manifest 5)).
Proof.
  eexists; split; [reflexivity |].
  apply (verify_manifest_header_checks consts (env Manufacturing false 0) (manifest 5) 300 ColdReset).
  reflexivity.
Defined.

(** In an accepted bundle both images have a nonzero size, the manifest and
    the two images fit in the bundle, the FMC image ends in the bundle at or
    before the start of the Runtime image, and the two load ranges fit in
    the 32-bit address space and are disjoint. *)
Theorem verify_toc_layout (c : Consts) (env : Env) (m : ImageManifest) (sz : Z)
    (reason : ResetReason) (info : ImageVerificationInfo) :
  toc_entry_u32 (fmc m) = true -> toc_entry_u32 (runtime m) = true ->
  verify c env m sz reason = Ok info ->
  0 < size (fmc m) /\ 0 < size (runtime m) /\
  manifest_size m + size (fmc m) + size (runtime m) <= sz /\
  offset (fmc m) + size (fmc m) <= offset (runtime m) /\
  offset (runtime m) + size (runtime m) < U32_MOD /\
  load_addr (fmc m) + size (fmc m) <= U32_MOD /\
  load_addr (runtime m) + size (runtime m) <= U32_MOD /\
  (load_addr (fmc m) + size (fmc m) <= load_addr (runtime m) \/
   load_addr (runtime m) + size (runtime m) <= load_addr (fmc m)).
Proof.
  intros Hf Hr H.
  destruct (verify_Ok_parts c env _ _ _ _ H) as (pqc & hi & fi & ri & Hi & _).
  destruct (verify_images_Ok_parts c env _ _ _ _ _ _ _ Hi) as (_ & _ & _ & _ & _ & _ & Ht & _).
  destruct (verify_toc_Ok_layout c env _ _ _ _ Hf Hr Ht) as (_ & _ & L).
  exact L.
Qed.

Lemma verify_toc_layout_witness :
  exists info, verify consts (env Manufacturing false 0) (manifest 5) 300 ColdReset = Ok info /\
  0 < size (fmc (manifest 5)) /\ 0 < size (runtime (manifest 5)) /\
  manifest_size (manifest 5) + size (fmc (manifest 5)) + size (runtime (manifest 5)) <= 300 /\
  offset (fmc (manifest 5)) + size (fmc (manifest 5)) <= offset (runtime (manifest 5)) /\
  offset (runtime (manifest 5)) + size (runtime (manifest 5)) < U32_MOD /\
  load_addr (fmc (manifest 5)) + size (fmc (manifest 5)) <= U32_MOD /\
  load_addr (runtime (manifest 5)) + size (runtime (manifest 5)) <= U32_MOD /\
  (load_addr (fmc (manifest 5)) + size (fmc (manifest 5)) <= load_addr (runtime (manifest 5)) \/
   load_addr (runtime (manifest 5)) + size (runtime (manifest 5)) <= load_addr (fmc (manifest 5))).
Proof.
  eexists; split; [reflexivity |].
  eapply (verify_toc_layout consts (env Manufacturing false 0) (manifest 5) 300 ColdReset);
    reflexivity.
Defined.

(** The owner key digest an accepted bundle reports is the SHA-384 digest
    of its owner public keys; it is marked as held in the fuses exactly when
    the owner digest fuses are nonzero, and then the fuses hold that
    digest; on an update reset it also equals the digest kept in the data
    vault. *)
Theorem verify_owner_binding (c : Consts) (env : Env) (m : ImageManifest) (sz : Z)
    (reason : ResetReason) (info : ImageVerificationInfo) :
  verify c env m sz reason = Ok info ->
  owner_region_digest c env = Some (info_owner_pub_keys_digest info) /\
  info_owner_pub_keys_digest_in_fuses info = negb (owner_pub_key_digest_fuses env =? 0) /\
  (info_owner_pub_keys_digest_in_fuses info = true ->
   owner_pub_key_digest_fuses env = info_owner_pub_keys_digest info) /\
  (reason = UpdateReset -> owner_pub_key_digest_dv env = info_owner_pub_keys_digest info).
Proof.
  intro H.
  destruct (verify_Ok_parts c env _ _ _ _ H)
    as (pqc & hi & fi & ri & Hi & _ & _ & _ & _ & _ & _ & _ & _ & Hd & Hb).
  destruct (verify_images_Ok_parts c env _ _ _ _ _ _ _ Hi) as (_ & _ & _ & _ & Hp & _).
  destruct (verify_preamble_Ok_fields c env _ _ _ _ Hp) as (_ & Ho & _).
  rewrite Hd, Hb; exact (verify_owner_pk_digest_Ok c env _ _ _ Ho).
Qed.

Lemma verify_owner_binding_witness :
  exists info, verify consts (env Manufacturing false 0) (manifest 5) 300 ColdReset = Ok info /\
  owner_region_digest consts (env Manufacturing false 0) = Some (info_owner_pub_keys_digest info) /\
  info_owner_pub_keys_digest_in_fuses info
    = negb (owner_pub_key_digest_fuses (env Manufacturing false 0) =? 0) /\
  (info_owner_pub_keys_digest_in_fuses info = true ->
   owner_pub_key_digest_fuses (env Manufacturing false 0) = info_owner_pub_keys_digest info) /\
  (ColdReset = UpdateReset ->
   owner_pub_key_digest_dv (env Manufacturing false 0) = info_owner_pub_keys_digest info).
Proof.
  eexists; split; [reflexivity |].
  apply (verify_owner_binding consts (env Manufacturing false 0) (manifest 5) 300 ColdReset).
  reflexivity.
Defined.

(** An accepted bundle carries valid signatures: the vendor ECC signature
    verifies with the active vendor ECC key over the digest of the vendor
    part of the header, the owner ECC signature verifies with the owner ECC
    key over the digest of the whole header, and the vendor and owner PQC
    signatures verify the same way with the PQC scheme of the reported key
    type (LMS over the SHA-384 digests, MLDSA over the SHA-512 digests). *)
Theorem verify_signatures (c : Consts) (env : Env) (m : ImageManifest) (sz : Z)
    (reason : ResetReason) (info : ImageVerificationInfo) :
  verify c env m sz reason = Ok info ->
  exists vd od,
    sha384_digest env (fst (header_range c)) (vendor_header_len c) = Some vd /\
    sha384_digest env (fst (header_range c)) (range_len (header_range c)) = Some od /\
    ecc384_verify env vd (vendor_ecc_active_pub_key (preamble m)) (vendor_ecc_sig (preamble m))
      = Some (sig_r (vendor_ecc_sig (preamble m))) /\
    ecc384_verify env od (owner_ecc_pub_key (preamble m)) (owner_ecc_sig (preamble m))
      = Some (sig_r (owner_ecc_sig (preamble m))) /\
    match info_pqc_key_type info with
    | LMS =>
        lms_verify env vd (vendor_pqc_active_pub_key (preamble m)) (vendor_pqc_sig (preamble m))
          = Some (lms_pub_key_digest c (vendor_pqc_active_pub_key (preamble m))) /\
        lms_verify env od (owner_pqc_pub_key (preamble m)) (owner_pqc_sig (preamble m))
          = Some (lms_pub_key_digest c (owner_pqc_pub_key (preamble m)))
    | MLDSA => exists vd5 od5,
        sha512_digest env (fst (header_range c)) (vendor_header_len c) = Some vd5 /\
        sha512_digest env (fst (header_range c)) (range_len (header_range c)) = Some od5 /\
        mldsa87_verify env vd5 (vendor_pqc_active_pub_key (preamble m))
          (vendor_pqc_sig (preamble m)) = Some true /\
        mldsa87_verify env od5 (owner_pqc_pub_key (preamble m)) (owner_pqc_sig (preamble m))
          = Some true
    end.
Proof.
  intro H.
  destruct (verify_Ok_parts c env _ _ _ _ H)
    as (pqc & hi & fi & ri & Hi & _ & _ & _ & _ & _ & Hpqc & _).
  destruct (verify_images_Ok_parts c env _ _ _ _ _ _ _ Hi) as (_ & _ & _ & _ & Hp & Hh & _).
  destruct (verify_preamble_Ok_fields c env _ _ _ _ Hp)
    as (_ & _ & _ & _ & _ & Hve & Hoe & Hvq & Hoq).
  destruct (verify_header_Ok_sigs c env _ _ _ _ _ _ _ _ Hvq Hoq Hh)
    as (vd & od & H1 & H2 & H3 & H4 & _ & _ & H5).
  rewrite Hve in H3; rewrite Hoe in H4; cbn [fst snd] in H3, H4.
  rewrite Hpqc; exists vd, od; repeat split; assumption.
Qed.

Lemma verify_signatures_witness :
  exists info, verify consts (env Manufacturing false 0) (manifest 5) 300 ColdReset = Ok info /\
  exists vd od,
    sha384_digest (env Manufacturing false 0) (fst (header_range consts))
      (vendor_header_len consts) = Some vd /\
    sha384_digest (env Manufacturing false 0) (fst (header_range consts))
      (range_len (header_range consts)) = Some od /\
    ecc384_verify (env Manufacturing false 0) vd
      (vendor_ecc_active_pub_key (preamble (manifest 5))) (vendor_ecc_sig (preamble (manifest 5)))
      = Some (sig_r (vendor_ecc_sig (preamble (manifest 5)))) /\
    ecc384_verify (env Manufacturing false 0) od
      (owner_ecc_pub_key (preamble (manifest 5))) (owner_ecc_sig (preamble (manifest 5)))
      = Some (sig_r (owner_ecc_sig (preamble (manifest 5)))) /\
    match info_pqc_key_type info with
    | LMS =>
        lms_verify (env Manufacturing false 0) vd (vendor_pqc_active_pub_key (preamble (manifest 5)))
          (vendor_pqc_sig (preamble (manifest 5)))
          = Some (lms_pub_key_digest consts (vendor_pqc_active_pub_key (preamble (manifest 5)))) /\
        lms_verify (env Manufacturing false 0) od (owner_pqc_pub_key (preamble (manifest 5)))
          (owner_pqc_sig (preamble (manifest 5)))
          = Some (lms_pub_key_digest consts (owner_pqc_pub_key (preamble (manifest 5))))
    | MLDSA => exists vd5 od5,
        sha512_digest (env Manufacturing false 0) (fst (header_range consts))
          (vendor_header_len consts) = Some vd5 /\
        sha512_digest (env Manufacturing false 0) (fst (header_range consts))
          (range_len (header_range consts)) = Some od5 /\
        mldsa87_verify (env Manufacturing false 0) vd5
          (vendor_pqc_active_pub_key (preamble (manifest 5)))
          (vendor_pqc_sig (preamble (manifest 5))) = Some true /\
        mldsa87_verify (env Manufacturing false 0) od5 (owner_pqc_pub_key (preamble (manifest 5)))
          (owner_pqc_sig (preamble (manifest 5))) = Some true
    end.
Proof.
  eexists; split; [reflexivity |].
  apply (verify_signatures consts (env Manufacturing false 0) (manifest 5) 300 ColdReset).
  reflexivity.
Defined.

Section VendorKeys.

Variable c : Consts.
Variable env : Env.

Lemma verify_vendor_pub_key_info_digest_Ok p pqc :
  dev_lifecycle env <> Unprovisioned ->
  verify_vendor_pub_key_info_digest c env p pqc = Ok tt ->
  vendor_pub_key_info_digest_fuses env <> 0 /\
  sha384_digest env (fst (vendor_pub_key_descriptors_range c))
    (range_len (vendor_pub_key_descriptors_range c)) = Some (vendor_pub_key_info_digest_fuses env) /\
  version (ecc_key_descriptor p) = KEY_DESCRIPTOR_VERSION c /\
  key_hash_count (ecc_key_descriptor p) <> 0 /\
  key_hash_count (ecc_key_descriptor p) <= VENDOR_ECC_MAX_KEY_COUNT c mod 256 /\
  version (pqc_key_descriptor p) = KEY_DESCRIPTOR_VERSION c /\
  key_type (pqc_key_descriptor p) = pqc_key_type_as_u8 c pqc /\
  key_hash_count (pqc_key_descriptor p) <> 0 /\
  (exists h, nth_error (key_hash (ecc_key_descriptor p)) (Z.to_nat (vendor_ecc_pub_key_idx p))
               = Some h /\
             sha384_digest env (fst (vendor_ecc_active_pub_key_range c))
               (range_len (vendor_ecc_active_pub_key_range c)) = Some h) /\
  match pqc with
  | LMS =>
      key_hash_count (pqc_key_descriptor p) <= VENDOR_LMS_MAX_KEY_COUNT c mod 256 /\
      vendor_pqc_pub_key_idx p < VENDOR_LMS_MAX_KEY_COUNT c /\
      (exists h, nth_error (key_hash (pqc_key_descriptor p)) (Z.to_nat (vendor_pqc_pub_key_idx p))
                   = Some h /\
                 sha384_digest env (vendor_pqc_active_pub_key_start c) (LMS_PUB_KEY_BYTE_SIZE c)
                   = Some h)
  | MLDSA =>
      key_hash_count (pqc_key_descriptor p) <= VENDOR_MLDSA_MAX_KEY_COUNT c mod 256 /\
      vendor_pqc_pub_key_idx p < VENDOR_MLDSA_MAX_KEY_COUNT c /\
      (exists h, nth_error (key_hash (pqc_key_descriptor p)) (Z.to_nat (vendor_pqc_pub_key_idx p))
                   = Some h /\
                 sha384_digest env (vendor_pqc_active_pub_key_start c) (MLDSA87_PUB_KEY_BYTE_SIZE c)
                   = Some h)
  end.
Proof.
  intros Hl H.
  assert (E : lifecycle_eqb (dev_lifecycle env) Unprovisioned = false)
    by (destruct (dev_lifecycle env); [congruence | reflexivity | reflexivity]).
  unfold verify_vendor_pub_key_info_digest, verify_active_ecc_pub_key_digest,
    verify_active_pqc_pub_key_digest, ZERO_DIGEST in H; rewrite E in H.
  inv_ok.
  destruct (nth_error (key_hash (pqc_key_descriptor p)) (Z.to_nat (vendor_pqc_pub_key_idx p)))
    as [h |] eqn:En in H; [| discriminate].
  inv_ok.
  destruct pqc; cbn [pqc_key_type_eqb andb orb] in *; zhyp; subst;
    repeat split; eauto; lia.
Qed.

End VendorKeys.

(** When the lifecycle is not Unprovisioned, an accepted bundle has vendor
    key descriptors that hash to the nonzero digest held in the fuses, with
    the expected version, the reported PQC key type, and a nonzero key count
    within the maximum for each key type; the active vendor ECC key and the
    active vendor PQC key hash to the descriptor entries at their indices,
    and the PQC index is below the maximum key count of its type. *)
Theorem verify_vendor_keys_provisioned (c : Consts) (env : Env) (m : ImageManifest) (sz : Z)
    (reason : ResetReason) (info : ImageVerificationInfo) :
  dev_lifecycle env <> Unprovisioned ->
  verify c env m sz reason = Ok info ->
  vendor_pub_key_info_digest_fuses env <> 0 /\
  sha384_digest env (fst (vendor_pub_key_descriptors_range c))
    (range_len (vendor_pub_key_descriptors_range c)) = Some (vendor_pub_key_info_digest_fuses env) /\
  version (ecc_key_descriptor (preamble m)) = KEY_DESCRIPTOR_VERSION c /\
  key_hash_count (ecc_key_descriptor (preamble m)) <> 0 /\
  key_hash_count (ecc_key_descriptor (preamble m)) <= VENDOR_ECC_MAX_KEY_COUNT c mod 256 /\
  version (pqc_key_descriptor (preamble m)) = KEY_DESCRIPTOR_VERSION c /\
  key_type (pqc_key_descriptor (preamble m)) = pqc_key_type_as_u8 c (info_pqc_key_type info) /\
  key_hash_count (pqc_key_descriptor (preamble m)) <> 0 /\
  (exists h, nth_error (key_hash (ecc_key_descriptor (preamble m)))
               (Z.to_nat (vendor_ecc_pub_key_idx (preamble m))) = Some h /\
             sha384_digest env (fst (vendor_ecc_active_pub_key_range c))
               (range_len (vendor_ecc_active_pub_key_range c)) = Some h) /\
  match info_pqc_key_type info with
  | LMS =>
      key_hash_count (pqc_key_descriptor (preamble m)) <= VENDOR_LMS_MAX_KEY_COUNT c mod 256 /\
      vendor_pqc_pub_key_idx (preamble m) < VENDOR_LMS_MAX_KEY_COUNT c /\
      (exists h, nth_error (key_hash (pqc_key_descriptor (preamble m)))
                   (Z.to_nat (vendor_pqc_pub_key_idx (preamble m))) = Some h /\
                 sha384_digest env (vendor_pqc_active_pub_key_start c) (LMS_PUB_KEY_BYTE_SIZE c)
                   = Some h)
  | MLDSA =>
      key_hash_count (pqc_key_descriptor (preamble m)) <= VENDOR_MLDSA_MAX_KEY_COUNT c mod 256 /\
      vendor_pqc_pub_key_idx (preamble m) < VENDOR_MLDSA_MAX_KEY_COUNT c /\
      (exists h, nth_error (key_hash (pqc_key_descriptor (preamble m)))
                   (Z.to_nat (vendor_pqc_pub_key_idx (preamble m))) = Some h /\
                 sha384_digest env (vendor_pqc_active_pub_key_start c)
                   (MLDSA87_PUB_KEY_BYTE_SIZE c) = Some h)
  end.
Proof.
  intros Hl H.
  destruct (verify_Ok_parts c env _ _ _ _ H)
    as (pqc & hi & fi & ri & Hi & _ & _ & _ & _ & _ & Hpqc & _).
  destruct (verify_images_Ok_parts c env _ _ _ _ _ _ _ Hi) as (_ & _ & _ & _ & Hp & _).
  destruct (verify_preamble_Ok_fields c env _ _ _ _ Hp) as (Hd & _).
  rewrite Hpqc; exact (verify_vendor_pub_key_info_digest_Ok c env _ _ Hl Hd).
Qed.


Lemma verify_vendor_keys_provisioned_witness :
  dev_lifecycle (env Manufacturing false 0) <> Unprovisioned /\
  exists info,
  verify consts (env Manufacturing false 0) (manifest 5) 300 ColdReset = Ok info /\
  vendor_pub_key_info_digest_fuses (env Manufacturing false 0) <> 0 /\
  sha384_digest (env Manufacturing false 0) (fst (vendor_pub_key_descriptors_range consts))
    (range_len (vendor_pub_key_descriptors_range consts)) = Some (vendor_pub_key_info_digest_fuses (env Manufacturing false 0)) /\
  version (ecc_key_descriptor (preamble (manifest 5))) = KEY_DESCRIPTOR_VERSION consts /\
  key_hash_count (ecc_key_descriptor (preamble (manifest 5))) <> 0 /\
  key_hash_count (ecc_key_descriptor (preamble (manifest 5))) <= VENDOR_ECC_MAX_KEY_COUNT consts mod 256 /\
  version (pqc_key_descriptor (preamble (manifest 5))) = KEY_DESCRIPTOR_VERSION consts /\
  key_type (pqc_key_descriptor (preamble (manifest 5))) = pqc_key_type_as_u8 consts (info_pqc_key_type info) /\
  key_hash_count (pqc_key_descriptor (preamble (manifest 5))) <> 0 /\
  (exists h, nth_error (key_hash (ecc_key_descriptor (preamble (manifest 5))))
               (Z.to_nat (vendor_ecc_pub_key_idx (preamble (manifest 5)))) = Some h /\
             sha384_digest (env Manufacturing false 0) (fst (vendor_ecc_active_pub_key_range consts))
               (range_len (vendor_ecc_active_pub_key_range consts)) = Some h) /\
  match info_pqc_key_type info with
  | LMS =>
      key_hash_count (pqc_key_descriptor (preamble (manifest 5))) <= VENDOR_LMS_MAX_KEY_COUNT consts mod 256 /\
      vendor_pqc_pub_key_idx (preamble (manifest 5)) < VENDOR_LMS_MAX_KEY_COUNT consts /\
      (exists h, nth_error (key_hash (pqc_key_descriptor (preamble (manifest 5))))
                   (Z.to_nat (vendor_pqc_pub_key_idx (preamble (manifest 5)))) = Some h /\
                 sha384_digest (env Manufacturing false 0) (vendor_pqc_active_pub_key_start consts) (LMS_PUB_KEY_BYTE_SIZE consts)
                   = Some h)
  | MLDSA =>
      key_hash_count (pqc_key_descriptor (preamble (manifest 5))) <= VENDOR_MLDSA_MAX_KEY_COUNT consts mod 256 /\
      vendor_pqc_pub_key_idx (preamble (manifest 5)) < VENDOR_MLDSA_MAX_KEY_COUNT consts /\
      (exists h, nth_error (key_hash (pqc_key_descriptor (preamble (manifest 5))))
                   (Z.to_nat (vendor_pqc_pub_key_idx (preamble (manifest 5)))) = Some h /\
                 sha384_digest (env Manufacturing false 0) (vendor_pqc_active_pub_key_start consts)
                   (MLDSA87_PUB_KEY_BYTE_SIZE consts) = Some h)
  end.

Proof.
  split; [discriminate |].
  eexists; split; [reflexivity |].
  apply (verify_vendor_keys_provisioned consts (env Manufacturing false 0) (manifest 5) 300
           ColdReset); [discriminate | reflexivity].
Defined.

Section ReasonsCold.

Variable c : Consts.
Variable env : Env.

Lemma verify_owner_pk_digest_cold r :
  verify_owner_pk_digest c env UpdateReset = Ok r ->
  verify_owner_pk_digest c env ColdReset = Ok r.
Proof.
  unfold verify_owner_pk_digest, map_err, fail_if, bind; simpl.
  intro H; smash.
Qed.

Lemma verify_vendor_ecc_pk_idx_cold p r :
  verify_vendor_ecc_pk_idx c env p UpdateReset = Ok r ->
  verify_vendor_ecc_pk_idx c env p ColdReset = Ok r.
Proof.
  unfold verify_vendor_ecc_pk_idx, fail_if, bind; simpl.
  intro H; smash.
Qed.

Lemma verify_vendor_pqc_pk_idx_cold p rev r :
  verify_vendor_pqc_pk_idx env p UpdateReset rev = Ok r ->
  verify_vendor_pqc_pk_idx env p ColdReset rev = Ok r.
Proof.
  unfold verify_vendor_pqc_pk_idx, fail_if, bind; simpl.
  intro H; smash.
Qed.

Lemma verify_fmc_cold e x :
  verify_fmc env e UpdateReset = Ok x -> verify_fmc env e ColdReset = Ok x.
Proof.
  unfold verify_fmc, map_err, fail_if, bind; simpl.
  destruct (image_range e) as [r |]; simpl; [| discriminate].
  intro H; smash.
Qed.

Lemma verify_preamble_cold p pqc hi :
  verify_preamble c env p UpdateReset pqc = Ok hi ->
  verify_preamble c env p ColdReset pqc = Ok hi.
Proof.
  unfold verify_preamble; intro H.
  apply bind_Ok_inv in H as [u [Hv H]]; rewrite Hv; cbn [bind].
  apply bind_Ok_inv in H as [[od b] [Ho H]].
  rewrite (verify_owner_pk_digest_cold _ Ho); cbn [bind]; cbv beta iota in H |- *.
  apply bind_Ok_inv in H as [[ei r] [He H]].
  rewrite (verify_vendor_ecc_pk_idx_cold _ _ He); cbn [bind]; cbv beta iota in H |- *.
  apply bind_Ok_inv in H as [pidx [Hp H]].
  rewrite (verify_vendor_pqc_pk_idx_cold _ _ _ Hp); cbn [bind]; exact H.
Qed.

Lemma verify_images_cold m sz r :
  verify_images c env m sz UpdateReset = Ok r -> verify_images c env m sz ColdReset = Ok r.
Proof.
  unfold verify_images; intro H.
  do 5 (apply bind_Ok_inv in H as [? [Hs H]]; rewrite Hs; cbn [bind]; clear Hs).
  apply bind_Ok_inv in H as [hi [Hp H]]; rewrite (verify_preamble_cold _ _ _ Hp); cbn [bind].
  apply bind_Ok_inv in H as [ti [Hh H]]; rewrite Hh; cbn [bind].
  apply bind_Ok_inv in H as [ii [Ht H]]; rewrite Ht; cbn [bind].
  apply bind_Ok_inv in H as [fi [Hf H]]; rewrite (verify_fmc_cold _ _ Hf); cbn [bind].
  exact H.
Qed.

Lemma verify_cold m sz info :
  verify c env m sz UpdateReset = Ok info -> verify c env m sz ColdReset = Ok info.
Proof.
  unfold verify; intro H.
  apply bind_Ok_inv in H as [r [Hi H]]; rewrite (verify_images_cold _ _ _ Hi); exact H.
Qed.

End ReasonsCold.

(** An update-reset verification accepts a bundle with a given result
    exactly when the cold-reset verification accepts it with the same
    result and the data vault holds that result's owner key digest, vendor
    ECC and PQC key indices and FMC digest: the reset reason adds these
    four comparisons and changes nothing else. *)
Theorem verify_update_reset_iff (c : Consts) (env : Env) (m : ImageManifest) (sz : Z)
    (info : ImageVerificationInfo) :
  verify c env m sz UpdateReset = Ok info <->
  verify c env m sz ColdReset = Ok info /\
  owner_pub_key_digest_dv env = info_owner_pub_keys_digest info /\
  vendor_ecc_pub_key_idx_dv env = info_vendor_ecc_pub_key_idx info /\
  vendor_pqc_pub_key_idx_dv env = info_vendor_pqc_pub_key_idx info /\
  get_fmc_digest_dv env = exe_digest (info_fmc info).
Proof.
  assert (Parts : verify c env m sz ColdReset = Ok info ->
    exists pqc hi fi ri,
      verify_images c env m sz ColdReset = Ok (pqc, hi, fi, ri) /\
      info_fmc info = fi /\
      info_owner_pub_keys_digest info = hi_owner_pub_keys_digest hi /\
      info_vendor_ecc_pub_key_idx info = vendor_ecc_pub_key_idx (preamble m) /\
      info_vendor_pqc_pub_key_idx info = vendor_pqc_pub_key_idx (preamble m)).
  { intro Hc.
    destruct (verify_Ok_parts c env _ _ _ _ Hc)
      as (pqc & hi & fi & ri & Hi & _ & Hf & _ & _ & _ & _ & He & Hp & Ho & _).
    destruct (verify_images_Ok_parts c env _ _ _ _ _ _ _ Hi) as (_ & _ & _ & _ & Hpr & _).
    destruct (verify_preamble_Ok_fields c env _ _ _ _ Hpr) as (_ & _ & Hei & Hpi & _).
    apply verify_vendor_ecc_pk_idx_Ok in Hei; injection Hei as Hei _.
    apply verify_vendor_pqc_pk_idx_Ok in Hpi.
    exists pqc, hi, fi, ri; repeat split; congruence. }
  split.
  - intro H.
    pose proof (verify_cold c env _ _ _ H) as Hc.
    destruct (Parts Hc) as (pqc & hi & fi & ri & Hi & Hf & Ho & He & Hp).
    split; [exact Hc |].
    unfold verify in H; rewrite (verify_images_update c env _ _ _ _ _ _ Hi) in H.
    destruct (Z.eqb_spec (owner_pub_key_digest_dv env) (hi_owner_pub_keys_digest hi));
      [| discriminate].
    destruct (Z.eqb_spec (vendor_ecc_pub_key_idx_dv env) (vendor_ecc_pub_key_idx (preamble m)));
      [| discriminate].
    destruct (Z.eqb_spec (vendor_pqc_pub_key_idx_dv env) (vendor_pqc_pub_key_idx (preamble m)));
      [| discriminate].
    destruct (Z.eqb_spec (exe_digest fi) (get_fmc_digest_dv env)); [| discriminate].
    repeat split; congruence.
  - intros (Hc & E1 & E2 & E3 & E4).
    destruct (Parts Hc) as (pqc & hi & fi & ri & Hi & Hf & Ho & He & Hp).
    unfold verify in Hc |- *; rewrite (verify_images_update c env _ _ _ _ _ _ Hi).
    rewrite Hi in Hc.
    rewrite (proj2 (Z.eqb_eq (owner_pub_key_digest_dv env) (hi_owner_pub_keys_digest hi)))
      by congruence.
    rewrite (proj2 (Z.eqb_eq (vendor_ecc_pub_key_idx_dv env) (vendor_ecc_pub_key_idx (preamble m))))
      by congruence.
    rewrite (proj2 (Z.eqb_eq (vendor_pqc_pub_key_idx_dv env) (vendor_pqc_pub_key_idx (preamble m))))
      by congruence.
    rewrite (proj2 (Z.eqb_eq (exe_digest fi) (get_fmc_digest_dv env))) by congruence.
    exact Hc.
Qed.

Lemma verify_update_reset_iff_witness :
  exists info,
    verify consts (with_dv_digests (env Manufacturing false 0) 0 0) (manifest 5) 300 UpdateReset
      = Ok info /\
    verify consts (with_dv_digests (env Manufacturing false 0) 0 0) (manifest 5) 300 ColdReset
      = Ok info.
Proof.
  eexists; split; [reflexivity |].
  apply (proj1 (verify_update_reset_iff consts (with_dv_digests (env Manufacturing false 0) 0 0)
                  (manifest 5) 300 _)).
  reflexivity.
Defined.

(** An ECC key index that is not the last one and whose bit lies outside
    the revocation flags [VendorEccPubKeyRevocation] defines is rejected as
    revoked whatever the revocation fuses hold: [from_bits_truncate] turns
    its bit into the empty flag set, which every set contains. *)
Theorem ecc_idx_outside_flags_revoked (c : Consts) (env : Env) (p : ImagePreamble)
    (reason : ResetReason) :
  0 <= vendor_ecc_pub_key_idx p < 32 ->
  vendor_ecc_pub_key_idx p < u32_sub (key_hash_count (ecc_key_descriptor p)) 1 ->
  Z.testbit (VENDOR_ECC_REVOCATION_BITS c) (vendor_ecc_pub_key_idx p) = false ->
  verify_vendor_ecc_pk_idx c env p reason = Err IMAGE_VERIFIER_ERR_VENDOR_ECC_PUB_KEY_REVOKED.
Proof.
  intros Hi Hlt Hb.
  unfold verify_vendor_ecc_pk_idx.
  replace (vendor_ecc_pub_key_idx p >? u32_sub (key_hash_count (ecc_key_descriptor p)) 1)
    with false by (symmetry; rewrite Z.gtb_ltb; apply Z.ltb_ge; lia).
  replace (vendor_ecc_pub_key_idx p =? u32_sub (key_hash_count (ecc_key_descriptor p)) 1)
    with false by (symmetry; apply Z.eqb_neq; lia).
  cbn [fail_if bind].
  unfold revocation_from_bits_truncate, revocation_contains.
  rewrite u32_shl1_small by lia.
  replace (Z.land (2 ^ vendor_ecc_pub_key_idx p) (VENDOR_ECC_REVOCATION_BITS c)) with 0.
  - rewrite Z.land_0_r; reflexivity.
  - symmetry; apply Z.bits_inj'; intros n Hn.
    rewrite Z.land_spec, Z.pow2_bits_eqb, Z.bits_0 by lia.
    destruct (Z.eqb_spec (vendor_ecc_pub_key_idx p) n) as [<- |]; [rewrite Hb |]; reflexivity.
Qed.

Lemma ecc_idx_outside_flags_revoked_witness :
  0 <= vendor_ecc_pub_key_idx (preamble_with 8 5 1 0) < 32 /\
  vendor_ecc_pub_key_idx (preamble_with 8 5 1 0)
    < u32_sub (key_hash_count (ecc_key_descriptor (preamble_with 8 5 1 0))) 1 /\
  Z.testbit (VENDOR_ECC_REVOCATION_BITS consts) (vendor_ecc_pub_key_idx (preamble_with 8 5 1 0))
    = false /\
  verify_vendor_ecc_pk_idx consts (env Manufacturing false 0) (preamble_with 8 5 1 0) ColdReset
    = Err IMAGE_VERIFIER_ERR_VENDOR_ECC_PUB_KEY_REVOKED.
Proof.
  split; [vm_compute; split; congruence |].
  split; [vm_compute; reflexivity |].
  split; [vm_compute; reflexivity |].
  apply ecc_idx_outside_flags_revoked; vm_compute; [split; congruence | reflexivity | reflexivity].
Defined.

(** The update-reset flow leaves the data vault's update-reset status at
    [UpdateResetComplete] when it succeeds and at [UpdateResetStarted] when
    it fails, whatever the step that fails. *)
Theorem update_reset_status (ladder_step : Z -> option Z) (ladder_seed : Z)
    (verify_image : ImageManifest -> Z -> result ImageVerificationInfo)
    (extend_pcrs load_image : result unit) (txn : option UpdateTxn) (s : RomState) :
  rom_update_reset_status (data_vault (fst (update_reset_run ladder_step ladder_seed verify_image
                                              extend_pcrs load_image txn s))) =
  match snd (update_reset_run ladder_step ladder_seed verify_image extend_pcrs load_image txn s) with
  | Ok _ => UpdateResetComplete
  | Err _ => UpdateResetStarted
  end.
Proof.
  unfold update_reset_run, update_populate_data_vault.
  destruct txn as [t |]; [| reflexivity].
  destruct (utxn_is_firmware_load t); cbn [negb]; [| reflexivity].
  destruct (utxn_manifest t) as [m | e]; [| reflexivity].
  destruct (verify_image m (utxn_dlen t)) as [info | e]; [| reflexivity].
  destruct (extend_key_ladder _ _ _ _) as [chain | e]; [| reflexivity].
  destruct extend_pcrs; [| reflexivity].
  destruct load_image; reflexivity.
Qed.

(** When the update-reset flow's image verification fails, the flow
    returns that error and changes nothing but the update-reset status,
    set to [UpdateResetStarted], and the [manifest2] slot, which holds the
    received manifest: the data vault's other fields, the key ladder and
    [manifest1] are kept. *)
Theorem update_reset_rejected_image (ladder_step : Z -> option Z) (ladder_seed : Z)
    (verify_image : ImageManifest -> Z -> result ImageVerificationInfo)
    (extend_pcrs load_image : result unit) (t : UpdateTxn) (s : RomState)
    (m : ImageManifest) (e : CaliptraError) :
  utxn_is_firmware_load t = true -> utxn_manifest t = Ok m ->
  verify_image m (utxn_dlen t) = Err e ->
  update_reset_run ladder_step ladder_seed verify_image extend_pcrs load_image (Some t) s =
  (set_manifests (set_update_reset_status s UpdateResetStarted) (manifest1 s) (Some m), Err e).
Proof.
  intros Hf Hm Hv; unfold update_reset_run.
  rewrite Hf, Hm; cbn [negb]; rewrite Hv; reflexivity.
Qed.

Lemma update_reset_rejected_image_witness :
  utxn_is_firmware_load (update_txn 5) = true /\
  utxn_manifest (update_txn 5) = Ok (manifest 5) /\
  verify consts (with_dv_digests (env Manufacturing false 0) 5 0) (manifest 5)
    (utxn_dlen (update_txn 5)) UpdateReset
    = Err IMAGE_VERIFIER_ERR_UPDATE_RESET_OWNER_DIGEST_FAILURE /\
  update_reset_run ladder_step_ok 0
    (fun m n => verify consts (with_dv_digests (env Manufacturing false 0) 5 0) m n UpdateReset)
    (Ok tt) (Ok tt) (Some (update_txn 5)) (rom_state 8) =
  (set_manifests (set_update_reset_status (rom_state 8) UpdateResetStarted)
     (manifest1 (rom_state 8)) (Some (manifest 5)),
   Err IMAGE_VERIFIER_ERR_UPDATE_RESET_OWNER_DIGEST_FAILURE).
Proof.
  split; [reflexivity |]; split; [reflexivity |]; split; [vm_compute; reflexivity |].
  apply update_reset_rejected_image; [reflexivity | reflexivity | vm_compute; reflexivity].
Defined.

(** After a successful update reset, both manifest slots hold the received
    manifest, the data vault's Runtime digest and entry point are those of
    the verified Runtime, and its FMC digest, FMC entry point, owner key
    hash, cold-boot SVN, vendor key indices and manifest address are
    unchanged. *)
Theorem update_reset_success_state (ladder_step : Z -> option Z) (ladder_seed : Z)
    (verify_image : ImageManifest -> Z -> result ImageVerificationInfo)
    (extend_pcrs load_image : result unit) (txn : option UpdateTxn) (s s' : RomState) :
  update_reset_run ladder_step ladder_seed verify_image extend_pcrs load_image txn s = (s', Ok tt) ->
  exists t m info,
    txn = Some t /\ utxn_manifest t = Ok m /\ verify_image m (utxn_dlen t) = Ok info /\
    manifest1 s' = Some m /\ manifest2 s' = Some m /\
    rt_tci (data_vault s') = exe_digest (info_runtime info) /\
    rt_entry_point (data_vault s') = exe_entry_point (info_runtime info) /\
    fmc_tci (data_vault s') = fmc_tci (data_vault s) /\
    fmc_entry_point (data_vault s') = fmc_entry_point (data_vault s) /\
    owner_pk_hash (data_vault s') = owner_pk_hash (data_vault s) /\
    cold_boot_fw_svn (data_vault s') = cold_boot_fw_svn (data_vault s) /\
    vendor_ecc_pk_index (data_vault s') = vendor_ecc_pk_index (data_vault s) /\
    vendor_pqc_pk_index (data_vault s') = vendor_pqc_pk_index (data_vault s) /\
    manifest_addr (data_vault s') = manifest_addr (data_vault s).
Proof.
  intro H; unfold update_reset_run in H.
  destruct txn as [t |]; [| discriminate].
  destruct (utxn_is_firmware_load t); cbn [negb] in H; [| discriminate].
  destruct (utxn_manifest t) as [m | e] eqn:Hm; [| discriminate].
  destruct (verify_image m (utxn_dlen t)) as [info | e] eqn:Hv; [| discriminate].
  unfold update_populate_data_vault in H.
  destruct (extend_key_ladder _ _ _ _) as [chain | e]; [| discriminate].
  destruct extend_pcrs; [| discriminate].
  destruct load_image; [| discriminate].
  injection H as <-.
  exists t, m, info; repeat split; assumption.
Qed.

Lemma update_reset_success_state_witness :
  exists s',
    update_reset_run ladder_step_ok 0
      (fun m n => verify consts (env Manufacturing false 0) m n UpdateReset)
      (Ok tt) (Ok tt) (Some (update_txn 5)) (rom_state 8) = (s', Ok tt) /\
  exists t m info,
    Some (update_txn 5) = Some t /\ utxn_manifest t = Ok m /\
    verify consts (env Manufacturing false 0) m (utxn_dlen t) UpdateReset = Ok info /\
    manifest1 s' = Some m /\ manifest2 s' = Some m /\
    rt_tci (data_vault s') = exe_digest (info_runtime info) /\
    rt_entry_point (data_vault s') = exe_entry_point (info_runtime info) /\
    fmc_tci (data_vault s') = fmc_tci (data_vault (rom_state 8)) /\
    fmc_entry_point (data_vault s') = fmc_entry_point (data_vault (rom_state 8)) /\
    owner_pk_hash (data_vault s') = owner_pk_hash (data_vault (rom_state 8)) /\
    cold_boot_fw_svn (data_vault s') = cold_boot_fw_svn (data_vault (rom_state 8)) /\
    vendor_ecc_pk_index (data_vault s') = vendor_ecc_pk_index (data_vault (rom_state 8)) /\
    vendor_pqc_pk_index (data_vault s') = vendor_pqc_pk_index (data_vault (rom_state 8)) /\
    manifest_addr (data_vault s') = manifest_addr (data_vault (rom_state 8)).
Proof.
  eexists; split; [vm_compute; reflexivity |].
  apply (update_reset_success_state ladder_step_ok 0
           (fun m n => verify consts (env Manufacturing false 0) m n UpdateReset)
           (Ok tt) (Ok tt) (Some (update_txn 5)) (rom_state 8)).
  vm_compute; reflexivity.
Defined.

(** After a successful cold-boot firmware processing, [manifest1] holds the
    loaded manifest, [manifest2] is unchanged, the data vault holds the
    verified FMC and Runtime digests and entry points, the owner key digest
    and the vendor key indices verification returned, and the manifest
    address passed in, and its update-reset status is unchanged. *)
Theorem cold_process_success_state (c : Consts) (ladder_step : Z -> option Z) (ladder_seed : Z)
    (verify_image : ImageManifest -> Z -> result ImageVerificationInfo) (steps : ColdSteps)
    (loaded_manifest : result ImageManifest) (image_size_bytes manifest_address : Z)
    (s s' : RomState) (info : ImageVerificationInfo) :
  cold_process c ladder_step ladder_seed verify_image steps loaded_manifest image_size_bytes
    manifest_address s = (s', Ok info) ->
  exists m,
    loaded_manifest = Ok m /\ verify_image m image_size_bytes = Ok info /\
    manifest1 s' = Some m /\ manifest2 s' = manifest2 s /\
    fmc_tci (data_vault s') = exe_digest (info_fmc info) /\
    fmc_entry_point (data_vault s') = exe_entry_point (info_fmc info) /\
    rt_tci (data_vault s') = exe_digest (info_runtime info) /\
    rt_entry_point (data_vault s') = exe_entry_point (info_runtime info) /\
    owner_pk_hash (data_vault s') = info_owner_pub_keys_digest info /\
    vendor_ecc_pk_index (data_vault s') = info_vendor_ecc_pub_key_idx info /\
    vendor_pqc_pk_index (data_vault s') = info_vendor_pqc_pub_key_idx info /\
    manifest_addr (data_vault s') = manifest_address /\
    rom_update_reset_status (data_vault s') = rom_update_reset_status (data_vault s).
Proof.
  intro H; unfold cold_process in H.
  destruct loaded_manifest as [m | e]; [| discriminate].
  destruct (verify_image m image_size_bytes) as [info' | e] eqn:Hv; [| discriminate].
  destruct (cs_update_fuse_log steps); [| discriminate].
  destruct (cs_extend_pcrs steps), (cs_load_image steps), (cs_txn_complete steps);
    try discriminate.
  unfold populate_fw_key_ladder in H.
  destruct (_ >? _); [discriminate |].
  destruct (initialize_key_ladder _ _ _) as [chain | e]; [| discriminate].
  injection H as <- <-.
  exists m; repeat split; assumption.
Qed.

Lemma cold_process_success_state_witness :
  exists s' info,
    cold_process consts ladder_step_ok 0
      (fun m n => verify consts (env Manufacturing false 0) m n ColdReset)
      cold_steps_ok (Ok (manifest 5)) 300 7 (rom_state 0) = (s', Ok info) /\
  exists m,
    Ok (manifest 5) = Ok m /\
    verify consts (env Manufacturing false 0) m 300 ColdReset = Ok info /\
    manifest1 s' = Some m /\ manifest2 s' = manifest2 (rom_state 0) /\
    fmc_tci (data_vault s') = exe_digest (info_fmc info) /\
    fmc_entry_point (data_vault s') = exe_entry_point (info_fmc info) /\
    rt_tci (data_vault s') = exe_digest (info_runtime info) /\
    rt_entry_point (data_vault s') = exe_entry_point (info_runtime info) /\
    owner_pk_hash (data_vault s') = info_owner_pub_keys_digest info /\
    vendor_ecc_pk_index (data_vault s') = info_vendor_ecc_pub_key_idx info /\
    vendor_pqc_pk_index (data_vault s') = info_vendor_pqc_pub_key_idx info /\
    manifest_addr (data_vault s') = 7 /\
    rom_update_reset_status (data_vault s') = rom_update_reset_status (data_vault (rom_state 0)).
Proof.
  do 2 eexists; split; [vm_compute; reflexivity |].
  apply (cold_process_success_state consts ladder_step_ok 0
           (fun m n => verify consts (env Manufacturing false 0) m n ColdReset)
           cold_steps_ok (Ok (manifest 5)) 300 7 (rom_state 0)).
  vm_compute; reflexivity.
Defined.

(** When the cold-boot image verification fails, the firmware processing
    returns that error with only [manifest1] changed, to the loaded
    manifest: the data vault, the key ladder and [manifest2] are kept. *)
Theorem cold_process_rejected_image (c : Consts) (ladder_step : Z -> option Z) (ladder_seed : Z)
    (verify_image : ImageManifest -> Z -> result ImageVerificationInfo) (steps : ColdSteps)
    (image_size_bytes manifest_address : Z) (s : RomState) (m : ImageManifest)
    (e : CaliptraError) :
  verify_image m image_size_bytes = Err e ->
  cold_process c ladder_step ladder_seed verify_image steps (Ok m) image_size_bytes
    manifest_address s = (set_manifests s (Some m) (manifest2 s), Err e).
Proof.
  intro Hv; unfold cold_process; rewrite Hv; reflexivity.
Qed.

Lemma cold_process_rejected_image_witness :
  verify consts (env Manufacturing false 0) (manifest 129) 300 ColdReset
    = Err IMAGE_VERIFIER_ERR_FIRMWARE_SVN_GREATER_THAN_MAX_SUPPORTED /\
  cold_process consts ladder_step_ok 0
    (fun m n => verify consts (env Manufacturing false 0) m n ColdReset)
    cold_steps_ok (Ok (manifest 129)) 300 0 (rom_state 0) =
  (set_manifests (rom_state 0) (Some (manifest 129)) (manifest2 (rom_state 0)),
   Err IMAGE_VERIFIER_ERR_FIRMWARE_SVN_GREATER_THAN_MAX_SUPPORTED).
Proof.
  split; [vm_compute; reflexivity |].
  apply cold_process_rejected_image; vm_compute; reflexivity.
Defined.

Lemma firstn_list_set_le {A} (l : list A) m n x :
  (m <= n)%nat -> firstn m (list_set l n x) = firstn m l.
Proof.
  revert m n; induction l as [| h t IH]; intros m n Hmn; [reflexivity |].
  destruct m as [| m]; [reflexivity |].
  destruct n as [| n]; [lia |]; cbn; f_equal; apply IH; lia.
Qed.

Lemma skipn_list_set_gt {A} (l : list A) k n x :
  (n < k)%nat -> skipn k (list_set l n x) = skipn k l.
Proof.
  revert k n; induction l as [| h t IH]; intros k n Hnk; [reflexivity |].
  destruct k as [| k]; [lia |].
  destruct n as [| n]; cbn; [reflexivity | apply IH; lia].
Qed.

Section MailboxFacts.

Variable RESERVED_PAUSER IMAGE_BYTE_SIZE STASH_MEASUREMENT_REQ_BYTE_SIZE : Z.
Variable verify_checksum : StashMeasurementReq -> bool.
Variable extend_pcr : Z -> Z -> option Z.

Lemma stash_measurement_Ok s dlen req s' :
  stash_measurement STASH_MEASUREMENT_REQ_BYTE_SIZE verify_checksum extend_pcr s dlen req = Ok s' ->
  meas_log_index s' = meas_log_index s + 1 /\
  (Z.to_nat (meas_log_index s) < length (measurement_log s))%nat /\
  exists e, measurement_log s' = list_set (measurement_log s) (Z.to_nat (meas_log_index s)) e.
Proof.
  unfold stash_measurement, extend_measurement, log_measurement; intro H.
  apply bind_Ok_inv in H as [u [_ H]].
  apply bind_Ok_inv in H as [p [_ H]]; cbn [measurement_log meas_log_index] in H.
  destruct (nth_error (measurement_log s) (Z.to_nat (meas_log_index s))) eqn:Hn;
    [| discriminate].
  injection H as <-; cbn.
  split; [reflexivity |]; split; [| eexists; reflexivity].
  apply nth_error_Some; congruence.
Qed.

(** The pre-firmware-load mailbox loop keeps the length of the measurement
    log, never decreases the log index, never takes an index of at most
    [MEASUREMENT_MAX_COUNT] above it, leaves the log entries below the
    starting index as they were, and writes no entry at or above the final
    index: it only fills the slots between the starting and the final
    index. *)
Theorem mailbox_log_frame (txns : list MboxTxn) (s : FwProcState) :
  0 <= meas_log_index s ->
  let s' := fst (process_mailbox_commands RESERVED_PAUSER IMAGE_BYTE_SIZE
                   STASH_MEASUREMENT_REQ_BYTE_SIZE verify_checksum extend_pcr txns s) in
  length (measurement_log s') = length (measurement_log s) /\
  meas_log_index s <= meas_log_index s' /\
  (meas_log_index s <= MEASUREMENT_MAX_COUNT -> meas_log_index s' <= MEASUREMENT_MAX_COUNT) /\
  firstn (Z.to_nat (meas_log_index s)) (measurement_log s')
    = firstn (Z.to_nat (meas_log_index s)) (measurement_log s) /\
  skipn (Z.to_nat (meas_log_index s')) (measurement_log s')
    = skipn (Z.to_nat (meas_log_index s')) (measurement_log s).
Proof.
  revert s; induction txns as [| t rest IH]; intros s Hi; cbv zeta.
  - cbn; repeat split; lia.
  - cbn [process_mailbox_commands].
    destruct (txn_id t =? RESERVED_PAUSER); [cbn; repeat split; lia |].
    destruct (txn_cmd t) as [| req | [u | e] |].
    + destruct (_ || _); cbn; repeat split; lia.
    + destruct (meas_log_index s =? MEASUREMENT_MAX_COUNT) eqn:Hmax;
        [cbn; repeat split; lia |].
      destruct (stash_measurement _ _ _ _ _ _) as [s1 | e] eqn:Hs; [| cbn; repeat split; lia].
      destruct (stash_measurement_Ok _ _ _ _ Hs) as (Hi1 & Hlt & le & Hl1).
      apply Z.eqb_neq in Hmax.
      destruct (IH (add_completion s1 Responded)) as (L & I & M & F & Sk);
        [cbn; lia |].
      cbn [add_completion meas_log_index measurement_log] in L, I, M, F, Sk.
      rewrite Hi1, Hl1 in *.
      rewrite length_list_set in L.
      set (s'' := fst _) in *.
      assert (Ei : Z.to_nat (meas_log_index s + 1) = S (Z.to_nat (meas_log_index s))) by lia.
      rewrite Ei in F.
      split; [exact L |]; split; [lia |]; split; [unfold MEASUREMENT_MAX_COUNT in *; lia |].
      split.
      * transitivity (firstn (Z.to_nat (meas_log_index s))
                        (firstn (S (Z.to_nat (meas_log_index s))) (measurement_log s''))).
        { rewrite firstn_firstn; f_equal; lia. }
        rewrite F, firstn_firstn.
        replace (Nat.min (Z.to_nat (meas_log_index s)) (S (Z.to_nat (meas_log_index s))))
          with (Z.to_nat (meas_log_index s)) by lia.
        apply firstn_list_set_le; lia.
      * rewrite Sk; apply skipn_list_set_gt; lia.
    + exact (IH (add_completion s Responded) Hi).
    + cbn; repeat split; lia.
    + cbn; repeat split; lia.
Qed.

End MailboxFacts.

Lemma mailbox_log_frame_witness :
  0 <= meas_log_index fw_proc_empty /\
  let s' := fst (process_mailbox_commands 0xFFFFFFFF 0x20000 52 (fun _ => true)
                   (fun p x => Some (p + x))
                   (map (stash_txn 52 1) [stash_req 1; stash_req 2]) fw_proc_empty) in
  length (measurement_log s') = length (measurement_log fw_proc_empty) /\
  meas_log_index fw_proc_empty <= meas_log_index s' /\
  (meas_log_index fw_proc_empty <= MEASUREMENT_MAX_COUNT ->
   meas_log_index s' <= MEASUREMENT_MAX_COUNT) /\
  firstn (Z.to_nat (meas_log_index fw_proc_empty)) (measurement_log s')
    = firstn (Z.to_nat (meas_log_index fw_proc_empty)) (measurement_log fw_proc_empty) /\
  skipn (Z.to_nat (meas_log_index s')) (measurement_log s')
    = skipn (Z.to_nat (meas_log_index s')) (measurement_log fw_proc_empty).
Proof.
  split; [vm_compute; discriminate |].
  apply (mailbox_log_frame 0xFFFFFFFF 0x20000 52 (fun _ => true) (fun p x => Some (p + x))).
  vm_compute; discriminate.
Defined.

Section MailboxExit.

Variable RESERVED_PAUSER IMAGE_BYTE_SIZE STASH_MEASUREMENT_REQ_BYTE_SIZE : Z.
Variable verify_checksum : StashMeasurementReq -> bool.
Variable extend_pcr : Z -> Z -> option Z.


(** A STASH_MEASUREMENT request below the measurement limit whose length
    is not the request size ends the loop with
    [FW_PROC_MAILBOX_INVALID_REQUEST_LENGTH], and one of the right length
    whose checksum does not verify ends it with
    [FW_PROC_MAILBOX_INVALID_CHECKSUM]; in both cases PCR31, the
    measurement log and its index are left as they were. *)
Theorem mailbox_stash_bad_request (t : MboxTxn) (req : StashMeasurementReq)
    (rest : list MboxTxn) (s : FwProcState) :
  txn_id t <> RESERVED_PAUSER -> txn_cmd t = CmdStashMeasurement req ->
  meas_log_index s <> MEASUREMENT_MAX_COUNT ->
  (txn_dlen t <> STASH_MEASUREMENT_REQ_BYTE_SIZE ->
   process_mailbox_commands RESERVED_PAUSER IMAGE_BYTE_SIZE STASH_MEASUREMENT_REQ_BYTE_SIZE
     verify_checksum extend_pcr (t :: rest) s
   = (s, LoopError FW_PROC_MAILBOX_INVALID_REQUEST_LENGTH)) /\
  (txn_dlen t = STASH_MEASUREMENT_REQ_BYTE_SIZE -> verify_checksum req = false ->
   process_mailbox_commands RESERVED_PAUSER IMAGE_BYTE_SIZE STASH_MEASUREMENT_REQ_BYTE_SIZE
     verify_checksum extend_pcr (t :: rest) s
   = (s, LoopError FW_PROC_MAILBOX_INVALID_CHECKSUM)).
Proof.
  intros Hid Hc Hm.
  cbn [process_mailbox_commands].
  rewrite (proj2 (Z.eqb_neq _ _) Hid), Hc, (proj2 (Z.eqb_neq _ _) Hm).
  unfold stash_measurement, copy_req_verify_chksum.
  split.
  - intro Hl; rewrite (proj2 (Z.eqb_neq _ _) Hl); reflexivity.
  - intros Hl Hck; rewrite Hl, Z.eqb_refl, Hck; reflexivity.
Qed.

End MailboxExit.


Lemma mailbox_stash_bad_request_witness :
  txn_id (stash_txn 51 1 (stash_req 1)) <> 0xFFFFFFFF /\
  txn_cmd (stash_txn 51 1 (stash_req 1)) = CmdStashMeasurement (stash_req 1) /\
  meas_log_index fw_proc_empty <> MEASUREMENT_MAX_COUNT /\
  process_mailbox_commands 0xFFFFFFFF 0x20000 52 (fun _ => false) (fun p x => Some (p + x))
    [stash_txn 51 1 (stash_req 1)] fw_proc_empty
  = (fw_proc_empty, LoopError FW_PROC_MAILBOX_INVALID_REQUEST_LENGTH) /\
  process_mailbox_commands 0xFFFFFFFF 0x20000 52 (fun _ => false) (fun p x => Some (p + x))
    [stash_txn 52 1 (stash_req 1)] fw_proc_empty
  = (fw_proc_empty, LoopError FW_PROC_MAILBOX_INVALID_CHECKSUM).
Proof.
  split; [vm_compute; discriminate |].
  split; [reflexivity |].
  split; [vm_compute; discriminate |].
  split.
  - apply (proj1 (mailbox_stash_bad_request 0xFFFFFFFF 0x20000 52 (fun _ => false)
                    (fun p x => Some (p + x)) (stash_txn 51 1 (stash_req 1)) (stash_req 1) []
                    fw_proc_empty ltac:(vm_compute; discriminate) eq_refl
                    ltac:(vm_compute; discriminate))).
    vm_compute; discriminate.
  - apply (proj2 (mailbox_stash_bad_request 0xFFFFFFFF 0x20000 52 (fun _ => false)
                    (fun p x => Some (p + x)) (stash_txn 52 1 (stash_req 1)) (stash_req 1) []
                    fw_proc_empty ltac:(vm_compute; discriminate) eq_refl
                    ltac:(vm_compute; discriminate))); reflexivity.
Defined.

Lemma firstn_add_split {A} (l : list A) a b :
  firstn (a + b) l = firstn a l ++ firstn b (skipn a l).
Proof.
  revert l; induction a as [| a IH]; intro l; [reflexivity |].
  destruct l as [| x l]; cbn; [destruct b; reflexivity | f_equal; apply IH].
Qed.

Lemma mod_u32_wrap x : U32_MOD <= x < 2 * U32_MOD -> x mod U32_MOD = x - U32_MOD.
Proof.
  intro Hx; symmetry; apply (Z.mod_unique x U32_MOD 1); [left; lia | lia].
Qed.

(** In active mode, with a manifest size, FMC size and Runtime size that
    are [u32] values and a mailbox SRAM shorter than [2^32] bytes, loading
    the images succeeds exactly when the manifest and the two images fit in
    the SRAM, whatever the sizes' sum (the wrap-around checks catch every
    overflow). Then the manifest, the bytes copied to the FMC load address
    and the bytes copied to the Runtime load address, of the FMC and
    Runtime sizes, are in this order the first bytes of the SRAM. *)
Theorem load_image_active_layout (c : Consts) (m : ImageManifest) (mbox_sram : list Z) :
  0 <= MANIFEST_BYTE_SIZE c < U32_MOD -> 0 <= size (fmc m) < U32_MOD ->
  0 <= size (runtime m) < U32_MOD -> Z.of_nat (length mbox_sram) < U32_MOD ->
  (snd (load_image_active c m mbox_sram) = Ok tt <->
   MANIFEST_BYTE_SIZE c + size (fmc m) + size (runtime m) <= Z.of_nat (length mbox_sram)) /\
  (MANIFEST_BYTE_SIZE c + size (fmc m) + size (runtime m) <= Z.of_nat (length mbox_sram) ->
   exists mb fb rb,
     load_manifest_active c mbox_sram = Ok mb /\
     fst (load_image_active c m mbox_sram) = [(load_addr (fmc m), fb); (load_addr (runtime m), rb)] /\
     Z.of_nat (length fb) = size (fmc m) /\ Z.of_nat (length rb) = size (runtime m) /\
     mb ++ fb ++ rb
       = firstn (Z.to_nat (MANIFEST_BYTE_SIZE c + size (fmc m) + size (runtime m))) mbox_sram).
Proof.
  intros HM Hf Hr Hl.
  set (M := MANIFEST_BYTE_SIZE c) in *; set (fs := size (fmc m)) in *;
    set (rs := size (runtime m)) in *; set (L := Z.of_nat (length mbox_sram)) in *.
  unfold load_image_active; fold M fs rs L.
  destruct (Z.lt_ge_cases (M + fs) U32_MOD) as [Hmf | Hmf].
  2: { rewrite (mod_u32_wrap (M + fs)) by lia.
       replace ((M >? M + fs - U32_MOD) || (L <? M + fs - U32_MOD)) with true
         by (symmetry; apply orb_true_iff; left; rewrite Z.gtb_ltb; apply Z.ltb_lt; lia).
       cbn; split; [split; [discriminate | lia] | lia]. }
  rewrite (Z.mod_small (M + fs)) by lia.
  replace (M >? M + fs) with false by (symmetry; rewrite Z.gtb_ltb; apply Z.ltb_ge; lia).
  cbn [orb].
  destruct (Z.ltb_spec L (M + fs)) as [HL1 | HL1].
  { cbn; split; [split; [discriminate | lia] | lia]. }
  destruct (Z.lt_ge_cases (M + fs + rs) U32_MOD) as [Hmr | Hmr].
  2: { rewrite (mod_u32_wrap (M + fs + rs)) by lia.
       replace ((M + fs >? M + fs + rs - U32_MOD) || (L <? M + fs + rs - U32_MOD)) with true
         by (symmetry; apply orb_true_iff; left; rewrite Z.gtb_ltb; apply Z.ltb_lt; lia).
       cbn; split; [split; [discriminate | lia] | lia]. }
  rewrite (Z.mod_small (M + fs + rs)) by lia.
  replace (M + fs >? M + fs + rs) with false by (symmetry; rewrite Z.gtb_ltb; apply Z.ltb_ge; lia).
  cbn [orb].
  destruct (Z.ltb_spec L (M + fs + rs)) as [HL2 | HL2].
  { cbn; split; [split; [discriminate | lia] | lia]. }
  split; [cbn; split; [intros _; lia | reflexivity] |].
  intros _.
  unfold load_manifest_active; fold M L.
  replace (L <? M) with false by (symmetry; apply Z.ltb_ge; lia).
  unfold sram_slice.
  replace (M + fs - M) with fs by lia; replace (M + fs + rs - (M + fs)) with rs by lia.
  eexists _, _, _; split; [reflexivity |]; split; [reflexivity |].
  assert (HLn : (Z.to_nat M + Z.to_nat fs + Z.to_nat rs <= length mbox_sram)%nat) by lia.
  rewrite !length_firstn, !length_skipn.
  split; [lia |]; split; [lia |].
  replace (Z.to_nat (M + fs + rs)) with (Z.to_nat M + (Z.to_nat fs + Z.to_nat rs))%nat by lia.
  rewrite firstn_add_split, firstn_add_split, skipn_skipn.
  replace (Z.to_nat (M + fs)) with (Z.to_nat fs + Z.to_nat M)%nat by lia.
  reflexivity.
Qed.

Lemma load_image_active_layout_witness :
  0 <= MANIFEST_BYTE_SIZE consts < U32_MOD /\ 0 <= size (fmc (manifest 5)) < U32_MOD /\
  0 <= size (runtime (manifest 5)) < U32_MOD /\ Z.of_nat (length (repeat 7 300)) < U32_MOD /\
  (snd (load_image_active consts (manifest 5) (repeat 7 300)) = Ok tt <->
   MANIFEST_BYTE_SIZE consts + size (fmc (manifest 5)) + size (runtime (manifest 5))
     <= Z.of_nat (length (repeat 7 300))).
Proof.
  split; [vm_compute; split; congruence |].
  split; [vm_compute; split; congruence |].
  split; [vm_compute; split; congruence |].
  split; [vm_compute; reflexivity |].
  apply (proj1 (load_image_active_layout consts (manifest 5) (repeat 7 300)
                  ltac:(vm_compute; split; congruence) ltac:(vm_compute; split; congruence)
                  ltac:(vm_compute; split; congruence) ltac:(vm_compute; reflexivity))).
Defined.

(** ** No MLDSA digest-missing error *)

Lemma errs_bind_dep {A B} P (m : result A) (k : A -> result B) :
  errs_in P m -> (forall a, m = Ok a -> errs_in P (k a)) -> errs_in P (bind m k).
Proof. destruct m; simpl; auto. Qed.

Section NoDigestMissing.

Variable c : Consts.
Variable env : Env.

Lemma verify_preamble_no_digest_missing p reason pqc :
  errs_in not_mldsa_digest_missing (verify_preamble c env p reason pqc).
Proof.
  unfold verify_preamble.
  apply errs_bind;
    [unfold verify_vendor_pub_key_info_digest, verify_active_ecc_pub_key_digest,
       verify_active_pqc_pub_key_digest; errs_solve | intros _].
  all: unfold verify_owner_pk_digest, verify_vendor_ecc_pk_idx, verify_vendor_pqc_pk_idx;
    errs_solve.
  all: split; discriminate.
Qed.

Lemma verify_header_no_digest_missing h hi pqc vpk vsg opk osg :
  hi_vendor_pqc_info hi = pqc_info_of pqc vpk vsg ->
  hi_owner_pqc_info hi = pqc_info_of pqc opk osg ->
  errs_in not_mldsa_digest_missing (verify_header c env h hi).
Proof.
  intros Hv Ho; unfold verify_header; rewrite Hv, Ho.
  do 2 (apply errs_bind; [apply errs_map_err; split; discriminate | intro]).
  apply errs_bind_dep.
  - destruct pqc; cbn [pqc_info_of]; cbv beta iota; errs_solve; split; discriminate.
  - intros d Hd; destruct pqc; cbn [pqc_info_of] in Hd |- *; cbv beta iota in Hd.
    + injection Hd as <-.
      unfold verify_vendor_sig, verify_owner_sig, verify_pqc_sig, verify_ecc_sig,
        verify_lms_sig; errs_solve.
      all: split; discriminate.
    + apply bind_Ok_inv in Hd as [v [_ Hd]]; apply bind_Ok_inv in Hd as [o [_ Hd]].
      injection Hd as <-.
      unfold verify_vendor_sig, verify_owner_sig, verify_pqc_sig, verify_ecc_sig,
        verify_mldsa_sig; errs_solve.
      all: split; discriminate.
Qed.

Lemma verify_images_no_digest_missing m sz reason :
  errs_in not_mldsa_digest_missing (verify_images c env m sz reason).
Proof.
  unfold verify_images.
  do 5 (apply errs_bind; [first [ apply errs_fail_if; split; discriminate
                                | apply errs_map_err; split; discriminate ] | intro ]).
  apply errs_bind_dep; [apply verify_preamble_no_digest_missing | intros hi Hp].
  destruct (verify_preamble_Ok_fields c env _ _ _ _ Hp) as (_ & _ & _ & _ & _ & _ & _ & Hv & Ho).
  apply errs_bind; [apply (verify_header_no_digest_missing _ _ _ _ _ _ _ Hv Ho) | intro].
  apply errs_bind; [unfold verify_toc, image_range; errs_solve; split; discriminate | intro].
  apply errs_bind; [unfold verify_fmc, image_range; errs_solve; split; discriminate | intro].
  apply errs_bind; [unfold verify_runtime, image_range; errs_solve; split; discriminate | intro].
  exact I.
Qed.

End NoDigestMissing.

(** [verify] never fails with [IMAGE_VERIFIER_ERR_VENDOR_MLDSA_DIGEST_MISSING]
    or [IMAGE_VERIFIER_ERR_OWNER_MLDSA_DIGEST_MISSING]: [verify_preamble] gives
    the vendor and the owner PQC key the same type, and [verify_header]
    computes both SHA-512 digests whenever that type is MLDSA. *)
Theorem verify_never_mldsa_digest_missing (c : Consts) (env : Env) (m : ImageManifest)
    (sz : Z) (reason : ResetReason) :
  verify c env m sz reason <> Err IMAGE_VERIFIER_ERR_VENDOR_MLDSA_DIGEST_MISSING /\
  verify c env m sz reason <> Err IMAGE_VERIFIER_ERR_OWNER_MLDSA_DIGEST_MISSING.
Proof.
  assert (H : errs_in not_mldsa_digest_missing (verify c env m sz reason)).
  { unfold verify.
    apply errs_bind; [apply verify_images_no_digest_missing | intros [[[? ?] ?] ?]].
    unfold verify_svn; errs_solve; split; discriminate. }
  destruct (verify c env m sz reason) as [i | e]; [split; discriminate |].
  destruct H as [H1 H2]; split; congruence.
Qed.

End Facts.
